(** * Metatron memory services: learning-pattern store and conversation flows

    A shallow embedding of
      - [backend/memory/learning/vanna_learning_adapter.py]
        (class [VannaLearningAdapter]) and
      - [backend/memory/conversation/rasa_conversation_manager.py]
        (class [RasaConversationManager]),
    followed by the properties of the two classes.

    Conventions of the embedding.
      - Python floats are rationals ([Q]) and float arithmetic is exact.
      - A timestamp is the instant itself, in microseconds ([Z]); the source
        stores [datetime.now().isoformat()] and reads it back with
        [datetime.fromisoformat].
      - A Python [dict] is the list of its values in insertion order, keyed
        by the [id] field the source uses as key.
      - Every method takes the object state and returns the new state next
        to its result.  The results of [uuid.uuid4()] and [datetime.now()]
        are arguments of the method that makes the call.
      - scikit-learn is outside the repository: its operations are the
        fields of the class [Sklearn].
      - Writing the JSON and pickle files does not change the state of the
        objects and is left out. *)

From Stdlib Require Import List String Ascii ZArith QArith Bool Lia Lqa.
From Stdlib Require Import Sorted Permutation.
Import ListNotations.

Local Open Scope string_scope.
Local Open Scope list_scope.
Local Open Scope Z_scope.
Local Open Scope Q_scope.

(** ** Python helpers *)

Module Py.

Definition Time := Z.

Definition Qltb (x y : Q) : bool := negb (Qle_bool y x).

(** [min(a, b)]: the first of the smallest arguments. *)
Definition min (a b : Q) : Q := if Qltb b a then b else a.

(** [l[:n]] for an integer [n]; a negative [n] counts from the end. *)
Definition prefix {A} (n : Z) (l : list A) : list A :=
  if (0 <=? n)%Z then firstn (Z.to_nat n) l
  else firstn (List.length l - Z.to_nat (- n)) l.

(** [l[-n:]]: the last [n] items for [n > 0], the whole list for [n = 0]
    (as [-0] is [0]), and [l[|n|:]] for a negative [n]. *)
Definition suffix {A} (n : Z) (l : list A) : list A :=
  if (0 <? n)%Z then skipn (List.length l - Z.to_nat n) l
  else skipn (Z.to_nat (- n)) l.

(** The first item that satisfies [f], with its position: a reference to an
    object held in a list or dict. *)
Fixpoint find_first {A} (f : A -> bool) (l : list A) : option (nat * A) :=
  match l with
  | [] => None
  | x :: r => if f x then Some (O, x)
              else option_map (fun iy => (S (fst iy), snd iy)) (find_first f r)
  end.

(** Truth value of a string and of an optional string. *)
Definition truthy (s : string) : bool :=
  match s with EmptyString => false | String _ _ => true end.

Definition truthy_opt (s : option string) : bool :=
  match s with None => false | Some x => truthy x end.

Fixpoint replace_nth {A} (i : nat) (y : A) (l : list A) : list A :=
  match l, i with
  | [], _ => []
  | _ :: r, O => y :: r
  | x :: r, S j => x :: replace_nth j y r
  end.

(** [list.sort(key=..., reverse=True)] is stable: items with equal keys keep
    their order.  The result of a stable sort does not depend on the
    algorithm, so an insertion sort stands for it. *)
Section Sort.
Context {A : Type} (key : A -> Q).

Fixpoint insert_desc (x : A) (l : list A) : list A :=
  match l with
  | [] => [x]
  | y :: r => if Qltb (key x) (key y) then y :: insert_desc x r
              else x :: y :: r
  end.

Fixpoint sort_desc (l : list A) : list A :=
  match l with
  | [] => []
  | x :: r => insert_desc x (sort_desc r)
  end.

(** [x] may stand before [y] in a list sorted by non-increasing key. *)
Definition not_below (x y : A) : Prop := key y <= key x.

(** The items whose key equals [v]. *)
Definition has_key (v : Q) (x : A) : bool := Qeq_bool (key x) v.

End Sort.

(** ASCII reading of [str.lower()], [str.split()] and [in] on strings. *)
Definition lower_ascii (c : ascii) : ascii :=
  let n := nat_of_ascii c in
  if (65 <=? n)%nat && (n <=? 90)%nat then ascii_of_nat (n + 32) else c.

Fixpoint lower (s : string) : string :=
  match s with
  | EmptyString => EmptyString
  | String c r => String (lower_ascii c) (lower r)
  end.

Definition is_space (c : ascii) : bool :=
  let n := nat_of_ascii c in
  ((9 <=? n)%nat && (n <=? 13)%nat) ||
  ((28 <=? n)%nat && (n <=? 32)%nat).

(** [split_acc cur s]: the words of [s], [cur] being the reversed word
    under construction. *)
Fixpoint split_acc (cur : list ascii) (s : string) : list string :=
  let flush := match cur with
               | [] => []
               | _ => [string_of_list_ascii (rev cur)]
               end in
  match s with
  | EmptyString => flush
  | String c r => if is_space c then flush ++ split_acc [] r
                  else split_acc (c :: cur) r
  end.

Definition split (s : string) : list string := split_acc [] s.

Fixpoint is_prefix (p s : string) : bool :=
  match p, s with
  | EmptyString, _ => true
  | String a p', String b s' => Ascii.eqb a b && is_prefix p' s'
  | String _ _, EmptyString => false
  end.

(** [p in s] *)
Fixpoint contains (p s : string) : bool :=
  is_prefix p s ||
  match s with
  | EmptyString => false
  | String _ s' => contains p s'
  end.

(** [s.replace(old, new)] for a non-empty [old]; [skip] counts the
    characters of a match still to be passed over. *)
Fixpoint replace_from (skip : nat) (old new s : string) : string :=
  match s with
  | EmptyString => EmptyString
  | String c r =>
    match skip with
    | S k => replace_from k old new r
    | O => if is_prefix old s
           then String.append new
                  (replace_from (String.length old - 1) old new r)
           else String c (replace_from 0 old new r)
    end
  end.

Definition replace (old new s : string) : string := replace_from 0 old new s.

(** [l[n]]: a negative index counts from the end; [None] is [IndexError]. *)
Definition index {A} (n : Z) (l : list A) : option A :=
  if (0 <=? n)%Z then nth_error l (Z.to_nat n)
  else if (- Z.of_nat (List.length l) <=? n)%Z
       then nth_error l (Z.to_nat (Z.of_nat (List.length l) + n))
       else None.

(** [l1] lists some items of [l2], in the order of [l2]. *)
Inductive subseq {A} : list A -> list A -> Prop :=
| subseq_nil : subseq [] []
| subseq_skip x l1 l2 : subseq l1 l2 -> subseq l1 (x :: l2)
| subseq_take x l1 l2 : subseq l1 l2 -> subseq (x :: l1) (x :: l2).

(** [set(l)] as a duplicate-free list. *)
Definition to_set (l : list string) : list string := nodup string_dec l.

Definition mem (x : string) (l : list string) : bool :=
  existsb (String.eqb x) l.

End Py.

(** ** scikit-learn, as the adapter uses it *)

(** The two vectorizers the adapter builds:
    [TfidfVectorizer(max_features=1000, stop_words='english')] for the index
    and [TfidfVectorizer()] inside [_calculate_text_similarity]. *)
Inductive VectorizerConfig := IndexVectorizer | DefaultVectorizer.

Class Sklearn := {
  (** a row of a TF-IDF matrix *)
  Vec : Type;
  (** [fit(corpus)] succeeds; it raises [ValueError] on an empty vocabulary *)
  fit_ok : VectorizerConfig -> list string -> bool;
  (** [transform([text])] by the vectorizer fitted on the corpus *)
  transform : VectorizerConfig -> list string -> string -> Vec;
  (** [cosine_similarity] of two rows *)
  cosine_similarity : Vec -> Vec -> Q
}.

(** ** The learning adapter *)

Module Learning.

Record LearningPattern := {
  id : string;
  pattern_type : string;
  input_context : string;
  successful_output : string;
  success_score : Q;
  brain_region : string;
  metadata : list (string * string);
  created_at : Py.Time;
  usage_count : Z;
  last_used : option Py.Time;
  effectiveness_score : Q
}.

Record FeedbackRecord := {
  fb_id : string;
  fb_pattern_id : string;
  fb_user_id : string;
  fb_feedback_type : string;
  fb_original_output : string;
  fb_corrected_output : option string;
  fb_feedback_score : Q;
  fb_timestamp : Py.Time;
  fb_context : list (string * string)
}.

(** [self.patterns] and [self.feedback_records] as dicts keyed by id. *)
Definition dict_ref (k : string) (l : list LearningPattern)
  : option (nat * LearningPattern) :=
  Py.find_first (fun p => String.eqb (id p) k) l.

Definition dict_get (k : string) (l : list LearningPattern)
  : option LearningPattern :=
  option_map snd (dict_ref k l).

Definition dict_set (p : LearningPattern) (l : list LearningPattern)
  : list LearningPattern :=
  match dict_ref (id p) l with
  | Some (i, _) => Py.replace_nth i p l
  | None => l ++ [p]
  end.

Definition dict_del (k : string) (l : list LearningPattern)
  : list LearningPattern :=
  filter (fun p => negb (String.eqb (id p) k)) l.

Definition fb_set (r : FeedbackRecord) (l : list FeedbackRecord)
  : list FeedbackRecord :=
  match Py.find_first (fun x => String.eqb (fb_id x) (fb_id r)) l with
  | Some (i, _) => Py.replace_nth i r l
  | None => l ++ [r]
  end.

Section Adapter.
Context {SK : Sklearn}.

Record Adapter := {
  min_success_score : Q;
  pattern_decay_days : Z;
  patterns : list LearningPattern;
  feedback_records : list FeedbackRecord;
  (** the corpus of the last successful [fit]; [None] before any *)
  vectorizer : option (list string);
  pattern_vectors : option (list Vec)
}.

Definition with_patterns (a : Adapter) (ps : list LearningPattern) : Adapter :=
  {| min_success_score := min_success_score a;
     pattern_decay_days := pattern_decay_days a;
     patterns := ps;
     feedback_records := feedback_records a;
     vectorizer := vectorizer a;
     pattern_vectors := pattern_vectors a |}.

Definition with_feedback (a : Adapter) (fs : list FeedbackRecord) : Adapter :=
  {| min_success_score := min_success_score a;
     pattern_decay_days := pattern_decay_days a;
     patterns := patterns a;
     feedback_records := fs;
     vectorizer := vectorizer a;
     pattern_vectors := pattern_vectors a |}.

Definition with_index (a : Adapter) (corpus : list string) (rows : list Vec)
  : Adapter :=
  {| min_success_score := min_success_score a;
     pattern_decay_days := pattern_decay_days a;
     patterns := patterns a;
     feedback_records := feedback_records a;
     vectorizer := Some corpus;
     pattern_vectors := Some rows |}.

(** The vectorizer after a [fit] that raised: [fit] drops the fitted
    weights before it reads the documents, so the vectorizer is unfitted
    again; the vectors are not touched. *)
Definition unfitted (a : Adapter) : Adapter :=
  {| min_success_score := min_success_score a;
     pattern_decay_days := pattern_decay_days a;
     patterns := patterns a;
     feedback_records := feedback_records a;
     vectorizer := None;
     pattern_vectors := pattern_vectors a |}.

(** [__init__] on a configuration with no stored files. *)
Definition init (min_score : Q) (decay_days : Z) : Adapter :=
  {| min_success_score := min_score;
     pattern_decay_days := decay_days;
     patterns := [];
     feedback_records := [];
     vectorizer := None;
     pattern_vectors := None |}.

(** [_update_vectorizer] with [_update_pattern_vectors]: nothing happens on
    an empty store.  A failing [fit] is caught and logged: it leaves the
    vectorizer unfitted, and [_update_pattern_vectors] is not reached, so
    the vectors stay as they were. *)
Definition _update_vectorizer (a : Adapter) : Adapter :=
  match patterns a with
  | [] => a
  | _ =>
    let pattern_texts := map input_context (patterns a) in
    if fit_ok IndexVectorizer pattern_texts
    then with_index a pattern_texts
           (map (transform IndexVectorizer pattern_texts) pattern_texts)
    else unfitted a
  end.

(** [_calculate_text_similarity]; the bare [except] gives [0.0]. *)
Definition _calculate_text_similarity (text1 text2 : string) : Q :=
  if fit_ok DefaultVectorizer [text1; text2]
  then cosine_similarity
         (transform DefaultVectorizer [text1; text2] text1)
         (transform DefaultVectorizer [text1; text2] text2)
  else 0.

Definition similar_to (input_context pattern_type brain_region : string)
  (p : LearningPattern) : bool :=
  String.eqb (Learning.pattern_type p) pattern_type &&
  String.eqb (Learning.brain_region p) brain_region &&
  Py.Qltb (8 # 10) (_calculate_text_similarity input_context
                      (Learning.input_context p)).

(** [_find_similar_pattern]: the first similar pattern in dict order.  The
    source returns the object itself, which the caller then mutates; the
    model returns its position next to its contents. *)
Definition _find_similar_pattern (a : Adapter)
  (input_context pattern_type brain_region : string)
  : option (nat * LearningPattern) :=
  Py.find_first (similar_to input_context pattern_type brain_region)
    (patterns a).

(** The calls [learn_from_interaction] makes to the outside: one [uuid4()]
    and, in call order, up to two [datetime.now()]. *)
Record LearnCalls := {
  uuid4 : string;
  now_1 : Py.Time;
  now_2 : Py.Time
}.

Definition learn_from_interaction (a : Adapter) (io : LearnCalls)
  (input_context output_result : string) (success_score : Q)
  (brain_region pattern_type : string) (metadata : list (string * string))
  : option string * Adapter :=
  if Py.Qltb success_score (min_success_score a) then (None, a)
  else
    match _find_similar_pattern a input_context pattern_type brain_region with
    | Some (i, similar_pattern) =>
      let updated :=
        {| id := id similar_pattern;
           pattern_type := Learning.pattern_type similar_pattern;
           input_context := Learning.input_context similar_pattern;
           successful_output := successful_output similar_pattern;
           success_score := Learning.success_score similar_pattern;
           brain_region := Learning.brain_region similar_pattern;
           metadata := Learning.metadata similar_pattern;
           created_at := created_at similar_pattern;
           usage_count := (usage_count similar_pattern + 1)%Z;
           last_used := Some (now_1 io);
           effectiveness_score :=
             effectiveness_score similar_pattern * (9 # 10)
             + success_score * (1 # 10) |} in
      (Some (id similar_pattern),
       with_patterns a (Py.replace_nth i updated (patterns a)))
    | None =>
      let pattern_id := uuid4 io in
      let new_pattern :=
        {| id := pattern_id;
           pattern_type := pattern_type;
           input_context := input_context;
           successful_output := output_result;
           success_score := success_score;
           brain_region := brain_region;
           metadata := metadata;
           created_at := now_1 io;
           usage_count := 1;
           last_used := Some (now_2 io);
           effectiveness_score := success_score |} in
      (Some pattern_id,
       _update_vectorizer
         (with_patterns a (dict_set new_pattern (patterns a))))
    end.

(** [get_learning_stats()['total_patterns']] *)
Definition total_patterns (a : Adapter) : Z :=
  Z.of_nat (List.length (patterns a)).

(** [if f and value != f: continue] *)
Definition filtered_out (f : option string) (value : string) : bool :=
  match f with
  | None => false
  | Some s => Py.truthy s && negb (String.eqb value s)
  end.

Definition is_candidate (pattern_type brain_region : option string)
  (p : LearningPattern) : bool :=
  negb (filtered_out pattern_type (Learning.pattern_type p)) &&
  negb (filtered_out brain_region (Learning.brain_region p)).

Definition combined_score (similarity : Q) (p : LearningPattern) : Q :=
  similarity * (7 # 10) + effectiveness_score p * (3 # 10).

(** Word overlap of [_simple_text_matching]: [None] when both word sets are
    empty, in which case the pattern is not scored at all. *)
Definition word_overlap (query context : string) : option Q :=
  let query_words := Py.to_set (Py.split (Py.lower query)) in
  let pattern_words := Py.to_set (Py.split (Py.lower context)) in
  let overlap :=
    List.length (filter (fun w => Py.mem w pattern_words) query_words) in
  let total_words :=
    (List.length query_words +
     List.length (filter (fun w => negb (Py.mem w query_words))
                    pattern_words))%nat in
  match total_words with
  | O => None
  | S _ => Some (Z.of_nat overlap # Pos.of_nat total_words)
  end.

Fixpoint text_scores (query : string) (ps : list LearningPattern)
  : list (LearningPattern * Q) :=
  match ps with
  | [] => []
  | p :: r =>
    match word_overlap query (Learning.input_context p) with
    | Some similarity => (p, combined_score similarity p) :: text_scores query r
    | None => text_scores query r
    end
  end.

Definition _simple_text_matching (query : string)
  (ps : list LearningPattern) (limit : Z) : list LearningPattern :=
  map fst (Py.prefix limit (Py.sort_desc snd (text_scores query ps))).

(** The scored list of the vector path: candidate number [i] is paired with
    [similarities[i]], and candidates beyond the last row are dropped. *)
Definition vector_scores (similarities : list Q)
  (candidate_patterns : list LearningPattern) : list (LearningPattern * Q) :=
  map (fun ps => (fst ps, combined_score (snd ps) (fst ps)))
      (combine candidate_patterns similarities).

Definition retrieve_relevant_patterns (a : Adapter) (query_context : string)
  (pattern_type brain_region : option string) (limit : Z)
  : list LearningPattern :=
  match patterns a with
  | [] => []
  | _ =>
    let candidate_patterns :=
      filter (is_candidate pattern_type brain_region) (patterns a) in
    match candidate_patterns with
    | [] => []
    | _ =>
      match pattern_vectors a with
      | Some rows =>
        match vectorizer a with
        | None => []  (* [transform] on an unfitted vectorizer raises *)
        | Some corpus =>
          let query_vector := transform IndexVectorizer corpus query_context in
          let similarities := map (cosine_similarity query_vector) rows in
          let scored_patterns :=
            vector_scores similarities candidate_patterns in
          map fst (Py.prefix limit (Py.sort_desc snd scored_patterns))
        end
      | None => _simple_text_matching query_context candidate_patterns limit
      end
    end
  end.

(** The list [scored_patterns] that [retrieve_relevant_patterns] (or its
    fallback) sorts: empty where the method returns early. *)
Definition scored_patterns (a : Adapter) (query_context : string)
  (pattern_type brain_region : option string) : list (LearningPattern * Q) :=
  let candidate_patterns :=
    filter (is_candidate pattern_type brain_region) (patterns a) in
  match pattern_vectors a with
  | Some rows =>
    match vectorizer a with
    | None => []
    | Some corpus =>
      vector_scores
        (map (cosine_similarity
                (transform IndexVectorizer corpus query_context)) rows)
        candidate_patterns
    end
  | None => text_scores query_context candidate_patterns
  end.

(** The ranking as the specification words it: every candidate is scored by
    0.7 times the cosine similarity between the query and the candidate's
    own [input_context] plus 0.3 times its [effectiveness_score]; the
    similarity is 0 while the vectorizer is not fitted. *)
Definition own_similarity (a : Adapter) (query_context : string)
  (p : LearningPattern) : Q :=
  match vectorizer a with
  | Some corpus =>
    cosine_similarity
      (transform IndexVectorizer corpus query_context)
      (transform IndexVectorizer corpus (Learning.input_context p))
  | None => 0
  end.

Definition retrieve_by_own_similarity (a : Adapter) (query_context : string)
  (pattern_type brain_region : option string) (limit : Z)
  : list LearningPattern :=
  let candidate_patterns :=
    filter (is_candidate pattern_type brain_region) (patterns a) in
  map fst
    (Py.prefix limit
       (Py.sort_desc snd
          (map (fun p =>
                  (p, combined_score (own_similarity a query_context p) p))
               candidate_patterns))).

(** The calls [record_feedback] makes to the outside. *)
Record FeedbackCalls := {
  fb_uuid4 : string;
  fb_now : Py.Time;
  fb_learn : LearnCalls
}.

Definition set_effectiveness (p : LearningPattern) (e : Q) : LearningPattern :=
  {| id := id p;
     pattern_type := Learning.pattern_type p;
     input_context := Learning.input_context p;
     successful_output := successful_output p;
     success_score := Learning.success_score p;
     brain_region := Learning.brain_region p;
     metadata := Learning.metadata p;
     created_at := created_at p;
     usage_count := usage_count p;
     last_used := last_used p;
     effectiveness_score := e |}.

Definition record_feedback (a : Adapter) (io : FeedbackCalls)
  (pattern_id user_id feedback_type : string) (feedback_score : Q)
  (original_output : string) (corrected_output : option string)
  (context : list (string * string)) : option string * Adapter :=
  let feedback_id := fb_uuid4 io in
  let feedback_record :=
    {| fb_id := feedback_id;
       fb_pattern_id := pattern_id;
       fb_user_id := user_id;
       fb_feedback_type := feedback_type;
       fb_original_output := original_output;
       fb_corrected_output := corrected_output;
       fb_feedback_score := feedback_score;
       fb_timestamp := fb_now io;
       fb_context := context |} in
  let a1 := with_feedback a (fb_set feedback_record (feedback_records a)) in
  match dict_ref pattern_id (patterns a1) with
  | Some (i, pattern) =>
    let pattern' :=
      set_effectiveness pattern
        (effectiveness_score pattern * (8 # 10)
         + (feedback_score + 1) / 2 * (2 # 10)) in
    let a2 := with_patterns a1 (Py.replace_nth i pattern' (patterns a1)) in
    match corrected_output with
    | Some corrected =>
      if Py.truthy corrected && Py.Qltb 0 feedback_score
      then (Some feedback_id,
            snd (learn_from_interaction a2 (fb_learn io)
                   (Learning.input_context pattern') corrected
                   (Py.min 1 (feedback_score + (1 # 2)))
                   (Learning.brain_region pattern')
                   (Learning.pattern_type pattern')
                   [("source", "user_correction");
                    ("original_pattern", pattern_id)]))
      else (Some feedback_id, a2)
    | None => (Some feedback_id, a2)
    end
  | None => (Some feedback_id, a1)
  end.

(** [timedelta(days=d)] in microseconds. *)
Definition days (d : Z) : Z := (d * 86400000000)%Z.

(** The test of [cleanup_old_patterns]: old and not effective. *)
Definition to_remove (a : Adapter) (now : Py.Time) (p : LearningPattern)
  : bool :=
  let cutoff_date := (now - days (pattern_decay_days a))%Z in
  (created_at p <? cutoff_date)%Z &&
  Py.Qltb (effectiveness_score p) (1 # 2) &&
  (usage_count p <? 3)%Z.

Definition cleanup_old_patterns (a : Adapter) (now : Py.Time) : Adapter :=
  let patterns_to_remove := map id (filter (to_remove a now) (patterns a)) in
  let a1 :=
    with_patterns a
      (fold_left (fun l k => dict_del k l) patterns_to_remove (patterns a)) in
  match patterns_to_remove with
  | [] => a1
  | _ => _update_vectorizer a1
  end.

(** *** Notions for the properties of the adapter *)

Definition in_unit (q : Q) : Prop := 0 <= q /\ q <= 1.

(** Every stored [effectiveness_score] and [success_score] lies in [0,1]. *)
Definition scores_bounded (a : Adapter) : Prop :=
  Forall (fun p => in_unit (effectiveness_score p) /\
                   in_unit (Learning.success_score p)) (patterns a).

(** The index is current: the vectorizer is fitted on the texts of the
    stored patterns and the vectors are their rows, in dict order. *)
Definition index_current (a : Adapter) : Prop :=
  let texts := map Learning.input_context (patterns a) in
  vectorizer a = Some texts /\
  pattern_vectors a = Some (map (transform IndexVectorizer texts) texts).

(** [p'] is the pattern [p] after further use: same identity and content,
    [usage_count] not smaller. *)
Definition grown (p p' : LearningPattern) : Prop :=
  id p' = id p /\
  Learning.pattern_type p' = Learning.pattern_type p /\
  Learning.input_context p' = Learning.input_context p /\
  Learning.brain_region p' = Learning.brain_region p /\
  created_at p' = created_at p /\
  (usage_count p <= usage_count p')%Z.

(** The index is current whenever the store is not empty. *)
Definition indexed (a : Adapter) : Prop :=
  patterns a = [] \/ index_current a.

(** [self.feedback_records.get(k)] *)
Definition fb_get (k : string) (l : list FeedbackRecord)
  : option FeedbackRecord :=
  option_map snd (Py.find_first (fun x => String.eqb (fb_id x) k) l).

End Adapter.
End Learning.

(** ** The conversation manager *)

Module Conversation.

Inductive ConversationState :=
| IDLE | LISTENING | PROCESSING | WAITING_FOR_INPUT | AGENT_HANDOFF
| FLOW_EXECUTION | MEMORY_RETRIEVAL | COMPLETED | ERROR.

Inductive FlowType :=
| SIMPLE_QA | MEMORY_INTERACTION | MULTI_STEP_TASK | AGENT_COORDINATION
| TOOL_USAGE | LEARNING_FEEDBACK.

(** The values the manager keeps in [flow_variables]: the step counter, a
    duration in seconds, collected user input, and an ISO timestamp written
    by the manager itself. *)
Inductive Value :=
| VInt (n : Z)
| VFloat (q : Q)
| VStr (s : string)
| VTime (t : Py.Time).

(** What the Python runtime supplies: [str(value)] and
    [datetime.fromisoformat] on a text that did not come from
    [isoformat()]. *)
Class PyRuntime := {
  py_str : Value -> string;
  fromisoformat : string -> option Py.Time
}.

(** Dicts with string keys, in insertion order. *)
Section Assoc.
Context {V : Type}.

Definition assoc_ref (k : string) (l : list (string * V))
  : option (nat * (string * V)) :=
  Py.find_first (fun kv => String.eqb (fst kv) k) l.

Definition assoc_get (k : string) (l : list (string * V)) : option V :=
  option_map (fun r => snd (snd r)) (assoc_ref k l).

Definition assoc_mem (k : string) (l : list (string * V)) : bool :=
  match assoc_ref k l with Some _ => true | None => false end.

Definition assoc_set (k : string) (v : V) (l : list (string * V))
  : list (string * V) :=
  match assoc_ref k l with
  | Some (i, _) => Py.replace_nth i (k, v) l
  | None => l ++ [(k, v)]
  end.

End Assoc.

Record HistoryEntry := {
  role : string;
  content : string;
  timestamp : Py.Time;
  entry_brain_region : string
}.

Record MemoryResult := {
  mr_query : string;
  mr_brain_region : string;
  mr_results : list string;
  mr_timestamp : Py.Time
}.

Record AgentResult := {
  ar_agent_id : string;
  ar_agent_name : string;
  ar_request : string;
  ar_response : string;
  ar_status : string;
  ar_timestamp : Py.Time
}.

Record ConversationContext := {
  session_id : string;
  user_id : string;
  current_state : ConversationState;
  current_flow : option string;
  flow_type : option FlowType;
  brain_region : string;
  memory_context : list (string * MemoryResult);
  agent_context : list (string * AgentResult);
  flow_variables : list (string * Value);
  conversation_history : list HistoryEntry;
  created_at : Py.Time;
  updated_at : Py.Time;
  metadata : list (string * string)
}.

(** A step is a dict with the optional keys ['type'] and ['data']. *)
Record Step := {
  step_type : option string;
  step_data : list (string * string)
}.

Record ConversationFlow := {
  flow_id : string;
  flow_name : string;
  cf_flow_type : FlowType;
  description : string;
  trigger_patterns : list string;
  brain_regions : list string;
  steps : list Step;
  required_context : list string;
  expected_duration : Z;
  fallback_actions : list string
}.

Record AgentCapability := {
  agent_id : string;
  agent_name : string
}.

Record Manager := {
  sessions : list ConversationContext;
  flows : list ConversationFlow;
  agents : list AgentCapability;
  max_conversation_history : Z;
  default_brain_region : string
}.

Inductive Error :=
| SessionNotFound (session : string)
| FlowNotFound (flow : string)
| UnknownStepType (type : string)
| AgentNotFound (agent : option string)
| TypeError
| ValueError
| IndexError
| KeyError.

Inductive Payload :=
| NoPayload
| Response (text : string)
| MemoryPayload (r : MemoryResult)
| AgentPayload (r : AgentResult)
| ConditionPayload (condition_result : bool)
| InputPayload (variable value : string)
| FlowPayload (flow name : string) (duration : Value).

(** The dict a method returns; a key the dict lacks is [None]. *)
Record Result := {
  success : bool;
  error : option Error;
  payload : Payload;
  step_completed : option bool;
  flow_completed : option bool;
  next_state : option ConversationState
}.

Definition set_state (c : ConversationContext) (s : ConversationState)
  : ConversationContext :=
  {| session_id := session_id c; user_id := user_id c;
     current_state := s;
     current_flow := current_flow c; flow_type := flow_type c;
     brain_region := brain_region c; memory_context := memory_context c;
     agent_context := agent_context c; flow_variables := flow_variables c;
     conversation_history := conversation_history c;
     created_at := created_at c; updated_at := updated_at c;
     metadata := metadata c |}.

Definition set_flow (c : ConversationContext) (f : option string)
  (t : option FlowType) : ConversationContext :=
  {| session_id := session_id c; user_id := user_id c;
     current_state := current_state c;
     current_flow := f; flow_type := t;
     brain_region := brain_region c; memory_context := memory_context c;
     agent_context := agent_context c; flow_variables := flow_variables c;
     conversation_history := conversation_history c;
     created_at := created_at c; updated_at := updated_at c;
     metadata := metadata c |}.

Definition set_memory_context (c : ConversationContext)
  (mc : list (string * MemoryResult)) : ConversationContext :=
  {| session_id := session_id c; user_id := user_id c;
     current_state := current_state c;
     current_flow := current_flow c; flow_type := flow_type c;
     brain_region := brain_region c; memory_context := mc;
     agent_context := agent_context c; flow_variables := flow_variables c;
     conversation_history := conversation_history c;
     created_at := created_at c; updated_at := updated_at c;
     metadata := metadata c |}.

Definition set_agent_context (c : ConversationContext)
  (ac : list (string * AgentResult)) : ConversationContext :=
  {| session_id := session_id c; user_id := user_id c;
     current_state := current_state c;
     current_flow := current_flow c; flow_type := flow_type c;
     brain_region := brain_region c; memory_context := memory_context c;
     agent_context := ac; flow_variables := flow_variables c;
     conversation_history := conversation_history c;
     created_at := created_at c; updated_at := updated_at c;
     metadata := metadata c |}.

Definition set_flow_variables (c : ConversationContext)
  (fv : list (string * Value)) : ConversationContext :=
  {| session_id := session_id c; user_id := user_id c;
     current_state := current_state c;
     current_flow := current_flow c; flow_type := flow_type c;
     brain_region := brain_region c; memory_context := memory_context c;
     agent_context := agent_context c; flow_variables := fv;
     conversation_history := conversation_history c;
     created_at := created_at c; updated_at := updated_at c;
     metadata := metadata c |}.

Definition set_history (c : ConversationContext) (h : list HistoryEntry)
  : ConversationContext :=
  {| session_id := session_id c; user_id := user_id c;
     current_state := current_state c;
     current_flow := current_flow c; flow_type := flow_type c;
     brain_region := brain_region c; memory_context := memory_context c;
     agent_context := agent_context c; flow_variables := flow_variables c;
     conversation_history := h;
     created_at := created_at c; updated_at := updated_at c;
     metadata := metadata c |}.

Definition set_updated_at (c : ConversationContext) (t : Py.Time)
  : ConversationContext :=
  {| session_id := session_id c; user_id := user_id c;
     current_state := current_state c;
     current_flow := current_flow c; flow_type := flow_type c;
     brain_region := brain_region c; memory_context := memory_context c;
     agent_context := agent_context c; flow_variables := flow_variables c;
     conversation_history := conversation_history c;
     created_at := created_at c; updated_at := t;
     metadata := metadata c |}.

Definition with_sessions (m : Manager) (ss : list ConversationContext)
  : Manager :=
  {| sessions := ss; flows := flows m; agents := agents m;
     max_conversation_history := max_conversation_history m;
     default_brain_region := default_brain_region m |}.

Definition session_ref (k : string) (m : Manager)
  : option (nat * ConversationContext) :=
  Py.find_first (fun c => String.eqb (session_id c) k) (sessions m).

Definition session_get (k : string) (m : Manager)
  : option ConversationContext :=
  option_map snd (session_ref k m).

Definition flow_get (k : string) (m : Manager) : option ConversationFlow :=
  option_map snd
    (Py.find_first (fun f => String.eqb (flow_id f) k) (flows m)).

Definition agent_get (k : string) (m : Manager) : option AgentCapability :=
  option_map snd
    (Py.find_first (fun g => String.eqb (agent_id g) k) (agents m)).

(** [_add_to_conversation_history] *)
Definition _add_to_conversation_history (m : Manager)
  (context : ConversationContext) (role content : string) (now : Py.Time)
  : ConversationContext :=
  let message_entry :=
    {| role := role; content := content; timestamp := now;
       entry_brain_region := brain_region context |} in
  let appended := conversation_history context ++ [message_entry] in
  if (max_conversation_history m <? Z.of_nat (List.length appended))%Z
  then set_history context (Py.suffix (max_conversation_history m) appended)
  else set_history context appended.

(** [_classify_brain_region] *)
Definition _classify_brain_region (message : string) : string :=
  let message_lower := Py.lower message in
  let any := existsb (fun word => Py.contains word message_lower) in
  if any ["remember"; "memory"; "recall"; "forget"] then "TEMPORAL_LOBE"
  else if any ["my"; "i am"; "personal"; "preference"] then "OCCIPITAL_LOBE"
  else if any ["working"; "current"; "task"; "now"] then "PARIETAL_LOBE"
  else if any ["tool"; "system"; "function"; "api"] then "CEREBELLUM"
  else "FRONTAL_LOBE".

Section Engine.
Context {RT : PyRuntime}.

(** [d.get(k, default)] *)
Definition get_default (k default : string) (d : list (string * string))
  : string :=
  match assoc_get k d with Some v => v | None => default end.

Definition failed_step (e : Error) : Result :=
  {| success := false; error := Some e; payload := NoPayload;
     step_completed := Some false; flow_completed := None;
     next_state := None |}.

Definition failed (e : Error) : Result :=
  {| success := false; error := Some e; payload := NoPayload;
     step_completed := None; flow_completed := None;
     next_state := Some ERROR |}.

Definition completed_step (p : Payload) (next : ConversationState) : Result :=
  {| success := true; error := None; payload := p;
     step_completed := Some true; flow_completed := None;
     next_state := Some next |}.

(** [_execute_message_step] *)
Definition _execute_message_step (m : Manager) (context : ConversationContext)
  (step_data : list (string * string)) (message : string) (now : Py.Time)
  : Result * ConversationContext :=
  let response_template := get_default "template" "I understand." step_data in
  let response :=
    fold_left
      (fun response kv =>
         Py.replace (String.append "{" (String.append (fst kv) "}"))
           (py_str (snd kv)) response)
      (flow_variables context) response_template in
  (completed_step (Response response) WAITING_FOR_INPUT,
   _add_to_conversation_history m context "assistant" response now).

(** [_execute_memory_step] *)
Definition _execute_memory_step (context : ConversationContext)
  (step_data : list (string * string)) (message : string) (now : Py.Time)
  : Result * ConversationContext :=
  let memory_result :=
    {| mr_query := get_default "query" message step_data;
       mr_brain_region :=
         get_default "brain_region" (brain_region context) step_data;
       mr_results := [];
       mr_timestamp := now |} in
  (completed_step (MemoryPayload memory_result) PROCESSING,
   set_memory_context context
     (assoc_set "last_query" memory_result (memory_context context))).

(** [_execute_agent_step] *)
Definition _execute_agent_step (m : Manager) (context : ConversationContext)
  (step_data : list (string * string)) (message : string) (now : Py.Time)
  : Result * ConversationContext :=
  let agent_id := assoc_get "agent_id" step_data in
  match agent_id with
  | None => (failed_step (AgentNotFound agent_id), context)
  | Some aid =>
    if negb (Py.truthy aid) then (failed_step (AgentNotFound agent_id), context)
    else
      match agent_get aid m with
      | None => (failed_step (AgentNotFound agent_id), context)
      | Some agent =>
        let agent_result :=
          {| ar_agent_id := aid;
             ar_agent_name := agent_name agent;
             ar_request := message;
             ar_response :=
               String.append "Agent "
                 (String.append (agent_name agent)
                    (String.append " processed: " message));
             ar_status := "completed";
             ar_timestamp := now |} in
        (completed_step (AgentPayload agent_result) PROCESSING,
         set_agent_context context
           (assoc_set aid agent_result (agent_context context)))
      end
  end.

(** [_evaluate_condition] *)
Definition _evaluate_condition (condition : string)
  (context : ConversationContext) (message : string) : bool :=
  if Py.contains "has_memory" condition
  then match memory_context context with [] => false | _ => true end
  else true.

(** [_execute_condition_step] *)
Definition _execute_condition_step (context : ConversationContext)
  (step_data : list (string * string)) (message : string)
  : Result * ConversationContext :=
  let condition := get_default "condition" "true" step_data in
  let result :=
    if String.eqb condition "true" then true
    else if String.eqb condition "false" then false
    else _evaluate_condition condition context message in
  (completed_step (ConditionPayload result) PROCESSING, context).

(** [_execute_input_step] *)
Definition _execute_input_step (context : ConversationContext)
  (step_data : list (string * string)) (message : string)
  : Result * ConversationContext :=
  let variable_name := get_default "variable" "user_input" step_data in
  (completed_step (InputPayload variable_name message) PROCESSING,
   set_flow_variables context
     (assoc_set variable_name (VStr message) (flow_variables context))).

(** [_execute_flow_step] *)
Definition _execute_flow_step (m : Manager) (context : ConversationContext)
  (step : Step) (message : string) (now : Py.Time)
  : Result * ConversationContext :=
  let step_type :=
    match Conversation.step_type step with Some t => t | None => "message" end in
  let step_data := Conversation.step_data step in
  if String.eqb step_type "message"
  then _execute_message_step m context step_data message now
  else if String.eqb step_type "memory_query"
  then _execute_memory_step context step_data message now
  else if String.eqb step_type "agent_call"
  then _execute_agent_step m context step_data message now
  else if String.eqb step_type "condition"
  then _execute_condition_step context step_data message
  else if String.eqb step_type "input_collection"
  then _execute_input_step context step_data message
  else (failed_step (UnknownStepType step_type), context).

(** [(datetime.now() - start_dt).total_seconds()] *)
Definition total_seconds (now start : Py.Time) : Q :=
  inject_Z (now - start) / inject_Z 1000000.

(** [_complete_flow].  The state and the flow slot are reset before the
    duration is computed, so they stay reset when the start time cannot be
    read and the method returns its failure dict. *)
Definition _complete_flow (context : ConversationContext)
  (flow : ConversationFlow) (now : Py.Time) : Result * ConversationContext :=
  let c1 := set_flow (set_state context COMPLETED) None (flow_type context) in
  let done (c : ConversationContext) :=
    ({| success := true; error := None;
        payload :=
          FlowPayload (flow_id flow) (flow_name flow)
            match assoc_get "flow_duration" (flow_variables c) with
            | Some d => d
            | None => VInt 0
            end;
        step_completed := None; flow_completed := Some true;
        next_state := Some IDLE |}, c) in
  let broken (e : Error) :=
    ({| success := false; error := Some e; payload := NoPayload;
        step_completed := None; flow_completed := Some false;
        next_state := None |}, c1) in
  let record (start : Py.Time) :=
    done (set_flow_variables c1
            (assoc_set "flow_duration" (VFloat (total_seconds now start))
               (flow_variables c1))) in
  match assoc_get "flow_start_time" (flow_variables c1) with
  | None => done c1
  | Some (VTime start) => record start
  | Some (VStr s) =>
    if Py.truthy s
    then match fromisoformat s with
         | Some start => record start
         | None => broken ValueError
         end
    else done c1
  | Some (VInt n) => if (n =? 0)%Z then done c1 else broken TypeError
  | Some (VFloat q) => if Qeq_bool q 0 then done c1 else broken TypeError
  end.

(** The calls [process_message] makes to [datetime.now()], by call site. *)
Record MessageCalls := {
  now_updated_at : Py.Time;
  now_message : Py.Time;
  now_flow_start : Py.Time;
  now_step : Py.Time;
  now_complete : Py.Time
}.

(** [context.flow_variables['current_step'] += 1] *)
Definition increment_step (context : ConversationContext)
  : Error + ConversationContext :=
  let bump v :=
    inr (set_flow_variables context
           (assoc_set "current_step" v (flow_variables context))) in
  match assoc_get "current_step" (flow_variables context) with
  | Some (VInt n) => bump (VInt (n + 1))
  | Some (VFloat q) => bump (VFloat (q + 1))
  | Some (VStr _) => inl TypeError
  | Some (VTime _) => inl TypeError
  | None => inl KeyError
  end.

(** [_execute_conversation_flow] *)
Definition _execute_conversation_flow (m : Manager) (io : MessageCalls)
  (context : ConversationContext) (flow_id message : string)
  : Result * ConversationContext :=
  match flow_get flow_id m with
  | None => (failed (FlowNotFound flow_id), context)
  | Some flow =>
    let c1 :=
      set_state (set_flow context (Some flow_id) (Some (cf_flow_type flow)))
        FLOW_EXECUTION in
    let c2 :=
      if assoc_mem "current_step" (flow_variables c1) then c1
      else set_flow_variables c1
             (assoc_set "flow_start_time" (VTime (now_flow_start io))
                (assoc_set "current_step" (VInt 0) (flow_variables c1))) in
    let run_step (n : Z) :=
      match Py.index n (steps flow) with
      | None => (failed IndexError, c2)
      | Some step =>
        let '(step_result, c3) :=
          _execute_flow_step m c2 step message (now_step io) in
        match step_completed step_result with
        | Some true =>
          match increment_step c3 with
          | inr c4 => (step_result, c4)
          | inl e => (failed e, c3)
          end
        | _ => (step_result, c3)
        end
      end in
    let step_count := Z.of_nat (List.length (steps flow)) in
    match assoc_get "current_step" (flow_variables c2) with
    | Some (VInt n) =>
      if (step_count <=? n)%Z then _complete_flow c2 flow (now_complete io)
      else run_step n
    | Some (VFloat q) =>
      if Qle_bool (inject_Z step_count) q
      then _complete_flow c2 flow (now_complete io)
      else (failed TypeError, c2)
    | Some (VStr _) => (failed TypeError, c2)
    | Some (VTime _) => (failed TypeError, c2)
    | None => (failed KeyError, c2)
    end
  end.

(** The score [_determine_conversation_flow] gives to one flow. *)
Definition flow_score (context : ConversationContext) (message_lower : string)
  (flow : ConversationFlow) : Q :=
  let s1 :=
    fold_left
      (fun score pattern =>
         if Py.contains (Py.lower pattern) message_lower
         then score + 1 else score)
      (trigger_patterns flow) 0 in
  let s2 :=
    if Py.mem (brain_region context) (brain_regions flow)
    then s1 + (1 # 2) else s1 in
  let context_match :=
    forallb (fun req => assoc_mem req (flow_variables context))
      (required_context flow) in
  if context_match then s2 + (3 # 10) else s2.

(** [_determine_conversation_flow]: the keys ['flow_id'] and
    ['confidence'] of its result. *)
Definition _determine_conversation_flow (m : Manager)
  (context : ConversationContext) (message : string) : option string * Q :=
  let message_lower := Py.lower message in
  fold_left
    (fun best flow =>
       let score := flow_score context message_lower flow in
       if Py.Qltb (snd best) score && Py.Qltb (1 # 2) score
       then (Some (flow_id flow), score)
       else best)
    (flows m) (None, 0).

(** [_default_message_processing] *)
Definition _default_message_processing (m : Manager)
  (context : ConversationContext) (message : string) (now : Py.Time)
  : Result * ConversationContext :=
  let c1 := set_state context LISTENING in
  let response :=
    String.append "I understand you said: "
      (String.append message ". How can I help you further?") in
  ({| success := true; error := None; payload := Response response;
      step_completed := None; flow_completed := None;
      next_state := Some WAITING_FOR_INPUT |},
   _add_to_conversation_history m c1 "assistant" response now).

(** [process_message].  The context is an object shared with
    [self.sessions]: what a callee changed before failing stays changed. *)
Definition process_message (m : Manager) (io : MessageCalls)
  (session_id message message_type : string) : Result * Manager :=
  match session_ref session_id m with
  | None => (failed (SessionNotFound session_id), m)
  | Some (i, context) =>
    let c1 :=
      set_updated_at (set_state context PROCESSING) (now_updated_at io) in
    let c2 :=
      _add_to_conversation_history m c1 message_type message (now_message io) in
    let flow_result := _determine_conversation_flow m c2 message in
    let '(result, c3) :=
      match fst flow_result with
      | Some flow_id =>
        if Py.truthy flow_id
        then _execute_conversation_flow m io c2 flow_id message
        else _default_message_processing m c2 message (now_step io)
      | None => _default_message_processing m c2 message (now_step io)
      end in
    (result, with_sessions m (Py.replace_nth i c3 (sessions m)))
  end.

(** The calls [start_conversation] makes to the outside. *)
Record StartCalls := {
  start_uuid4 : string;
  start_now_1 : Py.Time;
  start_now_2 : Py.Time;
  start_now_3 : Py.Time
}.

Definition sessions_set (c : ConversationContext)
  (l : list ConversationContext) : list ConversationContext :=
  match Py.find_first (fun x => String.eqb (session_id x) (session_id c)) l with
  | Some (i, _) => Py.replace_nth i c l
  | None => l ++ [c]
  end.

(** [start_conversation] *)
Definition start_conversation (m : Manager) (io : StartCalls)
  (user_id initial_message : string) (session_id : option string)
  : ConversationContext * Manager :=
  let existing :=
    match session_id with
    | Some sid => if Py.truthy sid then session_ref sid m else None
    | None => None
    end in
  let context :=
    match existing with
    | Some (_, c) => set_updated_at c (start_now_1 io)
    | None =>
      {| Conversation.session_id := start_uuid4 io;
         Conversation.user_id := user_id;
         current_state := LISTENING;
         current_flow := None;
         flow_type := None;
         brain_region := _classify_brain_region initial_message;
         memory_context := [];
         agent_context := [];
         flow_variables := [];
         conversation_history := [];
         created_at := start_now_1 io;
         updated_at := start_now_2 io;
         metadata := [] |}
    end in
  let context' :=
    _add_to_conversation_history m context "user" initial_message
      (start_now_3 io) in
  (context', with_sessions m (sessions_set context' (sessions m))).

(** *** Runs of the manager *)

(** One [process_message] call of a run. *)
Record Input := {
  in_message : string;
  in_type : string;
  in_calls : MessageCalls
}.

(** The flow that [process_message] hands to [_execute_conversation_flow]
    on this call, if any. *)
Definition selected_flow (m : Manager) (session_id : string) (i : Input)
  : option string :=
  match session_ref session_id m with
  | None => None
  | Some (_, context) =>
    let c1 :=
      set_updated_at (set_state context PROCESSING)
        (now_updated_at (in_calls i)) in
    let c2 :=
      _add_to_conversation_history m c1 (in_type i) (in_message i)
        (now_message (in_calls i)) in
    match fst (_determine_conversation_flow m c2 (in_message i)) with
    | Some flow_id => if Py.truthy flow_id then Some flow_id else None
    | None => None
    end
  end.

Definition call (m : Manager) (session_id : string) (i : Input)
  : Result * Manager :=
  process_message m (in_calls i) session_id (in_message i) (in_type i).

(** The manager after the calls of [inputs], in order. *)
Definition run (m : Manager) (session_id : string) (inputs : list Input)
  : Manager :=
  fold_left (fun m i => snd (call m session_id i)) inputs m.

(** Every call of the run selects [flow_id] and returns
    [step_completed = True]. *)
Fixpoint driven_by (session_id flow_id : string) (m : Manager)
  (inputs : list Input) : Prop :=
  match inputs with
  | [] => True
  | i :: rest =>
    selected_flow m session_id i = Some flow_id /\
    step_completed (fst (call m session_id i)) = Some true /\
    driven_by session_id flow_id (snd (call m session_id i)) rest
  end.

(** The step is an input collection that stores into [variable]. *)
Definition writes_variable (variable : string) (step : Step) : bool :=
  String.eqb
    (match step_type step with Some t => t | None => "message" end)
    "input_collection" &&
  String.eqb (get_default "variable" "user_input" (step_data step)) variable.

(** Appending the messages [(role, content, now)] one after the other. *)
Definition append_all (m : Manager) (context : ConversationContext)
  (messages : list (string * string * Py.Time)) : ConversationContext :=
  fold_left
    (fun c e => _add_to_conversation_history m c (fst (fst e)) (snd (fst e))
                  (snd e))
    messages context.

Definition entry_of (context : ConversationContext)
  (e : string * string * Py.Time) : HistoryEntry :=
  {| role := fst (fst e); content := snd (fst e); timestamp := snd e;
     entry_brain_region := brain_region context |}.

(** The [flow_variables] after [_execute_flow_step] on [step]. *)
Definition step_variables (step : Step) (message : string)
  (fv : list (string * Value)) : list (string * Value) :=
  if String.eqb
       (match step_type step with Some t => t | None => "message" end)
       "input_collection"
  then assoc_set (get_default "variable" "user_input" (step_data step))
         (VStr message) fv
  else fv.

(** Where a session stands in its flow: not yet started, or at step [k] of
    a flow started at [t0]. *)
Definition flow_progress (k : Z) (started : option Py.Time)
  (context : ConversationContext) : Prop :=
  match started with
  | None =>
    k = 0%Z /\ assoc_get "current_step" (flow_variables context) = None
  | Some t0 =>
    assoc_get "current_step" (flow_variables context) = Some (VInt k) /\
    assoc_get "flow_start_time" (flow_variables context) = Some (VTime t0)
  end.

(** *** Notions for the properties of the manager *)

(** [c'] is the session [c]: same id, user, region and creation time. *)
Definition same_identity (c c' : ConversationContext) : Prop :=
  session_id c' = session_id c /\
  user_id c' = user_id c /\
  brain_region c' = brain_region c /\
  created_at c' = created_at c /\
  metadata c' = metadata c.

(** The step cannot complete on manager [m]: its type is none of the five
    that [_execute_flow_step] knows, or it calls an agent that is not
    named or not registered. *)
Definition unrunnable (m : Manager) (step : Step) : bool :=
  let step_type :=
    match Conversation.step_type step with Some t => t | None => "message" end
  in
  if String.eqb step_type "message" then false
  else if String.eqb step_type "memory_query" then false
  else if String.eqb step_type "agent_call" then
    match assoc_get "agent_id" (step_data step) with
    | None => true
    | Some aid =>
      negb (Py.truthy aid) ||
      match agent_get aid m with None => true | Some _ => false end
    end
  else if String.eqb step_type "condition" then false
  else if String.eqb step_type "input_collection" then false
  else true.

End Engine.

(** [_register_default_flows] *)
Definition memory_flow : ConversationFlow :=
  {| flow_id := "memory_interaction";
     flow_name := "Memory Interaction";
     cf_flow_type := MEMORY_INTERACTION;
     description := "Handle memory-related queries and operations";
     trigger_patterns := ["remember"; "memory"; "recall"; "forget"; "brain"];
     brain_regions := ["TEMPORAL_LOBE"; "FRONTAL_LOBE"];
     steps :=
       [ {| step_type := Some "memory_query";
            step_data := [("query", "{user_message}");
                          ("brain_region", "{brain_region}")] |};
         {| step_type := Some "message";
            step_data :=
              [("template",
                "I found some relevant memories. How would you like to proceed?")]
         |} ];
     required_context := [];
     expected_duration := 30;
     fallback_actions := ["default_response"] |}.

Definition qa_flow : ConversationFlow :=
  {| flow_id := "simple_qa";
     flow_name := "Simple Q&A";
     cf_flow_type := SIMPLE_QA;
     description := "Handle simple question and answer interactions";
     trigger_patterns := ["what"; "how"; "why"; "when"; "where"];
     brain_regions := ["FRONTAL_LOBE"; "TEMPORAL_LOBE"];
     steps :=
       [ {| step_type := Some "message";
            step_data :=
              [("template", "Let me help you with that question.")] |} ];
     required_context := [];
     expected_duration := 15;
     fallback_actions := ["default_response"] |}.

(** [__init__]: no sessions, no agents, the two default flows. *)
Definition init (max_history : Z) : Manager :=
  {| sessions := [];
     flows := [memory_flow; qa_flow];
     agents := [];
     max_conversation_history := max_history;
     default_brain_region := "FRONTAL_LOBE" |}.

End Conversation.

(** ** Statistics and suggestions of the learning adapter *)

Module Reports.
Import Learning.

(** [d[k] = d.get(k, 0) + 1] *)
Definition count (k : string) (d : list (string * Z)) : list (string * Z) :=
  Conversation.assoc_set k
    (match Conversation.assoc_get k d with Some n => n | None => 0%Z end + 1)%Z
    d.

(** The sum of the values of a counter dict. *)
Definition total_count (d : list (string * Z)) : Z :=
  fold_right (fun kv acc => (snd kv + acc)%Z) 0%Z d.

(** [np.mean] of a non-empty list. *)
Definition mean (l : list Q) : Q :=
  fold_left Qplus l 0 / inject_Z (Z.of_nat (List.length l)).

Record MostUsed := {
  mu_id : string;
  mu_type : string;
  mu_usage_count : Z;
  mu_effectiveness : Q
}.

Record LearningStats := {
  st_total_patterns : Z;
  st_total_feedback : Z;
  st_patterns_by_type : list (string * Z);
  st_patterns_by_region : list (string * Z);
  st_average_effectiveness : Q;
  st_most_used_patterns : list MostUsed
}.

Record Suggestion := {
  sg_pattern_id : string;
  sg_suggestion_type : string;
  sg_suggested_approach : string;
  sg_confidence : Q;
  sg_usage_count : Z;
  sg_brain_region : string
}.

Section Reports.
Context {SK : Sklearn}.

Definition most_used_entry (p : LearningPattern) : MostUsed :=
  {| mu_id := id p;
     mu_type := pattern_type p;
     mu_usage_count := usage_count p;
     mu_effectiveness := effectiveness_score p |}.

(** [get_learning_stats] *)
Definition get_learning_stats (a : Adapter) : LearningStats :=
  match patterns a with
  | [] =>
    {| st_total_patterns := Z.of_nat (List.length (patterns a));
       st_total_feedback := Z.of_nat (List.length (feedback_records a));
       st_patterns_by_type := [];
       st_patterns_by_region := [];
       st_average_effectiveness := 0;
       st_most_used_patterns := [] |}
  | _ =>
    let sorted_patterns :=
      Py.sort_desc (fun p => inject_Z (usage_count p)) (patterns a) in
    {| st_total_patterns := Z.of_nat (List.length (patterns a));
       st_total_feedback := Z.of_nat (List.length (feedback_records a));
       st_patterns_by_type :=
         fold_left (fun d p => count (pattern_type p) d) (patterns a) [];
       st_patterns_by_region :=
         fold_left (fun d p => count (brain_region p) d) (patterns a) [];
       st_average_effectiveness :=
         mean (map effectiveness_score (patterns a));
       st_most_used_patterns :=
         map most_used_entry (Py.prefix 5 sorted_patterns) |}
  end.

Definition suggestion_of (p : LearningPattern) : Suggestion :=
  {| sg_pattern_id := id p;
     sg_suggestion_type := pattern_type p;
     sg_suggested_approach := successful_output p;
     sg_confidence := effectiveness_score p;
     sg_usage_count := usage_count p;
     sg_brain_region := brain_region p |}.

(** [get_improvement_suggestions] *)
Definition get_improvement_suggestions (a : Adapter)
  (context brain_region : string) : list Suggestion :=
  map suggestion_of
    (retrieve_relevant_patterns a context None (Some brain_region) 3).

End Reports.
End Reports.

(** ** Example backends and stores *)

Module Demo.

(** Two documents over the words [aa] and [bb] with the counts (4, 3) and
    (7, 24).  Both words occur in both documents, so [TfidfVectorizer()]
    fitted on the pair gives every word the weight 1, the normalised rows
    are (4/5, 3/5) and (7/25, 24/25), and their cosine is
    (4*7 + 3*24) / (5*25) = 4/5. *)
Definition words (l : list string) : string := String.concat " " l.

Definition text_4_3 : string := words (repeat "aa" 4 ++ repeat "bb" 3).

Definition text_7_24 : string := words (repeat "aa" 7 ++ repeat "bb" 24).

(** The cosine scikit-learn returns on the documents of the examples: 1 for
    a document against itself, 4/5 for the pair above, and 0 for two
    documents without a common word (all other documents of the examples
    are single, distinct words). *)
Definition cosine_table (u v : string) : Q :=
  if String.eqb u v then 1
  else if (String.eqb u text_4_3 && String.eqb v text_7_24) ||
          (String.eqb u text_7_24 && String.eqb v text_4_3)
       then 8 # 10
       else 0.

(** A row is named by its document; fitting fails when no document of the
    corpus has a word. *)
Definition sklearn : Sklearn :=
  {| Vec := string;
     fit_ok := fun _ corpus =>
       existsb (fun t => match Py.split t with [] => false | _ => true end)
         corpus;
     transform := fun _ _ text => text;
     cosine_similarity := cosine_table |}.

(** A runtime for the examples.  The templates of the default flows hold
    no placeholder, so the text [py_str] gives never reaches a response,
    and no example reads a start time from user text. *)
Definition runtime : Conversation.PyRuntime :=
  {| Conversation.py_str := fun v =>
       match v with
       | Conversation.VStr s => s
       | Conversation.VInt 0 => "0"
       | Conversation.VInt 1 => "1"
       | Conversation.VInt 2 => "2"
       | _ => "?"
       end;
     Conversation.fromisoformat := fun _ => None |}.

Definition calls (uuid : string) (t : Z) : Learning.LearnCalls :=
  {| Learning.uuid4 := uuid; Learning.now_1 := t; Learning.now_2 := t |}.

Definition adapter0 : Learning.Adapter (SK := sklearn) :=
  Learning.init (7 # 10) 30.

(** [learn_from_interaction] without metadata, keeping the new state. *)
Definition learn (a : Learning.Adapter (SK := sklearn)) (uuid : string)
  (t : Z) (context : string) (score : Q) (region type : string)
  : Learning.Adapter (SK := sklearn) :=
  snd (Learning.learn_from_interaction a (calls uuid t) context "ok" score
         region type []).

Definition pattern (uuid : string) (t : Z) (context : string) (score : Q)
  (uses : Z) (region type : string) : Learning.LearningPattern :=
  {| Learning.id := uuid;
     Learning.pattern_type := type;
     Learning.input_context := context;
     Learning.successful_output := "ok";
     Learning.success_score := score;
     Learning.brain_region := region;
     Learning.metadata := [];
     Learning.created_at := t;
     Learning.usage_count := uses;
     Learning.last_used := Some t;
     Learning.effectiveness_score := score |}.

(** Two patterns created 31 days before [cleanup_now] under a decay of 30
    days, with effectiveness 0.4 and 1 and 5 uses. *)
Definition cleanup_now : Z := Learning.days 100.

Definition stale_store : Learning.Adapter (SK := sklearn) :=
  Learning.with_patterns adapter0
    [ pattern "p-1" (Learning.days 69) "alpha" (4 # 10) 1 "R" "conversation";
      pattern "p-2" (Learning.days 69) "alpha" (4 # 10) 5 "R" "conversation" ].

(** Three patterns learned one after the other: [conversation]/alpha,
    [tool_usage]/beta and [tool_usage]/alpha. *)
Definition mixed_store : Learning.Adapter (SK := sklearn) :=
  let s1 := learn adapter0 "p-1" 0 "alpha" (9 # 10) "R" "conversation" in
  let s2 := learn s1 "p-2" 0 "beta" (9 # 10) "R" "tool_usage" in
  learn s2 "p-3" 0 "alpha" (9 # 10) "R" "tool_usage".

(** Two patterns on the same text in two regions; the second one is
    learned five times. *)
Definition tie_store : Learning.Adapter (SK := sklearn) :=
  let s1 := learn adapter0 "p-1" 0 "alpha" (9 # 10) "R1" "conversation" in
  let s2 := learn s1 "p-2" 0 "alpha" (9 # 10) "R2" "conversation" in
  let s3 := learn s2 "p-x" 0 "alpha" (9 # 10) "R2" "conversation" in
  let s4 := learn s3 "p-x" 0 "alpha" (9 # 10) "R2" "conversation" in
  let s5 := learn s4 "p-x" 0 "alpha" (9 # 10) "R2" "conversation" in
  learn s5 "p-x" 0 "alpha" (9 # 10) "R2" "conversation".

Definition feedback_calls (uuid : string) (t : Z) (inner : string)
  : Learning.FeedbackCalls :=
  {| Learning.fb_uuid4 := uuid; Learning.fb_now := t;
     Learning.fb_learn := calls inner t |}.

(** One pattern learned on the text [alpha]. *)
Definition alpha_pattern : Learning.LearningPattern :=
  pattern "p-1" 0 "alpha" (9 # 10) 1 "R" "conversation".

Definition alpha_store : Learning.Adapter (SK := sklearn) :=
  learn adapter0 "p-1" 0 "alpha" (9 # 10) "R" "conversation".

Definition message_calls (t : Z) : Conversation.MessageCalls :=
  {| Conversation.now_updated_at := t;
     Conversation.now_message := t;
     Conversation.now_flow_start := t;
     Conversation.now_step := t;
     Conversation.now_complete := t |}.

Definition start_calls (uuid : string) (t : Z) : Conversation.StartCalls :=
  {| Conversation.start_uuid4 := uuid;
     Conversation.start_now_1 := t;
     Conversation.start_now_2 := t;
     Conversation.start_now_3 := t |}.

Definition input (message : string) (t : Z) : Conversation.Input :=
  {| Conversation.in_message := message;
     Conversation.in_type := "user";
     Conversation.in_calls := message_calls t |}.

(** A manager with the default flows and one session, opened by a
    question. *)
Definition manager_with_session (max_history : Z) : Conversation.Manager :=
  snd (Conversation.start_conversation
         (Conversation.init max_history) (start_calls "s-1" 0)
         "user" "what is this?" None).

(** A store whose only pattern is weak: learned with score 0.4 under a
    threshold of 0.3. *)
Definition weak_store : Learning.Adapter (SK := sklearn) :=
  learn (Learning.init (3 # 10) 30) "p-1" 0 "alpha" (4 # 10) "R"
    "conversation".

(** The session of [manager_with_session]. *)
Definition session : Conversation.ConversationContext :=
  fst (Conversation.start_conversation
         (Conversation.init 50) (start_calls "s-1" 0)
         "user" "what is this?" None).

(** The same session after the only step of the question flow has run. *)
Definition answered : Conversation.ConversationContext :=
  snd (Conversation._execute_conversation_flow (RT := runtime)
         (manager_with_session 50) (message_calls 1) session "simple_qa"
         "what is this?").

(** A flow that hands over to an agent in its first step, and a flow whose
    only step collects the user's text into the variable [current_step]. *)
Definition handoff_flow : Conversation.ConversationFlow :=
  {| Conversation.flow_id := "handoff";
     Conversation.flow_name := "Handoff";
     Conversation.cf_flow_type := Conversation.AGENT_COORDINATION;
     Conversation.description := "Hand the request to an agent";
     Conversation.trigger_patterns := ["plan"];
     Conversation.brain_regions := ["FRONTAL_LOBE"];
     Conversation.steps :=
       [ {| Conversation.step_type := Some "agent_call";
            Conversation.step_data := [("agent_id", "planner")] |};
         {| Conversation.step_type := Some "message";
            Conversation.step_data := [("template", "Done.")] |} ];
     Conversation.required_context := [];
     Conversation.expected_duration := 60;
     Conversation.fallback_actions := [] |}.

Definition survey_flow : Conversation.ConversationFlow :=
  {| Conversation.flow_id := "survey";
     Conversation.flow_name := "Survey";
     Conversation.cf_flow_type := Conversation.MULTI_STEP_TASK;
     Conversation.description := "Ask for one answer";
     Conversation.trigger_patterns := ["survey"];
     Conversation.brain_regions := ["FRONTAL_LOBE"];
     Conversation.steps :=
       [ {| Conversation.step_type := Some "input_collection";
            Conversation.step_data := [("variable", "current_step")] |} ];
     Conversation.required_context := [];
     Conversation.expected_duration := 60;
     Conversation.fallback_actions := [] |}.

(** [manager_with_session 50] with the two flows added to [self.flows];
    no agent is registered. *)
Definition custom_manager : Conversation.Manager :=
  {| Conversation.sessions :=
       Conversation.sessions (manager_with_session 50);
     Conversation.flows :=
       Conversation.flows (manager_with_session 50)
       ++ [handoff_flow; survey_flow];
     Conversation.agents := [];
     Conversation.max_conversation_history := 50;
     Conversation.default_brain_region := "FRONTAL_LOBE" |}.

(** A session opened by a personal statement: its region is
    [OCCIPITAL_LOBE], which neither default flow serves. *)
Definition personal_session : Conversation.ConversationContext :=
  fst (Conversation.start_conversation
         (Conversation.init 50) (start_calls "s-2" 0)
         "ann" "my name is Ann" None).

Definition personal_manager : Conversation.Manager :=
  snd (Conversation.start_conversation
         (Conversation.init 50) (start_calls "s-2" 0)
         "ann" "my name is Ann" None).


End Demo.

(** * Properties of the learning adapter *)

Section PyFacts.

Lemma Qltb_true (x y : Q) : Py.Qltb x y = true <-> x < y.
Proof.
  unfold Py.Qltb. rewrite negb_true_iff. split; intro H.
  - apply Qnot_le_lt. intro Hle. apply Qle_bool_iff in Hle. congruence.
  - destruct (Qle_bool y x) eqn:E; [|reflexivity].
    apply Qle_bool_iff in E. exfalso. apply (Qlt_not_le _ _ H E).
Qed.

Lemma Qltb_false (x y : Q) : Py.Qltb x y = false <-> y <= x.
Proof.
  unfold Py.Qltb. rewrite negb_false_iff. apply Qle_bool_iff.
Qed.

Context {A : Type}.
Implicit Types (f : A -> bool) (l : list A).

Lemma find_first_some f l i x :
  Py.find_first f l = Some (i, x) ->
  nth_error l i = Some x /\ f x = true /\
  forall j y, (j < i)%nat -> nth_error l j = Some y -> f y = false.
Proof.
  revert i x. induction l as [|a l IH]; intros i x; simpl; [discriminate|].
  destruct (f a) eqn:Fa.
  - intros [= <- <-]. repeat split; auto. intros j y Hj. lia.
  - destruct (Py.find_first f l) as [[k z]|] eqn:E; simpl; [|discriminate].
    intros [= <- <-]. destruct (IH _ _ eq_refl) as (H1 & H2 & H3).
    repeat split; auto. intros [|j] y Hj; simpl.
    + intros [= <-]. exact Fa.
    + apply H3. lia.
Qed.

Lemma find_first_none f l :
  Py.find_first f l = None -> forall x, In x l -> f x = false.
Proof.
  induction l as [|a l IH]; simpl; [tauto|].
  destruct (f a) eqn:Fa; [discriminate|].
  destruct (Py.find_first f l) as [[k z]|]; simpl; [discriminate|].
  intros _ x [<-|Hx]; auto.
Qed.

Lemma find_first_app_none f l y :
  Py.find_first f l = None ->
  Py.find_first f (l ++ [y]) =
  if f y then Some (List.length l, y) else None.
Proof.
  induction l as [|a l IH]; simpl.
  - intros _. destruct (f y); reflexivity.
  - destruct (f a); [discriminate|].
    destruct (Py.find_first f l) as [[k z]|]; simpl; [discriminate|].
    intros _. rewrite IH by reflexivity. destruct (f y); reflexivity.
Qed.

Lemma find_first_app_some f l y r :
  Py.find_first f l = Some r -> Py.find_first f (l ++ [y]) = Some r.
Proof.
  revert r. induction l as [|a l IH]; intros r; simpl; [discriminate|].
  destruct (f a); [auto|].
  destruct (Py.find_first f l) as [[k z]|]; simpl; [|discriminate].
  intros [= <-]. rewrite (IH _ eq_refl). reflexivity.
Qed.

Lemma replace_nth_length (i : nat) (y : A) l :
  List.length (Py.replace_nth i y l) = List.length l.
Proof.
  revert i. induction l as [|a l IH]; intros [|i]; simpl; auto.
Qed.

Lemma replace_nth_same (i : nat) (y x : A) l :
  nth_error l i = Some x -> nth_error (Py.replace_nth i y l) i = Some y.
Proof.
  revert i. induction l as [|a l IH]; intros [|i]; simpl; try discriminate;
    auto.
Qed.

Lemma replace_nth_other (i j : nat) (y : A) l :
  j <> i -> nth_error (Py.replace_nth i y l) j = nth_error l j.
Proof.
  revert i j. induction l as [|a l IH]; intros [|i] [|j] H; simpl; auto.
  congruence.
Qed.

(** Replacing an item by one that [f] judges alike does not move the first
    hit of [f]. *)
Lemma find_first_replace f l i x j q y :
  Py.find_first f l = Some (i, x) ->
  nth_error l j = Some q ->
  f y = f q ->
  Py.find_first f (Py.replace_nth j y l) =
  Some (i, if Nat.eqb j i then y else x).
Proof.
  revert i x j. induction l as [|a l IH]; intros i x j; simpl; [discriminate|].
  destruct j as [|j]; simpl.
  - intros H [= <-] Hy. rewrite Hy.
    destruct (f a); [injection H as <- <-; reflexivity|].
    destruct (Py.find_first f l) as [[k z]|]; simpl in *; [|discriminate].
    injection H as <- <-. reflexivity.
  - destruct (f a).
    + intros [= <- <-] _ _. reflexivity.
    + destruct (Py.find_first f l) as [[k z]|] eqn:E; simpl; [|discriminate].
      intros [= <- <-] Hq Hy. rewrite (IH _ _ _ eq_refl Hq Hy). simpl.
      destruct (Nat.eqb j k); reflexivity.
Qed.

End PyFacts.

Section LearningFacts.
Context {SK : Sklearn}.
Import Learning.

Lemma update_vectorizer_patterns (a : Adapter) :
  patterns (_update_vectorizer a) = patterns a.
Proof.
  unfold _update_vectorizer. destruct (patterns a) eqn:E; [congruence|].
  destruct (fit_ok _ _); simpl; congruence.
Qed.

Lemma update_vectorizer_feedback (a : Adapter) :
  feedback_records (_update_vectorizer a) = feedback_records a.
Proof.
  unfold _update_vectorizer. destruct (patterns a) eqn:E; [congruence|].
  destruct (fit_ok _ _); simpl; congruence.
Qed.

Lemma update_vectorizer_config (a : Adapter) :
  min_success_score (_update_vectorizer a) = min_success_score a /\
  pattern_decay_days (_update_vectorizer a) = pattern_decay_days a.
Proof.
  unfold _update_vectorizer. destruct (patterns a) eqn:E; [auto|].
  destruct (fit_ok _ _); simpl; auto.
Qed.

(** C5 (significance gate).  A call of [learn_from_interaction] whose
    [success_score] is strictly below [min_success_score] returns [None] and
    leaves the adapter as it was: the stored patterns are the same and
    [total_patterns] does not change. *)
Theorem learn_below_threshold_is_noop
  (a : Adapter) (io : LearnCalls) (input_context output_result : string)
  (success_score : Q) (brain_region pattern_type : string)
  (metadata : list (string * string)) :
  success_score < min_success_score a ->
  let r := learn_from_interaction a io input_context output_result
             success_score brain_region pattern_type metadata in
  fst r = None /\ snd r = a /\
  patterns (snd r) = patterns a /\
  total_patterns (snd r) = total_patterns a.
Proof.
  intros H. unfold learn_from_interaction.
  apply Qltb_true in H. rewrite H. simpl. auto.
Qed.

(** C3, as the code has it.  [record_feedback] on a [pattern_id] that no
    stored pattern has still appends the feedback record and returns its
    id; no pattern and no part of the similarity index changes, and nothing
    tells the caller that the pattern is missing. *)
Theorem record_feedback_missing_pattern
  (a : Adapter) (io : FeedbackCalls) (pattern_id user_id feedback_type : string)
  (feedback_score : Q) (original_output : string)
  (corrected_output : option string) (context : list (string * string)) :
  dict_get pattern_id (patterns a) = None ->
  let r := record_feedback a io pattern_id user_id feedback_type
             feedback_score original_output corrected_output context in
  fst r = Some (fb_uuid4 io) /\
  patterns (snd r) = patterns a /\
  vectorizer (snd r) = vectorizer a /\
  pattern_vectors (snd r) = pattern_vectors a /\
  feedback_records (snd r) =
  fb_set {| fb_id := fb_uuid4 io;
            fb_pattern_id := pattern_id;
            fb_user_id := user_id;
            fb_feedback_type := feedback_type;
            fb_original_output := original_output;
            fb_corrected_output := corrected_output;
            fb_feedback_score := feedback_score;
            fb_timestamp := fb_now io;
            fb_context := context |} (feedback_records a).
Proof.
  intros H. unfold record_feedback. simpl.
  unfold dict_get in H.
  destruct (dict_ref pattern_id (patterns a)) as [[i p]|]; [discriminate|].
  simpl. auto.
Qed.

(** C10 (frame of the update path).  When [learn_from_interaction] passes
    the gate and finds a similar pattern, it returns that pattern's id and
    changes only that pattern's [usage_count], [last_used] and
    [effectiveness_score]; every other pattern, the feedback records, the
    fitted vectorizer and the pattern vectors stay as they were. *)
Theorem learn_update_changes_one_pattern
  (a : Adapter) (io : LearnCalls) (input_context output_result : string)
  (success_score : Q) (brain_region pattern_type : string)
  (metadata : list (string * string)) (i : nat) (p : LearningPattern) :
  min_success_score a <= success_score ->
  _find_similar_pattern a input_context pattern_type brain_region
  = Some (i, p) ->
  let r := learn_from_interaction a io input_context output_result
             success_score brain_region pattern_type metadata in
  fst r = Some (id p) /\
  feedback_records (snd r) = feedback_records a /\
  vectorizer (snd r) = vectorizer a /\
  pattern_vectors (snd r) = pattern_vectors a /\
  List.length (patterns (snd r)) = List.length (patterns a) /\
  (forall j, j <> i ->
     nth_error (patterns (snd r)) j = nth_error (patterns a) j) /\
  nth_error (patterns a) i = Some p /\
  exists p',
    nth_error (patterns (snd r)) i = Some p' /\
    id p' = id p /\
    Learning.pattern_type p' = Learning.pattern_type p /\
    Learning.input_context p' = Learning.input_context p /\
    successful_output p' = successful_output p /\
    Learning.success_score p' = Learning.success_score p /\
    Learning.brain_region p' = Learning.brain_region p /\
    Learning.metadata p' = Learning.metadata p /\
    created_at p' = created_at p /\
    usage_count p' = (usage_count p + 1)%Z /\
    last_used p' = Some (now_1 io) /\
    effectiveness_score p' =
    effectiveness_score p * (9 # 10) + success_score * (1 # 10).
Proof.
  intros Hgate Hfind. unfold learn_from_interaction.
  apply Qltb_false in Hgate. rewrite Hgate, Hfind. simpl.
  unfold _find_similar_pattern in Hfind.
  destruct (find_first_some _ _ _ _ Hfind) as (Hnth & _ & _).
  repeat split; auto.
  - apply replace_nth_length.
  - intros j Hj. apply replace_nth_other. exact Hj.
  - eexists. split; [eapply replace_nth_same; exact Hnth|].
    simpl. repeat split; reflexivity.
Qed.

(** The similarity index changes in [learn_from_interaction] only on the
    path that creates a pattern. *)
Lemma learn_index_changes_only_on_create
  (a : Adapter) (io : LearnCalls) (input_context output_result : string)
  (success_score : Q) (brain_region pattern_type : string)
  (metadata : list (string * string)) :
  let r := learn_from_interaction a io input_context output_result
             success_score brain_region pattern_type metadata in
  vectorizer (snd r) <> vectorizer a \/
  pattern_vectors (snd r) <> pattern_vectors a ->
  min_success_score a <= success_score /\
  _find_similar_pattern a input_context pattern_type brain_region = None /\
  dict_get (uuid4 io) (patterns (snd r)) <> None.
Proof.
  unfold learn_from_interaction.
  destruct (Py.Qltb success_score (min_success_score a)) eqn:G.
  { simpl. intros [H|H]; congruence. }
  apply Qltb_false in G.
  destruct (_find_similar_pattern a _ _ _) as [[i p]|].
  { simpl. intros [H|H]; congruence. }
  intros _. split; [exact G|]. split; [reflexivity|].
  cbn [snd]. rewrite update_vectorizer_patterns.
  cbn [patterns with_patterns]. unfold dict_set, dict_get. cbn [id].
  destruct (dict_ref (uuid4 io) (patterns a)) as [[k z]|] eqn:E;
    unfold dict_ref in *.
  - destruct (find_first_some _ _ _ _ E) as (Hz & Hid & _).
    match goal with |- context [Py.replace_nth k ?n _] => set (new := n) end.
    rewrite (find_first_replace _ _ _ _ _ _ new E Hz)
      by (simpl; rewrite String.eqb_refl; symmetry; exact Hid).
    discriminate.
  - rewrite (find_first_app_none _ _ _ E). cbn [id].
    rewrite String.eqb_refl. discriminate.
Qed.

(** [cleanup_old_patterns] leaves the adapter alone when it removes
    nothing. *)
Lemma cleanup_without_removal (a : Adapter) (now : Py.Time) :
  filter (to_remove a now) (patterns a) = [] ->
  patterns (cleanup_old_patterns a now) = patterns a /\
  vectorizer (cleanup_old_patterns a now) = vectorizer a /\
  pattern_vectors (cleanup_old_patterns a now) = pattern_vectors a.
Proof.
  intros H. unfold cleanup_old_patterns. rewrite H. simpl. auto.
Qed.

Lemma blend_feedback_bounds (e f : Q) :
  0 <= e -> e <= 1 -> -1 <= f -> f <= 1 ->
  0 <= e * (8 # 10) + (f + 1) / 2 * (2 # 10) /\
  e * (8 # 10) + (f + 1) / 2 * (2 # 10) <= 1.
Proof.
  intros. unfold Qdiv. setoid_replace (/ 2) with (1 # 2) by reflexivity.
  split; lra.
Qed.

Lemma min_one_bounds (f : Q) :
  0 < f -> 0 <= Py.min 1 (f + (1 # 2)) /\ Py.min 1 (f + (1 # 2)) <= 1.
Proof.
  intros Hf. unfold Py.min.
  destruct (Py.Qltb (f + (1 # 2)) 1) eqn:E.
  - apply Qltb_true in E. split; lra.
  - split; lra.
Qed.

(** C6 (score bounds).  If the pattern stored under [pattern_id] has its
    [effectiveness_score] in [0,1] and the [feedback_score] lies in [-1,1],
    then after [record_feedback] the pattern stored under [pattern_id] still
    has its [effectiveness_score] in [0,1]; this covers the correction that
    the call may learn on top of the feedback update. *)
Theorem record_feedback_keeps_score_in_unit_interval
  (a : Adapter) (io : FeedbackCalls) (pattern_id user_id feedback_type : string)
  (feedback_score : Q) (original_output : string)
  (corrected_output : option string) (context : list (string * string))
  (p : LearningPattern) :
  dict_get pattern_id (patterns a) = Some p ->
  0 <= effectiveness_score p -> effectiveness_score p <= 1 ->
  -1 <= feedback_score -> feedback_score <= 1 ->
  exists p',
    dict_get pattern_id
      (patterns (snd (record_feedback a io pattern_id user_id feedback_type
                        feedback_score original_output corrected_output
                        context))) = Some p' /\
    0 <= effectiveness_score p' /\ effectiveness_score p' <= 1.
Proof.
  intros Hget He0 He1 Hf0 Hf1.
  unfold dict_get in Hget.
  destruct (dict_ref pattern_id (patterns a)) as [[i p0]|] eqn:Href;
    [|discriminate].
  simpl in Hget. injection Hget as ->.
  unfold record_feedback. simpl. rewrite Href.
  destruct (find_first_some _ _ _ _ Href) as (Hnth & Hid & _).
  destruct (blend_feedback_bounds _ _ He0 He1 Hf0 Hf1) as [Hb0 Hb1].
  set (e1 := effectiveness_score p * (8 # 10)
             + (feedback_score + 1) / 2 * (2 # 10)) in *.
  set (p1 := set_effectiveness p e1).
  set (a1 := with_feedback a _).
  set (a2 := with_patterns a1 (Py.replace_nth i p1 (patterns a))).
  assert (Href2 : dict_ref pattern_id (patterns a2) = Some (i, p1)).
  { unfold dict_ref. simpl.
    rewrite (find_first_replace _ _ _ _ _ _ p1 Href Hnth) by reflexivity.
    rewrite Nat.eqb_refl. reflexivity. }
  assert (Hplain : exists p',
             dict_get pattern_id (patterns a2) = Some p' /\
             0 <= effectiveness_score p' /\ effectiveness_score p' <= 1).
  { exists p1. unfold dict_get. rewrite Href2. simpl. auto. }
  destruct corrected_output as [corrected|]; [|exact Hplain].
  destruct (Py.truthy corrected && Py.Qltb 0 feedback_score) eqn:Hcorr;
    [|exact Hplain].
  apply andb_true_iff in Hcorr. destruct Hcorr as [_ Hpos].
  apply Qltb_true in Hpos.
  destruct (min_one_bounds _ Hpos) as [Hs0 Hs1].
  set (s := Py.min 1 (feedback_score + (1 # 2))) in *.
  simpl. unfold learn_from_interaction.
  destruct (Py.Qltb s (min_success_score a2)); [exact Hplain|].
  assert (Hnth2 : nth_error (patterns a2) i = Some p1).
  { simpl. eapply replace_nth_same. exact Hnth. }
  destruct (_find_similar_pattern a2 _ _ _) as [[j q]|] eqn:Hsim.
  - unfold _find_similar_pattern in Hsim.
    destruct (find_first_some _ _ _ _ Hsim) as (Hq & _ & _).
    cbn [snd patterns with_patterns].
    match goal with |- context [Py.replace_nth j ?u _] => set (q' := u) end.
    unfold dict_get, dict_ref.
    rewrite (find_first_replace _ _ _ _ _ _ q' Href2 Hq) by reflexivity.
    simpl. destruct (Nat.eqb j i) eqn:Eji.
    + apply Nat.eqb_eq in Eji. subst j.
      assert (q = p1) by congruence. subst q.
      exists q'. split; [reflexivity|]. subst q'. simpl. split; lra.
    + exists p1. simpl. auto.
  - cbn [snd]. rewrite update_vectorizer_patterns.
    cbn [patterns with_patterns].
    match goal with |- context [dict_set ?u _] => set (n := u) end.
    unfold dict_set.
    destruct (dict_ref (id n) (patterns a2)) as [[k z]|] eqn:Hk.
    + destruct (find_first_some _ _ _ _ Hk) as (Hz & Hzid & _).
      unfold dict_get, dict_ref.
      assert (Hfy : String.eqb (id n) pattern_id
                    = String.eqb (id z) pattern_id).
      { apply String.eqb_eq in Hzid. rewrite Hzid. reflexivity. }
      rewrite (find_first_replace _ _ _ _ _ _ n Href2 Hz Hfy).
      simpl. destruct (Nat.eqb k i).
      * exists n. split; [reflexivity|]. subst n. simpl. auto.
      * exists p1. auto.
    + unfold dict_get, dict_ref.
      rewrite (find_first_app_some _ _ _ _ Href2). exists p1. auto.
Qed.

Lemma fold_dict_del (ks : list string) (l : list LearningPattern) :
  fold_left (fun l k => dict_del k l) ks l =
  filter (fun p => negb (Py.mem (id p) ks)) l.
Proof.
  revert l. induction ks as [|k ks IH]; intros l; simpl.
  - induction l as [|x l IHl]; simpl; congruence.
  - rewrite IH. unfold dict_del. clear IH.
    induction l as [|x l IHl]; simpl; [reflexivity|].
    rewrite (String.eqb_sym (id x) k).
    destruct (String.eqb k (id x)); simpl.
    + exact IHl.
    + destruct (Py.mem (id x) ks); simpl; congruence.
Qed.

Lemma mem_In (x : string) (l : list string) : Py.mem x l = true <-> In x l.
Proof.
  unfold Py.mem. rewrite existsb_exists. split.
  - intros (y & Hy & E). apply String.eqb_eq in E. congruence.
  - intros H. exists x. split; [exact H|apply String.eqb_refl].
Qed.

Lemma NoDup_map_inj {A B} (f : A -> B) (l : list A) (x y : A) :
  NoDup (map f l) -> In x l -> In y l -> f x = f y -> x = y.
Proof.
  induction l as [|a l IH]; simpl; [tauto|].
  intros Hnd Hx Hy E. inversion Hnd as [|? ? Hnotin Hnd']; subst.
  destruct Hx as [<-|Hx], Hy as [<-|Hy]; auto.
  - exfalso. apply Hnotin. rewrite E. apply in_map. exact Hy.
  - exfalso. apply Hnotin. rewrite <- E. apply in_map. exact Hx.
Qed.

Lemma cleanup_patterns (a : Adapter) (now : Py.Time) :
  NoDup (map id (patterns a)) ->
  patterns (cleanup_old_patterns a now) =
  filter (fun p => negb (to_remove a now p)) (patterns a).
Proof.
  intros Hnd. unfold cleanup_old_patterns.
  assert (E : fold_left (fun l k => dict_del k l)
                (map id (filter (to_remove a now) (patterns a))) (patterns a)
              = filter (fun p => negb (to_remove a now p)) (patterns a)).
  { rewrite fold_dict_del. apply filter_ext_in. intros p Hp. f_equal.
    destruct (to_remove a now p) eqn:R.
    - apply mem_In. apply in_map. apply filter_In. auto.
    - destruct (Py.mem _ _) eqn:M; [|reflexivity].
      apply mem_In in M. apply in_map_iff in M. destruct M as (q & Eq & Hq).
      apply filter_In in Hq. destruct Hq as [Hq Rq].
      assert (q = p) by (eapply NoDup_map_inj; eauto). congruence. }
  destruct (map id (filter (to_remove a now) (patterns a)));
    [|rewrite update_vectorizer_patterns]; simpl; exact E.
Qed.

Lemma to_remove_iff (a : Adapter) (now : Py.Time) (p : LearningPattern) :
  to_remove a now p = true <->
  (created_at p < now - days (pattern_decay_days a))%Z /\
  effectiveness_score p < 1 # 2 /\
  (usage_count p < 3)%Z.
Proof.
  unfold to_remove. rewrite !andb_true_iff, Qltb_true, !Z.ltb_lt. tauto.
Qed.

(** C9 (cleanup).  On a store whose ids are distinct (a dict),
    [cleanup_old_patterns] keeps, in their order, exactly the patterns that
    are not at once older than [pattern_decay_days], below 0.5 in
    [effectiveness_score] and below 3 in [usage_count].  A pattern created
    [pattern_decay_days + 1] days ago with effectiveness 0.4 is removed when
    its [usage_count] is 1 and kept when it is 5. *)
Theorem cleanup_removes_exactly_old_ineffective
  (a : Adapter) (now : Py.Time) :
  NoDup (map id (patterns a)) ->
  let a' := cleanup_old_patterns a now in
  (forall p,
     In p (patterns a') <->
     In p (patterns a) /\
     ~ ((created_at p < now - days (pattern_decay_days a))%Z /\
        effectiveness_score p < 1 # 2 /\
        (usage_count p < 3)%Z)) /\
  patterns a' = filter (fun p => negb (to_remove a now p)) (patterns a) /\
  (forall p,
     In p (patterns a) ->
     created_at p = (now - days (pattern_decay_days a + 1))%Z ->
     effectiveness_score p == 4 # 10 ->
     (usage_count p = 1%Z -> ~ In p (patterns a')) /\
     (usage_count p = 5%Z -> In p (patterns a'))).
Proof.
  intros Hnd a'. subst a'.
  assert (Hin : forall p,
     In p (patterns (cleanup_old_patterns a now)) <->
     In p (patterns a) /\
     ~ ((created_at p < now - days (pattern_decay_days a))%Z /\
        effectiveness_score p < 1 # 2 /\
        (usage_count p < 3)%Z)).
  { intros p. rewrite (cleanup_patterns a now Hnd), filter_In.
    rewrite <- to_remove_iff, negb_true_iff.
    destruct (to_remove a now p); intuition congruence. }
  split; [exact Hin|]. split; [apply cleanup_patterns; exact Hnd|].
  intros p Hp Hc He. split; intros Hu; rewrite Hin.
  - intros [_ Hkeep]. apply Hkeep. rewrite Hc, He, Hu. unfold days.
    repeat split; lia.
  - split; [exact Hp|]. rewrite Hu. intros (_ & _ & H). lia.
Qed.

Lemma replace_nth_last {A} (l : list A) (x y : A) :
  Py.replace_nth (List.length l) y (l ++ [x]) = l ++ [y].
Proof.
  induction l as [|a l IH]; simpl; congruence.
Qed.

(** C4, as the code has it (near-duplicate merge).  Two learning calls that
    pass the gate, with the same [pattern_type] and [brain_region], the
    second input being similar to the first with a text similarity
    strictly above 0.8, add exactly one pattern to a store that held no
    pattern similar to either input; both calls return its id and its
    [usage_count] is 2. *)
Theorem learn_twice_merges_above_threshold
  (a : Adapter) (io1 io2 : LearnCalls)
  (context1 context2 output1 output2 : string) (score1 score2 : Q)
  (brain_region pattern_type : string) (md1 md2 : list (string * string)) :
  min_success_score a <= score1 ->
  min_success_score a <= score2 ->
  8 # 10 < _calculate_text_similarity context2 context1 ->
  _find_similar_pattern a context1 pattern_type brain_region = None ->
  _find_similar_pattern a context2 pattern_type brain_region = None ->
  dict_get (uuid4 io1) (patterns a) = None ->
  let r1 := learn_from_interaction a io1 context1 output1 score1
              brain_region pattern_type md1 in
  let r2 := learn_from_interaction (snd r1) io2 context2 output2 score2
              brain_region pattern_type md2 in
  fst r1 = Some (uuid4 io1) /\
  fst r2 = Some (uuid4 io1) /\
  exists p,
    patterns (snd r2) = patterns a ++ [p] /\
    id p = uuid4 io1 /\
    Learning.input_context p = context1 /\
    Learning.pattern_type p = pattern_type /\
    Learning.brain_region p = brain_region /\
    usage_count p = 2%Z.
Proof.
  intros Hs1 Hs2 Hsim Hnone1 Hnone2 Hfresh r1 r2.
  apply Qltb_false in Hs1, Hs2. apply Qltb_true in Hsim.
  assert (Hfresh' : dict_ref (uuid4 io1) (patterns a) = None).
  { unfold dict_get in Hfresh. destruct (dict_ref _ _); [discriminate|auto]. }
  assert (E1 : exists n,
             r1 = (Some (uuid4 io1),
                   _update_vectorizer (with_patterns a (patterns a ++ [n])))
             /\ id n = uuid4 io1
             /\ Learning.input_context n = context1
             /\ Learning.pattern_type n = pattern_type
             /\ Learning.brain_region n = brain_region
             /\ usage_count n = 1%Z).
  { subst r1. unfold learn_from_interaction. rewrite Hs1, Hnone1.
    unfold dict_set. cbn [id]. rewrite Hfresh'.
    eexists. split; [reflexivity|]. simpl. repeat split; reflexivity. }
  destruct E1 as (n & E1 & Hid & Hctx & Hty & Hrg & Huse).
  subst r2. rewrite E1. cbn [fst snd]. split; [reflexivity|].
  set (a1 := with_patterns a (patterns a ++ [n])).
  unfold learn_from_interaction.
  destruct (update_vectorizer_config a1) as [Hmin _].
  rewrite Hmin. cbn [a1 min_success_score with_patterns]. rewrite Hs2.
  unfold _find_similar_pattern in *.
  rewrite update_vectorizer_patterns. cbn [a1 patterns with_patterns].
  rewrite (find_first_app_none _ _ _ Hnone2).
  assert (Hs : similar_to context2 pattern_type brain_region n = true).
  { unfold similar_to. rewrite Hctx, Hty, Hrg, !String.eqb_refl, Hsim.
    reflexivity. }
  rewrite Hs. cbn [fst snd patterns with_patterns].
  split; [congruence|].
  rewrite replace_nth_last. eexists. split; [reflexivity|].
  simpl. repeat split; try assumption. rewrite Huse. reflexivity.
Qed.

End LearningFacts.

(** ** Retrieval *)

Section SortFacts.
Context {A : Type} (key : A -> Q).

Lemma insert_desc_perm (x : A) (l : list A) :
  Permutation (Py.insert_desc key x l) (x :: l).
Proof.
  induction l as [|y l IH]; simpl; [reflexivity|].
  destruct (Py.Qltb (key x) (key y)); [|reflexivity].
  rewrite IH. apply perm_swap.
Qed.

Lemma sort_desc_perm (l : list A) : Permutation (Py.sort_desc key l) l.
Proof.
  induction l as [|x l IH]; simpl; [reflexivity|].
  rewrite insert_desc_perm. constructor. exact IH.
Qed.

Lemma insert_desc_sorted (x : A) (l : list A) :
  StronglySorted (Py.not_below key) l ->
  StronglySorted (Py.not_below key) (Py.insert_desc key x l).
Proof.
  induction 1 as [|y l Hl IH Hy]; simpl.
  - repeat constructor.
  - destruct (Py.Qltb (key x) (key y)) eqn:E.
    + constructor; [exact IH|].
      apply Qltb_true in E.
      eapply Permutation_Forall;
        [symmetry; apply insert_desc_perm|].
      constructor; [|exact Hy]. unfold Py.not_below. lra.
    + apply Qltb_false in E.
      constructor; [constructor; assumption|].
      constructor; [exact E|].
      eapply Forall_impl; [|exact Hy]. unfold Py.not_below. intros z Hz. lra.
Qed.

Lemma sort_desc_sorted (l : list A) :
  StronglySorted (Py.not_below key) (Py.sort_desc key l).
Proof.
  induction l as [|x l IH]; simpl; [constructor|].
  apply insert_desc_sorted. exact IH.
Qed.

Lemma insert_desc_stable (v : Q) (x : A) (l : list A) :
  filter (Py.has_key key v) (Py.insert_desc key x l) = filter (Py.has_key key v) (x :: l).
Proof.
  induction l as [|y l IH]; [reflexivity|].
  cbn [Py.insert_desc].
  destruct (Py.Qltb (key x) (key y)) eqn:E; [|reflexivity].
  apply Qltb_true in E.
  cbn [filter] in *. rewrite IH.
  unfold Py.has_key.
  destruct (Qeq_bool (key y) v) eqn:Ey; [|reflexivity].
  destruct (Qeq_bool (key x) v) eqn:Ex; [|reflexivity].
  apply Qeq_bool_iff in Ex, Ey. exfalso. lra.
Qed.

Lemma sort_desc_stable (v : Q) (l : list A) :
  filter (Py.has_key key v) (Py.sort_desc key l) = filter (Py.has_key key v) l.
Proof.
  induction l as [|x l IH]; [reflexivity|].
  cbn [Py.sort_desc]. rewrite insert_desc_stable. cbn [filter].
  rewrite IH. reflexivity.
Qed.

Lemma firstn_sorted (R : A -> A -> Prop) (n : nat) (l : list A) :
  StronglySorted R l -> StronglySorted R (firstn n l).
Proof.
  intros H. revert n. induction H as [|x l Hl IH Hx]; intros [|n]; simpl;
    try constructor; auto.
  apply Forall_forall. intros y Hy.
  apply (proj1 (Forall_forall _ _) Hx).
  rewrite <- (firstn_skipn n l). apply in_or_app. left. exact Hy.
Qed.

Lemma prefix_sorted (R : A -> A -> Prop) (n : Z) (l : list A) :
  StronglySorted R l -> StronglySorted R (Py.prefix n l).
Proof.
  intros H. unfold Py.prefix. destruct (0 <=? n)%Z; apply firstn_sorted, H.
Qed.

Lemma subseq_refl (l : list A) : Py.subseq l l.
Proof.
  induction l; [apply Py.subseq_nil|apply Py.subseq_take; assumption].
Qed.

Lemma subseq_nil_l (l : list A) : Py.subseq [] l.
Proof.
  induction l; [apply Py.subseq_nil|apply Py.subseq_skip; assumption].
Qed.

Lemma subseq_filter (f : A -> bool) (l : list A) : Py.subseq (filter f l) l.
Proof.
  induction l as [|x l IH]; simpl; [apply Py.subseq_nil|].
  destruct (f x); [apply Py.subseq_take|apply Py.subseq_skip]; exact IH.
Qed.

Lemma subseq_firstn (n : nat) (l : list A) : Py.subseq (firstn n l) l.
Proof.
  revert n. induction l as [|x l IH]; intros [|n]; simpl.
  - apply Py.subseq_nil.
  - apply Py.subseq_nil.
  - apply subseq_nil_l.
  - apply Py.subseq_take, IH.
Qed.

Lemma subseq_trans (l1 l2 l3 : list A) :
  Py.subseq l1 l2 -> Py.subseq l2 l3 -> Py.subseq l1 l3.
Proof.
  intros H12 H23. revert l1 H12.
  induction H23 as [|x l2 l3 H IH|x l2 l3 H IH]; intros l1 H12.
  - exact H12.
  - apply Py.subseq_skip, IH, H12.
  - inversion H12; subst.
    + apply Py.subseq_skip, IH. assumption.
    + apply Py.subseq_take, IH. assumption.
Qed.

End SortFacts.

Section RetrievalFacts.
Context {SK : Sklearn}.
Import Learning.

Lemma prefix_nil {A} (n : Z) : Py.prefix n (@nil A) = [].
Proof. unfold Py.prefix. destruct (0 <=? n)%Z; apply firstn_nil. Qed.

Lemma vector_scores_nil (sims : list Q) : vector_scores sims [] = [].
Proof. reflexivity. Qed.

(** The method sorts [scored_patterns] and cuts the result at [limit]; the
    early returns are the cases of an empty scored list. *)
Lemma retrieve_sorts_scored (a : Adapter) (query : string)
  (pattern_type brain_region : option string) (limit : Z) :
  retrieve_relevant_patterns a query pattern_type brain_region limit =
  map fst
    (Py.prefix limit
       (Py.sort_desc snd (scored_patterns a query pattern_type brain_region))).
Proof.
  unfold retrieve_relevant_patterns, scored_patterns, _simple_text_matching.
  destruct (patterns a) as [|p ps] eqn:E.
  - simpl. destruct (pattern_vectors a); [destruct (vectorizer a)|];
      simpl; rewrite prefix_nil; reflexivity.
  - rewrite <- E.
    destruct (filter (is_candidate pattern_type brain_region) (patterns a))
      as [|c cs] eqn:F.
    + destruct (pattern_vectors a); [destruct (vectorizer a)|];
        simpl; rewrite prefix_nil; reflexivity.
    + destruct (pattern_vectors a); [destruct (vectorizer a)|];
        try reflexivity.
      simpl. rewrite prefix_nil. reflexivity.
Qed.

Lemma vector_scores_fst (sims : list Q) (cs : list LearningPattern) :
  map fst (vector_scores sims cs) = firstn (List.length sims) cs.
Proof.
  unfold vector_scores. rewrite map_map. simpl.
  revert sims. induction cs as [|c cs IH]; intros [|s sims]; simpl;
    try reflexivity.
  f_equal. apply IH.
Qed.

Lemma text_scores_subseq (query : string) (cs : list LearningPattern) :
  Py.subseq (map fst (text_scores query cs)) cs.
Proof.
  induction cs as [|c cs IH]; simpl; [apply Py.subseq_nil|].
  destruct (word_overlap query (Learning.input_context c)); simpl.
  - apply Py.subseq_take, IH.
  - apply Py.subseq_skip, IH.
Qed.

Lemma scored_in_store_order (a : Adapter) (query : string)
  (pattern_type brain_region : option string) :
  Py.subseq (map fst (scored_patterns a query pattern_type brain_region))
    (patterns a).
Proof.
  unfold scored_patterns.
  eapply subseq_trans; [|apply subseq_filter].
  destruct (pattern_vectors a); [destruct (vectorizer a)|].
  - rewrite vector_scores_fst. apply subseq_firstn.
  - apply subseq_nil_l.
  - apply text_scores_subseq.
Qed.

(** C7, as the code has it (ranking).  [retrieve_relevant_patterns] returns
    the first [limit] patterns of its scored list sorted by non-increasing
    combined score.  The sort is stable and the scored list follows the
    order of the store, so patterns with equal scores come out in the
    order in which the store holds them; [usage_count] takes no part.  The
    method reads the store only, so the same store, query, filters and
    limit give the same list again. *)
Theorem retrieve_sorted_ties_in_store_order (a : Adapter) (query : string)
  (pattern_type brain_region : option string) (limit : Z) :
  let scored := scored_patterns a query pattern_type brain_region in
  let ranked := Py.sort_desc snd scored in
  retrieve_relevant_patterns a query pattern_type brain_region limit =
  map fst (Py.prefix limit ranked) /\
  StronglySorted (Py.not_below snd) (Py.prefix limit ranked) /\
  Permutation ranked scored /\
  (forall v, filter (Py.has_key snd v) ranked
             = filter (Py.has_key snd v) scored) /\
  Py.subseq (map fst scored) (patterns a).
Proof.
  intros scored ranked. subst ranked scored. repeat split.
  - apply retrieve_sorts_scored.
  - apply prefix_sorted, sort_desc_sorted.
  - apply sort_desc_perm.
  - intros v. apply sort_desc_stable.
  - apply scored_in_store_order.
Qed.

Lemma vector_scores_aligned (g : LearningPattern -> Q)
  (ps : list LearningPattern) :
  vector_scores (map g ps) ps = map (fun p => (p, combined_score (g p) p)) ps.
Proof.
  unfold vector_scores. induction ps as [|p ps IH]; simpl; [reflexivity|].
  f_equal. exact IH.
Qed.

(** When the filters let every stored pattern through and the index holds
    the row of every stored pattern, the method ranks every pattern by its
    own similarity. *)
Lemma retrieve_aligned_uses_own_similarity (a : Adapter) (query : string)
  (pattern_type brain_region : option string) (limit : Z)
  (corpus : list string) :
  vectorizer a = Some corpus ->
  pattern_vectors a =
  Some (map (fun p => transform IndexVectorizer corpus
                        (Learning.input_context p)) (patterns a)) ->
  filter (is_candidate pattern_type brain_region) (patterns a) = patterns a ->
  retrieve_relevant_patterns a query pattern_type brain_region limit =
  retrieve_by_own_similarity a query pattern_type brain_region limit.
Proof.
  intros Hv Hrows Hall. rewrite retrieve_sorts_scored.
  unfold retrieve_by_own_similarity, scored_patterns.
  rewrite Hrows, Hv, Hall, map_map.
  rewrite (vector_scores_aligned
             (fun p => cosine_similarity
                         (transform IndexVectorizer corpus query)
                         (transform IndexVectorizer corpus
                            (Learning.input_context p)))).
  do 3 f_equal. apply map_ext. intros p. unfold own_similarity.
  rewrite Hv. reflexivity.
Qed.

End RetrievalFacts.

(** C7, as stated, fails: two stored patterns with the same combined score
    come out in store order, the one with [usage_count] 1 before the one
    with [usage_count] 5. *)
Lemma retrieve_tie_not_by_usage_count :
  map (fun p => (Learning.id p, Learning.usage_count p))
    (Learning.retrieve_relevant_patterns Demo.tie_store "alpha" None None 5)
  = [("p-1", 1%Z); ("p-2", 5%Z)] /\
  Forall (fun x => snd x == 97 # 100)
    (Learning.scored_patterns Demo.tie_store "alpha" None None).
Proof.
  split; [vm_compute; reflexivity|].
  vm_compute. repeat constructor.
Qed.

(** C1 at a store of three patterns queried with a [pattern_type] filter.
    The candidates are the second and the third pattern, but the rows of
    the index are those of the whole store: the second pattern is scored
    with the similarity of the first and ranked first, although the query
    equals the third pattern's [input_context] and has no word in common
    with the second's. *)
Theorem retrieve_filtered_uses_rows_of_other_patterns :
  map Learning.id (Learning.patterns Demo.mixed_store) = ["p-1"; "p-2"; "p-3"] /\
  map Learning.id
    (Learning.retrieve_relevant_patterns Demo.mixed_store "alpha"
       (Some "tool_usage") None 1) = ["p-2"] /\
  map Learning.id
    (Learning.retrieve_by_own_similarity Demo.mixed_store "alpha"
       (Some "tool_usage") None 1) = ["p-3"] /\
  map (fun p => (Learning.id p,
                 Learning.own_similarity Demo.mixed_store "alpha" p))
    (Learning.patterns Demo.mixed_store)
  = [("p-1", 1); ("p-2", 0); ("p-3", 1)].
Proof.
  repeat split; vm_compute; reflexivity.
Qed.

(** ** Instances and counterexamples for the learning adapter *)

Lemma learn_below_threshold_is_noop_witness :
  1 # 2 < Learning.min_success_score Demo.adapter0 /\
  Learning.learn_from_interaction Demo.adapter0 (Demo.calls "p-1" 0)
    "alpha" "ok" (1 # 2) "R" "conversation" [] = (None, Demo.adapter0).
Proof.
  assert (H : 1 # 2 < Learning.min_success_score Demo.adapter0)
    by reflexivity.
  split; [exact H|].
  pose proof (learn_below_threshold_is_noop Demo.adapter0 (Demo.calls "p-1" 0)
                "alpha" "ok" (1 # 2) "R" "conversation" [] H) as (H1 & H2 & _).
  apply injective_projections; simpl; assumption.
Defined.

(** C3, as stated, fails: on an empty store, feedback for a pattern id
    that does not exist is recorded all the same and its id is returned. *)
Lemma record_feedback_unknown_id_is_stored :
  Learning.dict_get "missing" (Learning.patterns Demo.adapter0) = None /\
  let r := Learning.record_feedback Demo.adapter0
             (Demo.feedback_calls "f-1" 0 "p-9")
             "missing" "user" "negative" (-1) "out" None [] in
  fst r = Some "f-1" /\
  map Learning.fb_pattern_id (Learning.feedback_records (snd r))
  = ["missing"] /\
  Learning.feedback_records (snd r)
  <> Learning.feedback_records Demo.adapter0.
Proof.
  vm_compute. repeat split; discriminate.
Qed.

Lemma record_feedback_missing_pattern_witness :
  Learning.dict_get "missing" (Learning.patterns Demo.alpha_store) = None /\
  Learning.patterns
    (snd (Learning.record_feedback Demo.alpha_store
            (Demo.feedback_calls "f-1" 0 "p-9")
            "missing" "user" "positive" 1 "out" (Some "better") []))
  = Learning.patterns Demo.alpha_store.
Proof.
  assert (H : Learning.dict_get "missing"
                (Learning.patterns Demo.alpha_store) = None) by reflexivity.
  split; [exact H|].
  exact (proj1 (proj2 (record_feedback_missing_pattern Demo.alpha_store
                         (Demo.feedback_calls "f-1" 0 "p-9")
                         "missing" "user" "positive" 1 "out" (Some "better")
                         [] H))).
Defined.

Lemma learn_update_changes_one_pattern_witness :
  Learning._find_similar_pattern Demo.alpha_store "alpha" "conversation" "R"
  = Some (O, Demo.alpha_pattern) /\
  fst (Learning.learn_from_interaction Demo.alpha_store (Demo.calls "p-2" 5)
         "alpha" "ok" (8 # 10) "R" "conversation" [])
  = Some "p-1".
Proof.
  assert (H : Learning._find_similar_pattern Demo.alpha_store "alpha"
                "conversation" "R" = Some (O, Demo.alpha_pattern))
    by reflexivity.
  split; [exact H|].
  refine (proj1 (learn_update_changes_one_pattern Demo.alpha_store
                   (Demo.calls "p-2" 5) "alpha" "ok" (8 # 10) "R"
                   "conversation" [] O Demo.alpha_pattern _ H)).
  unfold Qle. simpl. lia.
Defined.

Lemma record_feedback_keeps_score_in_unit_interval_witness :
  Learning.dict_get "p-1" (Learning.patterns Demo.alpha_store)
  = Some Demo.alpha_pattern /\
  exists p',
    Learning.dict_get "p-1"
      (Learning.patterns
         (snd (Learning.record_feedback Demo.alpha_store
                 (Demo.feedback_calls "f-1" 0 "p-9")
                 "p-1" "user" "correction" 1 "out" (Some "better") [])))
    = Some p' /\
    0 <= Learning.effectiveness_score p' /\
    Learning.effectiveness_score p' <= 1.
Proof.
  assert (H : Learning.dict_get "p-1" (Learning.patterns Demo.alpha_store)
              = Some Demo.alpha_pattern) by reflexivity.
  split; [exact H|].
  apply (record_feedback_keeps_score_in_unit_interval Demo.alpha_store
           (Demo.feedback_calls "f-1" 0 "p-9") "p-1" "user" "correction" 1
           "out" (Some "better") [] Demo.alpha_pattern H);
    unfold Qle; simpl; lia.
Defined.

Lemma cleanup_removes_exactly_old_ineffective_witness :
  NoDup (map Learning.id (Learning.patterns Demo.stale_store)) /\
  map Learning.id
    (Learning.patterns
       (Learning.cleanup_old_patterns Demo.stale_store Demo.cleanup_now))
  = ["p-2"].
Proof.
  assert (H : NoDup (map Learning.id (Learning.patterns Demo.stale_store))).
  { simpl. repeat constructor; simpl; intuition discriminate. }
  split; [exact H|].
  rewrite (proj1 (proj2 (cleanup_removes_exactly_old_ineffective
                           Demo.stale_store Demo.cleanup_now H))).
  reflexivity.
Defined.

(** C4, as stated, fails: two texts whose similarity is exactly 0.8 are
    not merged, and the store ends with two patterns of [usage_count] 1. *)
Lemma learn_twice_at_similarity_08_keeps_both :
  Learning._calculate_text_similarity (SK := Demo.sklearn)
    Demo.text_7_24 Demo.text_4_3 == 8 # 10 /\
  let s1 := Demo.learn Demo.adapter0 "p-1" 0 Demo.text_4_3 (9 # 10)
              "R" "conversation" in
  let s2 := Demo.learn s1 "p-2" 0 Demo.text_7_24 (9 # 10)
              "R" "conversation" in
  map (fun p => (Learning.id p, Learning.usage_count p))
    (Learning.patterns s2) = [("p-1", 1%Z); ("p-2", 1%Z)].
Proof.
  split; vm_compute; reflexivity.
Qed.

Lemma learn_twice_merges_above_threshold_witness :
  8 # 10 < Learning._calculate_text_similarity (SK := Demo.sklearn)
             "alpha" "alpha" /\
  exists p,
    Learning.patterns
      (snd (Learning.learn_from_interaction
              (snd (Learning.learn_from_interaction Demo.adapter0
                      (Demo.calls "p-1" 0) "alpha" "ok" (9 # 10)
                      "R" "conversation" []))
              (Demo.calls "p-2" 1) "alpha" "ok" (8 # 10)
              "R" "conversation" []))
    = Learning.patterns Demo.adapter0 ++ [p] /\
    Learning.usage_count p = 2%Z.
Proof.
  assert (H : 8 # 10 < Learning._calculate_text_similarity
                         (SK := Demo.sklearn) "alpha" "alpha")
    by reflexivity.
  split; [exact H|].
  destruct (learn_twice_merges_above_threshold Demo.adapter0
              (Demo.calls "p-1" 0) (Demo.calls "p-2" 1)
              "alpha" "alpha" "ok" "ok" (9 # 10) (8 # 10)
              "R" "conversation" [] [])
    as (_ & _ & p & Hp & _ & _ & _ & _ & Hu);
    try reflexivity; try exact H; try (unfold Qle; simpl; lia).
  exists p. split; assumption.
Defined.

(** * Properties of the conversation manager *)

Section AssocFacts.
Context {V : Type}.
Import Conversation.

Lemma find_first_replace_none {A} (f : A -> bool) (l : list A) (j : nat)
  (y : A) :
  Py.find_first f l = None -> f y = false ->
  Py.find_first f (Py.replace_nth j y l) = None.
Proof.
  revert j. induction l as [|a l IH]; intros j; simpl.
  - destruct j; reflexivity.
  - destruct (f a) eqn:Fa; [discriminate|].
    destruct (Py.find_first f l) as [[k z]|] eqn:E; simpl; [discriminate|].
    intros _ Hy. destruct j as [|j]; simpl.
    + rewrite Hy, E. reflexivity.
    + rewrite Fa, (IH j eq_refl Hy). reflexivity.
Qed.

Lemma assoc_get_set_same (k : string) (v : V) (l : list (string * V)) :
  assoc_get k (assoc_set k v l) = Some v.
Proof.
  unfold assoc_set, assoc_get.
  destruct (assoc_ref k l) as [[i kv]|] eqn:E.
  - unfold assoc_ref in *.
    destruct (find_first_some _ _ _ _ E) as (Hnth & Hk & _).
    rewrite (find_first_replace _ _ _ _ _ _ (k, v) E Hnth).
    + rewrite Nat.eqb_refl. reflexivity.
    + simpl. rewrite String.eqb_refl. symmetry. exact Hk.
  - unfold assoc_ref in *. rewrite (find_first_app_none _ _ _ E).
    simpl. rewrite String.eqb_refl. reflexivity.
Qed.

Lemma assoc_get_set_other (k k' : string) (v : V) (l : list (string * V)) :
  k <> k' -> assoc_get k' (assoc_set k v l) = assoc_get k' l.
Proof.
  intros Hne. unfold assoc_set, assoc_get.
  assert (Hf : String.eqb (fst (k, v)) k' = false)
    by (simpl; apply String.eqb_neq; exact Hne).
  destruct (assoc_ref k l) as [[i kv]|] eqn:E; unfold assoc_ref in *.
  - destruct (find_first_some _ _ _ _ E) as (Hnth & Hk & _).
    apply String.eqb_eq in Hk.
    destruct (Py.find_first (fun kv0 => String.eqb (fst kv0) k') l)
      as [[i' x]|] eqn:E'.
    + assert (Hfy : String.eqb (fst (k, v)) k' = String.eqb (fst kv) k')
        by (simpl; rewrite Hk; reflexivity).
      rewrite (find_first_replace _ _ _ _ _ _ (k, v) E' Hnth Hfy).
      destruct (Nat.eqb i i') eqn:Ei; [|reflexivity].
      apply Nat.eqb_eq in Ei. subst i'.
      destruct (find_first_some _ _ _ _ E') as (Hnth' & Hk' & _).
      apply String.eqb_eq in Hk'. congruence.
    + rewrite (find_first_replace_none _ _ _ _ E' Hf). reflexivity.
  - destruct (Py.find_first (fun kv0 => String.eqb (fst kv0) k') l)
      as [r|] eqn:E'.
    + rewrite (find_first_app_some _ _ _ _ E'). reflexivity.
    + rewrite (find_first_app_none _ _ _ E'), Hf. reflexivity.
Qed.

Lemma assoc_mem_get (k : string) (l : list (string * V)) :
  assoc_mem k l = match assoc_get k l with Some _ => true | None => false end.
Proof.
  unfold assoc_mem, assoc_get. destruct (assoc_ref k l); reflexivity.
Qed.

End AssocFacts.

(** ** The conversation history *)

Section HistoryFacts.
Import Conversation.

Lemma add_history_keeps (m : Manager) (c : ConversationContext)
  (role content : string) (now : Py.Time) :
  let c' := _add_to_conversation_history m c role content now in
  session_id c' = session_id c /\
  brain_region c' = brain_region c /\
  flow_variables c' = flow_variables c /\
  current_state c' = current_state c /\
  current_flow c' = current_flow c.
Proof.
  unfold _add_to_conversation_history.
  destruct (_ <? _)%Z; simpl; auto.
Qed.

(** With a positive bound, one append leaves the last
    [max_conversation_history] entries of the extended history. *)
Lemma add_history_suffix (m : Manager) (c : ConversationContext)
  (role content : string) (now : Py.Time) :
  (0 < max_conversation_history m)%Z ->
  conversation_history (_add_to_conversation_history m c role content now) =
  Py.suffix (max_conversation_history m)
    (conversation_history c ++ [entry_of c (role, content, now)]).
Proof.
  intros Hpos. unfold _add_to_conversation_history, entry_of. simpl.
  destruct (_ <? _)%Z eqn:E; simpl; [reflexivity|].
  apply Z.ltb_ge in E. unfold Py.suffix.
  apply Z.ltb_lt in Hpos. rewrite Hpos.
  match goal with |- _ = skipn ?n _ => replace n with O by lia end.
  reflexivity.
Qed.

Lemma suffix_app_suffix {A} (n : Z) (l r : list A) :
  (0 < n)%Z ->
  Py.suffix n (Py.suffix n l ++ r) = Py.suffix n (l ++ r).
Proof.
  intros Hpos. unfold Py.suffix. apply Z.ltb_lt in Hpos. rewrite Hpos.
  set (k := Z.to_nat n).
  destruct (Nat.le_gt_cases (List.length l) k) as [Hle|Hgt].
  - replace (List.length l - k)%nat with O by lia. reflexivity.
  - set (d := (List.length l - k)%nat).
    rewrite !length_app, length_skipn.
    replace (List.length l - d + List.length r - k)%nat
      with (List.length r) by lia.
    replace (List.length l + List.length r - k)%nat
      with (List.length r + d)%nat by lia.
    rewrite <- skipn_skipn. f_equal.
    rewrite skipn_app. replace (d - List.length l)%nat with O by lia.
    reflexivity.
Qed.

Lemma append_all_suffix (m : Manager) (msgs : list (string * string * Py.Time)) :
  (0 < max_conversation_history m)%Z ->
  forall (c : ConversationContext) (e : string * string * Py.Time),
  conversation_history (append_all m c (e :: msgs)) =
  Py.suffix (max_conversation_history m)
    (conversation_history c ++ map (entry_of c) (e :: msgs)).
Proof.
  intros Hpos. induction msgs as [|e' msgs IH]; intros c e.
  - unfold append_all. simpl. destruct e as [[role content] now].
    apply add_history_suffix. exact Hpos.
  - unfold append_all in *. cbn [fold_left].
    cbn [fold_left] in IH. rewrite IH.
    destruct e as [[role content] now]. cbn [fst snd].
    rewrite (map_ext
               (entry_of (_add_to_conversation_history m c role content now))
               (entry_of c)).
    + rewrite add_history_suffix by exact Hpos.
      rewrite suffix_app_suffix by exact Hpos.
      rewrite <- app_assoc. reflexivity.
    + intros x. unfold entry_of.
      destruct (add_history_keeps m c role content now) as (_ & Hb & _).
      rewrite Hb. reflexivity.
Qed.

(** History bound for a positive [max_conversation_history]: after
    [max + k] appends ([k > 0]) the history holds exactly the last [max]
    appended entries, in their order, whatever it held before. *)
Lemma history_bound_positive_max (m : Manager) (c : ConversationContext)
  (msgs : list (string * string * Py.Time)) (k : nat) :
  (0 < max_conversation_history m)%Z ->
  (0 < k)%nat ->
  Z.of_nat (List.length msgs) = (max_conversation_history m + Z.of_nat k)%Z ->
  conversation_history (append_all m c msgs) =
  skipn k (map (entry_of c) msgs) /\
  Z.of_nat (List.length (conversation_history (append_all m c msgs))) =
  max_conversation_history m.
Proof.
  intros Hpos Hk Hlen.
  destruct msgs as [|e msgs]; [simpl in Hlen; lia|].
  assert (E : conversation_history (append_all m c (e :: msgs)) =
              skipn k (map (entry_of c) (e :: msgs))).
  { rewrite append_all_suffix by exact Hpos.
    unfold Py.suffix. apply Z.ltb_lt in Hpos. rewrite Hpos.
    rewrite length_app, length_map, skipn_app.
    set (n := List.length (e :: msgs)) in *.
    set (h := conversation_history c).
    replace (List.length h + n - Z.to_nat (max_conversation_history m))%nat
      with (List.length h + k)%nat by lia.
    rewrite skipn_all2 by lia.
    replace (List.length h + k - List.length h)%nat with k by lia.
    reflexivity. }
  split; [exact E|]. rewrite E, length_skipn, length_map. lia.
Qed.

End HistoryFacts.

(** C8 at [max_conversation_history = 0].  The session is opened with one
    message and one [process_message] call appends two more; the history
    then holds all three entries, not the last 0: the slice
    [history[-0:]] is the whole list. *)
Theorem history_not_trimmed_at_max_zero :
  Conversation.max_conversation_history (Demo.manager_with_session 0) = 0%Z /\
  option_map
    (fun c => List.length (Conversation.conversation_history c))
    (Conversation.session_get "s-1" (Demo.manager_with_session 0))
  = Some 1%nat /\
  option_map
    (fun c => List.length (Conversation.conversation_history c))
    (Conversation.session_get "s-1"
       (Conversation.run (RT := Demo.runtime) (Demo.manager_with_session 0)
          "s-1" [Demo.input "what is this?" 1]))
  = Some 3%nat.
Proof.
  repeat split; vm_compute; reflexivity.
Qed.

(** ** Flow execution *)

Section FlowFacts.
Context {RT : Conversation.PyRuntime}.
Import Conversation.

(** A step changes [flow_variables] as [step_variables] says and keeps the
    session id. *)
Lemma execute_flow_step_effect (m : Manager) (c : ConversationContext)
  (step : Step) (message : string) (now : Py.Time) :
  let rc := _execute_flow_step m c step message now in
  session_id (snd rc) = session_id c /\
  flow_variables (snd rc) = step_variables step message (flow_variables c).
Proof.
  unfold _execute_flow_step, step_variables.
  set (ty := match step_type step with Some t => t | None => "message" end).
  destruct (String.eqb ty "message") eqn:E1.
  { apply String.eqb_eq in E1. rewrite E1. simpl.
    destruct (add_history_keeps m c "assistant"
                (fold_left
                   (fun response kv =>
                      Py.replace
                        (String.append "{" (String.append (fst kv) "}"))
                        (py_str (snd kv)) response)
                   (flow_variables c)
                   (get_default "template" "I understand." (step_data step)))
                now) as (H1 & _ & H3 & _).
    split; assumption. }
  destruct (String.eqb ty "memory_query") eqn:E2.
  { apply String.eqb_eq in E2. rewrite E2. simpl. auto. }
  destruct (String.eqb ty "agent_call") eqn:E3.
  { apply String.eqb_eq in E3. rewrite E3. simpl.
    unfold _execute_agent_step.
    destruct (assoc_get "agent_id" (step_data step)) as [aid|]; simpl; auto.
    destruct (Py.truthy aid); simpl; auto.
    destruct (agent_get aid m); simpl; auto. }
  destruct (String.eqb ty "condition") eqn:E4.
  { apply String.eqb_eq in E4. rewrite E4. simpl. auto. }
  destruct (String.eqb ty "input_collection") eqn:E5; simpl; auto.
Qed.

Lemma complete_flow_no_step (c : ConversationContext) (flow : ConversationFlow)
  (now : Py.Time) :
  step_completed (fst (_complete_flow c flow now)) = None.
Proof.
  unfold _complete_flow.
  destruct (assoc_get "flow_start_time" _) as [[n|q|s|t]|]; simpl;
    try reflexivity.
  - destruct (n =? 0)%Z; reflexivity.
  - destruct (Qeq_bool q 0); reflexivity.
  - destruct (Py.truthy s); [|reflexivity].
    destruct (fromisoformat s); reflexivity.
Qed.

Lemma total_seconds_nonneg (now start : Py.Time) :
  (start <= now)%Z -> 0 <= total_seconds now start.
Proof.
  intros H. unfold total_seconds.
  apply Qle_shift_div_l; [reflexivity|].
  rewrite Qmult_0_l. unfold Qle. simpl. lia.
Qed.

(** [_complete_flow] on a session whose start time is in place. *)
Lemma complete_flow_records (c : ConversationContext) (flow : ConversationFlow)
  (now t0 : Py.Time) :
  assoc_get "flow_start_time" (flow_variables c) = Some (VTime t0) ->
  let rc := _complete_flow c flow now in
  session_id (snd rc) = session_id c /\
  current_state (snd rc) = COMPLETED /\
  current_flow (snd rc) = None /\
  assoc_get "flow_duration" (flow_variables (snd rc))
  = Some (VFloat (total_seconds now t0)) /\
  flow_completed (fst rc) = Some true.
Proof.
  intros H. unfold _complete_flow. cbn [flow_variables set_flow set_state].
  rewrite H. cbn [fst snd session_id current_state current_flow
                  flow_variables set_flow_variables set_flow set_state
                  flow_completed].
  repeat split. apply assoc_get_set_same.
Qed.

(** The flow variables after [_execute_conversation_flow] has prepared them
    and before it looks at the step counter. *)
Lemma started_progress (k : Z) (started : option Py.Time)
  (fv : list (string * Value)) (t : Py.Time) (c : ConversationContext) :
  flow_variables c = fv ->
  flow_progress k started c ->
  let fv' :=
    if assoc_mem "current_step" fv then fv
    else assoc_set "flow_start_time" (VTime t)
           (assoc_set "current_step" (VInt 0) fv) in
  assoc_get "current_step" fv' = Some (VInt k) /\
  assoc_get "flow_start_time" fv'
  = Some (VTime match started with Some t0 => t0 | None => t end).
Proof.
  intros <- H. unfold flow_progress in H. rewrite assoc_mem_get.
  destruct started as [t0|].
  - destruct H as [H1 H2]. rewrite H1. auto.
  - destruct H as [-> H1]. rewrite H1. split.
    + rewrite assoc_get_set_other by discriminate.
      apply assoc_get_set_same.
    + apply assoc_get_set_same.
Qed.

Lemma index_in_range {A} (k : Z) (l : list A) :
  (0 <= k)%Z -> (k < Z.of_nat (List.length l))%Z ->
  exists x, Py.index k l = Some x /\ In x l.
Proof.
  intros H0 H1. unfold Py.index. apply Z.leb_le in H0. rewrite H0.
  apply Z.leb_le in H0.
  destruct (nth_error l (Z.to_nat k)) as [x|] eqn:E.
  - exists x. split; [reflexivity|]. eapply nth_error_In. exact E.
  - apply nth_error_None in E. lia.
Qed.

(** One driven call of [_execute_conversation_flow]: a call that returns
    [step_completed = True] ran the step at the counter and moved the
    counter on by one. *)
Lemma execute_driven_step (m : Manager) (io : MessageCalls)
  (c : ConversationContext) (fid message : string) (flow : ConversationFlow)
  (k : Z) (started : option Py.Time) :
  flow_get fid m = Some flow ->
  forallb (fun st => negb (writes_variable "flow_start_time" st)) (steps flow)
  = true ->
  (0 <= k)%Z ->
  flow_progress k started c ->
  let rc := _execute_conversation_flow m io c fid message in
  step_completed (fst rc) = Some true ->
  session_id (snd rc) = session_id c /\
  (k < Z.of_nat (List.length (steps flow)))%Z /\
  flow_progress (k + 1)
    (Some match started with Some t0 => t0 | None => now_flow_start io end)
    (snd rc).
Proof.
  intros Hflow Hclean Hk Hprog.
  unfold _execute_conversation_flow. rewrite Hflow.
  cbn [flow_variables set_state set_flow].
  destruct (started_progress k started (flow_variables c)
              (now_flow_start io) c eq_refl Hprog) as [Hstep Hstart].
  set (t0 := match started with Some t0 => t0 | None => now_flow_start io end)
    in *.
  set (c1 := set_state (set_flow c (Some fid) (Some (cf_flow_type flow)))
               FLOW_EXECUTION).
  set (c2 := if assoc_mem "current_step" (flow_variables c) then c1
             else set_flow_variables c1 _).
  assert (Hfv2 : flow_variables c2 =
                 if assoc_mem "current_step" (flow_variables c)
                 then flow_variables c
                 else assoc_set "flow_start_time" (VTime (now_flow_start io))
                        (assoc_set "current_step" (VInt 0)
                           (flow_variables c))).
  { subst c2. destruct (assoc_mem _ _); reflexivity. }
  assert (Hid2 : session_id c2 = session_id c).
  { subst c2. destruct (assoc_mem _ _); reflexivity. }
  rewrite <- Hfv2 in Hstep, Hstart. rewrite Hstep.
  destruct (Z.of_nat (List.length (steps flow)) <=? k)%Z eqn:Elen.
  { cbn zeta. rewrite complete_flow_no_step. discriminate. }
  apply Z.leb_gt in Elen.
  destruct (index_in_range k (steps flow) Hk Elen) as (step & Hidx & Hin).
  rewrite Hidx.
  destruct (execute_flow_step_effect m c2 step message (now_step io))
    as [Hid3 Hfv3].
  destruct (_execute_flow_step m c2 step message (now_step io))
    as [step_result c3].
  cbn [fst snd] in Hid3, Hfv3.
  destruct (step_completed step_result) as [[|]|] eqn:Edone;
    cbn [fst snd]; try congruence.
  assert (Hnot : writes_variable "flow_start_time" step = false).
  { rewrite forallb_forall in Hclean. apply negb_true_iff, Hclean, Hin. }
  unfold increment_step. rewrite Hfv3.
  unfold step_variables, writes_variable in *.
  destruct (String.eqb
              match step_type step with Some t => t | None => "message" end
              "input_collection").
  - set (var := get_default "variable" "user_input" (step_data step)) in *.
    simpl in Hnot. apply String.eqb_neq in Hnot.
    destruct (String.eqb var "current_step") eqn:Evar.
    + apply String.eqb_eq in Evar. rewrite Evar, assoc_get_set_same.
      cbn [fst step_completed failed]. discriminate.
    + apply String.eqb_neq in Evar.
      rewrite (assoc_get_set_other var "current_step") by exact Evar.
      rewrite Hstep. cbn [fst snd]. intros _.
      split; [cbn [session_id set_flow_variables]; congruence|].
      split; [exact Elen|].
      unfold flow_progress. cbn [flow_variables set_flow_variables].
      split; [apply assoc_get_set_same|].
      rewrite assoc_get_set_other by discriminate.
      rewrite (assoc_get_set_other var "flow_start_time") by exact Hnot.
      exact Hstart.
  - rewrite Hstep. cbn [fst snd]. intros _.
    split; [cbn [session_id set_flow_variables]; congruence|].
    split; [exact Elen|].
    unfold flow_progress. cbn [flow_variables set_flow_variables].
    split; [apply assoc_get_set_same|].
    rewrite assoc_get_set_other by discriminate.
    exact Hstart.
Qed.

(** A call of [_execute_conversation_flow] that finds the counter at the
    end of the step list completes the flow. *)
Lemma execute_completes (m : Manager) (io : MessageCalls)
  (c : ConversationContext) (fid message : string) (flow : ConversationFlow)
  (k : Z) (started : option Py.Time) :
  flow_get fid m = Some flow ->
  flow_progress k started c ->
  (Z.of_nat (List.length (steps flow)) <= k)%Z ->
  let rc := _execute_conversation_flow m io c fid message in
  session_id (snd rc) = session_id c /\
  current_state (snd rc) = COMPLETED /\
  current_flow (snd rc) = None /\
  assoc_get "flow_duration" (flow_variables (snd rc))
  = Some (VFloat (total_seconds (now_complete io)
                    match started with
                    | Some t0 => t0
                    | None => now_flow_start io
                    end)) /\
  flow_completed (fst rc) = Some true.
Proof.
  intros Hflow Hprog Hlen.
  unfold _execute_conversation_flow. rewrite Hflow.
  cbn [flow_variables set_state set_flow].
  destruct (started_progress k started (flow_variables c)
              (now_flow_start io) c eq_refl Hprog) as [Hstep Hstart].
  set (t0 := match started with Some t0 => t0 | None => now_flow_start io end)
    in *.
  set (c1 := set_state (set_flow c (Some fid) (Some (cf_flow_type flow)))
               FLOW_EXECUTION).
  set (c2 := if assoc_mem "current_step" (flow_variables c) then c1
             else set_flow_variables c1 _).
  assert (Hfv2 : flow_variables c2 =
                 if assoc_mem "current_step" (flow_variables c)
                 then flow_variables c
                 else assoc_set "flow_start_time" (VTime (now_flow_start io))
                        (assoc_set "current_step" (VInt 0)
                           (flow_variables c))).
  { subst c2. destruct (assoc_mem _ _); reflexivity. }
  assert (Hid2 : session_id c2 = session_id c).
  { subst c2. destruct (assoc_mem _ _); reflexivity. }
  rewrite <- Hfv2 in Hstep, Hstart. rewrite Hstep.
  apply Z.leb_le in Hlen. rewrite Hlen. cbn zeta.
  destruct (complete_flow_records c2 flow (now_complete io) t0 Hstart)
    as (H1 & H2 & H3 & H4 & H5).
  repeat split; try assumption. congruence.
Qed.

Lemma call_selected (m : Manager) (sid : string) (i : Input) (idx : nat)
  (c : ConversationContext) (fid : string) :
  session_ref sid m = Some (idx, c) ->
  selected_flow m sid i = Some fid ->
  exists c2,
    session_id c2 = session_id c /\
    flow_variables c2 = flow_variables c /\
    call m sid i =
    (fst (_execute_conversation_flow m (in_calls i) c2 fid (in_message i)),
     with_sessions m
       (Py.replace_nth idx
          (snd (_execute_conversation_flow m (in_calls i) c2 fid
                  (in_message i)))
          (sessions m))).
Proof.
  intros Href Hsel. unfold call, process_message, selected_flow in *.
  rewrite Href in *.
  set (c1 := set_updated_at (set_state c PROCESSING)
               (now_updated_at (in_calls i))) in *.
  set (c2 := _add_to_conversation_history m c1 (in_type i) (in_message i)
               (now_message (in_calls i))) in *.
  destruct (add_history_keeps m c1 (in_type i) (in_message i)
              (now_message (in_calls i))) as (Hid & _ & Hfv & _).
  exists c2. split; [exact Hid|]. split; [exact Hfv|].
  destruct (fst (_determine_conversation_flow m c2 (in_message i)))
    as [f|]; [|discriminate].
  destruct (Py.truthy f); [|discriminate].
  injection Hsel as ->.
  destruct (_execute_conversation_flow m (in_calls i) c2 fid (in_message i)).
  reflexivity.
Qed.

Lemma session_ref_replaced (m : Manager) (sid : string) (idx : nat)
  (c c3 : ConversationContext) :
  session_ref sid m = Some (idx, c) ->
  session_id c3 = session_id c ->
  session_ref sid (with_sessions m (Py.replace_nth idx c3 (sessions m)))
  = Some (idx, c3).
Proof.
  intros Href Hid. unfold session_ref in *. cbn [sessions with_sessions].
  destruct (find_first_some _ _ _ _ Href) as (Hnth & _ & _).
  rewrite (find_first_replace _ _ _ _ _ _ c3 Href Hnth)
    by (rewrite Hid; reflexivity).
  rewrite Nat.eqb_refl. reflexivity.
Qed.

Lemma call_driven (m : Manager) (sid fid : string) (i : Input) (idx : nat)
  (c : ConversationContext) (flow : ConversationFlow) (k : Z)
  (started : option Py.Time) :
  session_ref sid m = Some (idx, c) ->
  flow_get fid m = Some flow ->
  forallb (fun st => negb (writes_variable "flow_start_time" st)) (steps flow)
  = true ->
  (0 <= k)%Z ->
  flow_progress k started c ->
  selected_flow m sid i = Some fid ->
  step_completed (fst (call m sid i)) = Some true ->
  exists c',
    session_ref sid (snd (call m sid i)) = Some (idx, c') /\
    flow_get fid (snd (call m sid i)) = Some flow /\
    flow_progress (k + 1)
      (Some match started with
            | Some t0 => t0
            | None => now_flow_start (in_calls i)
            end) c'.
Proof.
  intros Href Hflow Hclean Hk Hprog Hsel Hdone.
  destruct (call_selected m sid i idx c fid Href Hsel)
    as (c2 & Hid & Hfv & Hcall).
  rewrite Hcall in *. cbn [fst snd] in *.
  assert (Hprog2 : flow_progress k started c2).
  { unfold flow_progress in *. rewrite Hfv. exact Hprog. }
  destruct (execute_driven_step m (in_calls i) c2 fid (in_message i) flow k
              started Hflow Hclean Hk Hprog2 Hdone) as (Hid3 & _ & Hnext).
  eexists. split; [|split; [|exact Hnext]].
  - apply (session_ref_replaced m sid idx c); [exact Href|congruence].
  - exact Hflow.
Qed.

Lemma run_driven (sid fid : string) (flow : ConversationFlow)
  (inputs : list Input) :
  forallb (fun st => negb (writes_variable "flow_start_time" st)) (steps flow)
  = true ->
  forall (m : Manager) (idx : nat) (c : ConversationContext) (k : Z)
         (started : option Py.Time),
  session_ref sid m = Some (idx, c) ->
  flow_get fid m = Some flow ->
  (0 <= k)%Z ->
  flow_progress k started c ->
  driven_by sid fid m inputs ->
  exists c' started',
    session_ref sid (run m sid inputs) = Some (idx, c') /\
    flow_get fid (run m sid inputs) = Some flow /\
    flow_progress (k + Z.of_nat (List.length inputs)) started' c' /\
    match started' with
    | Some t =>
      started = Some t \/
      In t (map (fun i => now_flow_start (in_calls i)) inputs)
    | None => started = None
    end.
Proof.
  intros Hclean. induction inputs as [|i inputs IH];
    intros m idx c k started Href Hflow Hk Hprog Hdriven.
  - exists c, started. cbn [run fold_left List.length Z.of_nat].
    rewrite Z.add_0_r. repeat split; try assumption.
    destruct started; auto.
  - destruct Hdriven as (Hsel & Hdone & Hrest).
    destruct (call_driven m sid fid i idx c flow k started
                Href Hflow Hclean Hk Hprog Hsel Hdone)
      as (c1 & Href1 & Hflow1 & Hprog1).
    destruct (IH _ idx c1 (k + 1)%Z _ Href1 Hflow1 ltac:(lia) Hprog1 Hrest)
      as (c' & started' & Href' & Hflow' & Hprog' & Hstart').
    exists c', started'. unfold run in *. cbn [fold_left].
    split; [exact Href'|]. split; [exact Hflow'|]. split.
    + replace (k + Z.of_nat (List.length (i :: inputs)))%Z
        with (k + 1 + Z.of_nat (List.length inputs))%Z
        by (cbn [List.length]; lia).
      exact Hprog'.
    + destruct started' as [t|]; [|discriminate Hstart'].
      cbn [map In]. destruct Hstart' as [E|Hin]; [|auto].
      destruct started as [t0|]; injection E as <-; auto.
Qed.

(** A step leaves the state and the flow slot of the session alone. *)
Lemma execute_flow_step_state (m : Manager) (c : ConversationContext)
  (step : Step) (message : string) (now : Py.Time) :
  let rc := _execute_flow_step m c step message now in
  current_state (snd rc) = current_state c /\
  current_flow (snd rc) = current_flow c.
Proof.
  unfold _execute_flow_step.
  set (ty := match step_type step with Some t => t | None => "message" end).
  destruct (String.eqb ty "message").
  { unfold _execute_message_step. cbn [snd].
    match goal with
    | |- context [_add_to_conversation_history m c ?r ?x ?t] =>
      destruct (add_history_keeps m c r x t) as (_ & _ & _ & H4 & H5)
    end.
    split; assumption. }
  destruct (String.eqb ty "memory_query"); [simpl; auto|].
  destruct (String.eqb ty "agent_call").
  { unfold _execute_agent_step.
    destruct (assoc_get "agent_id" (step_data step)) as [aid|]; simpl; auto.
    destruct (Py.truthy aid); simpl; auto.
    destruct (agent_get aid m); simpl; auto. }
  destruct (String.eqb ty "condition"); [simpl; auto|].
  destruct (String.eqb ty "input_collection"); simpl; auto.
Qed.

(** A call of [_execute_conversation_flow] that returns
    [step_completed = True] leaves the session in [FLOW_EXECUTION] on the
    flow it executed. *)
Lemma execute_driven_state (m : Manager) (io : MessageCalls)
  (c : ConversationContext) (fid message : string) (flow : ConversationFlow) :
  flow_get fid m = Some flow ->
  let rc := _execute_conversation_flow m io c fid message in
  step_completed (fst rc) = Some true ->
  current_state (snd rc) = FLOW_EXECUTION /\
  current_flow (snd rc) = Some fid.
Proof.
  intros Hflow. unfold _execute_conversation_flow. rewrite Hflow.
  set (c1 := set_state (set_flow c (Some fid) (Some (cf_flow_type flow)))
               FLOW_EXECUTION).
  set (c2 := if assoc_mem "current_step" (flow_variables c1) then c1
             else set_flow_variables c1 _).
  assert (Hst2 : current_state c2 = FLOW_EXECUTION /\
                 current_flow c2 = Some fid).
  { subst c2. destruct (assoc_mem _ _); split; reflexivity. }
  assert (Hrun : forall n,
            let rc :=
              match Py.index n (steps flow) with
              | None => (failed IndexError, c2)
              | Some step =>
                let '(step_result, c3) :=
                  _execute_flow_step m c2 step message (now_step io) in
                match step_completed step_result with
                | Some true =>
                  match increment_step c3 with
                  | inr c4 => (step_result, c4)
                  | inl e => (failed e, c3)
                  end
                | _ => (step_result, c3)
                end
              end in
            step_completed (fst rc) = Some true ->
            current_state (snd rc) = FLOW_EXECUTION /\
            current_flow (snd rc) = Some fid).
  { intros n. destruct (Py.index n (steps flow)) as [step|];
      [|cbn; discriminate].
    destruct (execute_flow_step_state m c2 step message (now_step io))
      as [Hs3 Hf3].
    destruct (_execute_flow_step m c2 step message (now_step io))
      as [step_result c3].
    cbn [fst snd] in Hs3, Hf3. cbn zeta.
    destruct (step_completed step_result) as [[|]|] eqn:Edone;
      cbn [fst snd]; try congruence.
    unfold increment_step.
    destruct (assoc_get "current_step" (flow_variables c3)) as [[n'|q|t|t]|];
      cbn [fst snd step_completed failed]; try discriminate;
      intros _; cbn [current_state current_flow set_flow_variables];
      destruct Hst2; split; congruence. }
  destruct (assoc_get "current_step" (flow_variables c2)) as [[n|q|t|t]|];
    cbn zeta; try (cbn; discriminate).
  - destruct (_ <=? _)%Z; [rewrite complete_flow_no_step; discriminate|].
    apply Hrun.
  - destruct (Qle_bool _ _);
      [rewrite complete_flow_no_step; discriminate|cbn; discriminate].
Qed.

(** After a non-empty driven run the session is in [FLOW_EXECUTION] on the
    flow, with the step counter moved on by the number of calls. *)
Lemma run_driven_state (sid fid : string) (flow : ConversationFlow)
  (inputs : list Input) :
  forallb (fun st => negb (writes_variable "flow_start_time" st)) (steps flow)
  = true ->
  forall (m : Manager) (idx : nat) (c : ConversationContext) (k : Z)
         (started : option Py.Time),
  session_ref sid m = Some (idx, c) ->
  flow_get fid m = Some flow ->
  (0 <= k)%Z ->
  flow_progress k started c ->
  driven_by sid fid m inputs ->
  inputs <> [] ->
  exists c',
    session_ref sid (run m sid inputs) = Some (idx, c') /\
    current_state c' = FLOW_EXECUTION /\
    current_flow c' = Some fid /\
    assoc_get "current_step" (flow_variables c')
    = Some (VInt (k + Z.of_nat (List.length inputs))).
Proof.
  intros Hclean. induction inputs as [|i inputs IH];
    intros m idx c k started Href Hflow Hk Hprog Hdriven Hne;
    [congruence|].
  destruct Hdriven as (Hsel & Hdone & Hrest).
  destruct (call_driven m sid fid i idx c flow k started
              Href Hflow Hclean Hk Hprog Hsel Hdone)
    as (c1 & Href1 & Hflow1 & Hprog1).
  destruct inputs as [|i' inputs].
  - exists c1. cbn [run fold_left List.length]. split; [exact Href1|].
    destruct (call_selected m sid i idx c fid Href Hsel)
      as (c2 & Hid & Hfv & Hcall).
    rewrite Hcall in Href1, Hdone. cbn [fst snd] in Href1, Hdone.
    destruct (execute_driven_state m (in_calls i) c2 fid (in_message i) flow
                Hflow Hdone) as [Hs Hf].
    assert (E : session_ref sid
                  (with_sessions m
                     (Py.replace_nth idx
                        (snd (_execute_conversation_flow m (in_calls i) c2
                                fid (in_message i)))
                        (sessions m)))
                = Some (idx,
                        snd (_execute_conversation_flow m (in_calls i) c2 fid
                               (in_message i)))).
    { apply (session_ref_replaced m sid idx c); [exact Href|].
      assert (Hprog2 : flow_progress k started c2)
        by (unfold flow_progress in *; rewrite Hfv; exact Hprog).
      destruct (execute_driven_step m (in_calls i) c2 fid (in_message i) flow
                  k started Hflow Hclean Hk Hprog2 Hdone) as (Hid3 & _).
      congruence. }
    rewrite E in Href1. injection Href1 as <-.
    split; [exact Hs|]. split; [exact Hf|].
    destruct Hprog1 as [Hstep _]. exact Hstep.
  - destruct (IH _ idx c1 (k + 1)%Z _ Href1 Hflow1 ltac:(lia) Hprog1 Hrest
                ltac:(discriminate))
      as (c' & Href' & Hs & Hf & Hstep).
    exists c'. unfold run in *. cbn [fold_left] in *.
    split; [exact Href'|]. split; [exact Hs|]. split; [exact Hf|].
    rewrite Hstep. do 2 f_equal. cbn [List.length]. lia.
Qed.

(** C2, as the code has it (flow completion).  A session without a step
    counter is driven through a registered flow of N steps by N
    [process_message] calls that select the flow and return
    [step_completed = True]; the flow has no input step that stores into
    [flow_start_time].  For N >= 1 the N calls run the N steps and do not
    complete the flow: after them the session is still in
    [FLOW_EXECUTION], with [current_flow] the flow and the step counter at
    N.  The next call that selects the flow finds the counter at N and
    completes the flow: the session ends with [current_state]
    [COMPLETED], [current_flow] [None] and a [flow_duration] in
    [flow_variables], which is non-negative when the clock reading at
    completion is not earlier than the reading at the start of the
    flow. *)
Theorem flow_completes_on_call_after_last_step
  (m : Manager) (sid fid : string) (flow : ConversationFlow)
  (c : ConversationContext) (inputs : list Input) (last : Input) :
  session_get sid m = Some c ->
  flow_get fid m = Some flow ->
  assoc_get "current_step" (flow_variables c) = None ->
  forallb (fun st => negb (writes_variable "flow_start_time" st)) (steps flow)
  = true ->
  List.length inputs = List.length (steps flow) ->
  driven_by sid fid m inputs ->
  selected_flow (run m sid inputs) sid last = Some fid ->
  Forall (fun i => (now_flow_start (in_calls i)
                    <= now_complete (in_calls last))%Z) (inputs ++ [last]) ->
  (steps flow <> [] ->
   exists c1,
     session_get sid (run m sid inputs) = Some c1 /\
     current_state c1 = FLOW_EXECUTION /\
     current_flow c1 = Some fid /\
     assoc_get "current_step" (flow_variables c1)
     = Some (VInt (Z.of_nat (List.length (steps flow))))) /\
  let r := call (run m sid inputs) sid last in
  flow_completed (fst r) = Some true /\
  exists c' d,
    session_get sid (snd r) = Some c' /\
    current_state c' = COMPLETED /\
    current_flow c' = None /\
    assoc_get "flow_duration" (flow_variables c') = Some (VFloat d) /\
    0 <= d.
Proof.
  intros Hget Hflow Hfresh Hclean Hlen Hdriven Hsel Hclock.
  unfold session_get in Hget.
  destruct (session_ref sid m) as [[idx c0]|] eqn:Href; [|discriminate].
  simpl in Hget. injection Hget as ->.
  split.
  { intros Hsteps.
    assert (Hne : inputs <> []).
    { intros ->. destruct (steps flow); [congruence|discriminate Hlen]. }
    destruct (run_driven_state sid fid flow inputs Hclean m idx c 0%Z None
                Href Hflow ltac:(lia) (conj eq_refl Hfresh) Hdriven Hne)
      as (c1 & Href1 & Hs & Hf & Hstep).
    exists c1. unfold session_get. rewrite Href1.
    split; [reflexivity|]. split; [exact Hs|]. split; [exact Hf|].
    rewrite Hstep, Hlen. reflexivity. }
  intros r. subst r.
  destruct (run_driven sid fid flow inputs Hclean m idx c 0%Z None Href Hflow
              ltac:(lia) (conj eq_refl Hfresh) Hdriven)
    as (c1 & started & Href1 & Hflow1 & Hprog1 & Hstart).
  destruct (call_selected _ sid last idx c1 fid Href1 Hsel)
    as (c2 & Hid & Hfv & Hcall).
  rewrite Hcall. cbn [fst snd].
  assert (Hprog2 : flow_progress (0 + Z.of_nat (List.length inputs)) started
                     c2).
  { unfold flow_progress in *. rewrite Hfv. exact Hprog1. }
  destruct (execute_completes _ (in_calls last) c2 fid (in_message last) flow
              _ started Hflow1 Hprog2 ltac:(lia))
    as (Hid3 & Hstate & Hcur & Hdur & Hdone).
  split; [exact Hdone|].
  eexists. eexists. split.
  { unfold session_get.
    rewrite (session_ref_replaced _ sid idx c1 _ Href1) by congruence.
    reflexivity. }
  split; [exact Hstate|]. split; [exact Hcur|]. split; [exact Hdur|].
  apply total_seconds_nonneg.
  rewrite Forall_forall in Hclock.
  destruct started as [t|].
  - destruct Hstart as [E|Hin]; [discriminate|].
    apply in_map_iff in Hin. destruct Hin as (i & <- & Hin).
    apply Hclock. apply in_or_app. left. exact Hin.
  - apply Hclock. apply in_or_app. right. left. reflexivity.
Qed.

End FlowFacts.

(** C2, as stated, fails: the default flow [simple_qa] has one step; after
    the one call that runs this step and returns [step_completed = True]
    the session is still in [FLOW_EXECUTION] with [current_flow] set and no
    [flow_duration]. *)
Lemma flow_not_completed_after_last_step :
  Conversation.flow_get "simple_qa" (Demo.manager_with_session 50)
  = Some Conversation.qa_flow /\
  List.length (Conversation.steps Conversation.qa_flow) = 1%nat /\
  Conversation.driven_by (RT := Demo.runtime) "s-1" "simple_qa"
    (Demo.manager_with_session 50) [Demo.input "what is this?" 1] /\
  option_map
    (fun c => (Conversation.current_state c, Conversation.current_flow c,
               Conversation.assoc_get "flow_duration"
                 (Conversation.flow_variables c)))
    (Conversation.session_get "s-1"
       (Conversation.run (RT := Demo.runtime) (Demo.manager_with_session 50)
          "s-1" [Demo.input "what is this?" 1]))
  = Some (Conversation.FLOW_EXECUTION, Some "simple_qa", None).
Proof.
  cbn [Conversation.driven_by]. repeat split; vm_compute; reflexivity.
Qed.

Lemma flow_completes_on_call_after_last_step_witness :
  Conversation.driven_by (RT := Demo.runtime) "s-1" "simple_qa"
    (Demo.manager_with_session 50) [Demo.input "what is this?" 1] /\
  (exists c1,
     Conversation.session_get "s-1"
       (Conversation.run (RT := Demo.runtime) (Demo.manager_with_session 50)
          "s-1" [Demo.input "what is this?" 1]) = Some c1 /\
     Conversation.current_state c1 = Conversation.FLOW_EXECUTION /\
     Conversation.current_flow c1 = Some "simple_qa" /\
     Conversation.assoc_get "current_step" (Conversation.flow_variables c1)
     = Some (Conversation.VInt 1)) /\
  exists c' d,
    Conversation.session_get "s-1"
      (snd (Conversation.call (RT := Demo.runtime)
              (Conversation.run (RT := Demo.runtime)
                 (Demo.manager_with_session 50) "s-1"
                 [Demo.input "what is this?" 1])
              "s-1" (Demo.input "what now?" 3))) = Some c' /\
    Conversation.current_state c' = Conversation.COMPLETED /\
    Conversation.current_flow c' = None /\
    Conversation.assoc_get "flow_duration" (Conversation.flow_variables c')
    = Some (Conversation.VFloat d) /\
    0 <= d.
Proof.
  assert (H : Conversation.driven_by (RT := Demo.runtime) "s-1" "simple_qa"
                (Demo.manager_with_session 50)
                [Demo.input "what is this?" 1]).
  { cbn [Conversation.driven_by]. repeat split; vm_compute; reflexivity. }
  split; [exact H|].
  assert (T := flow_completes_on_call_after_last_step
                 (RT := Demo.runtime) (Demo.manager_with_session 50)
                 "s-1" "simple_qa" Conversation.qa_flow
                 (Demo.session)
                 [Demo.input "what is this?" 1] (Demo.input "what now?" 3)).
  destruct T as [T1 T2].
  - vm_compute. reflexivity.
  - reflexivity.
  - reflexivity.
  - reflexivity.
  - reflexivity.
  - exact H.
  - vm_compute. reflexivity.
  - repeat constructor; simpl; lia.
  - split; [|exact (proj2 T2)].
    apply T1. discriminate.
Defined.

(** * Further properties of the learning adapter *)

Section ListFacts.
Context {A : Type}.

Lemma map_replace_nth {B} (f : A -> B) (l : list A) (i : nat) (x y : A) :
  nth_error l i = Some x -> f y = f x ->
  map f (Py.replace_nth i y l) = map f l.
Proof.
  revert i. induction l as [|a l IH]; intros [|i]; simpl; try discriminate.
  - intros [= <-] E. rewrite E. reflexivity.
  - intros H E. rewrite (IH i H E). reflexivity.
Qed.

Lemma Forall_replace_nth (P : A -> Prop) (l : list A) (i : nat) (y : A) :
  Forall P l -> P y -> Forall P (Py.replace_nth i y l).
Proof.
  intros H Hy. revert i. induction H as [|a l Ha Hl IH]; intros [|i]; simpl;
    constructor; auto.
Qed.

Lemma subseq_In (l1 l2 : list A) (x : A) :
  Py.subseq l1 l2 -> In x l1 -> In x l2.
Proof.
  induction 1 as [|y l1 l2 H IH|y l1 l2 H IH]; simpl; auto.
  intros [E|Hx]; auto.
Qed.

Lemma firstn_In (k : nat) (l : list A) (x : A) :
  In x (firstn k l) -> In x l.
Proof.
  intros H. rewrite <- (firstn_skipn k l). apply in_or_app. left. exact H.
Qed.

Lemma prefix_incl (n : Z) (l : list A) (x : A) :
  In x (Py.prefix n l) -> In x l.
Proof.
  unfold Py.prefix. destruct (0 <=? n)%Z; apply firstn_In.
Qed.

Lemma prefix_length (n : Z) (l : list A) :
  (0 <= n)%Z ->
  (List.length (Py.prefix n l) <= Z.to_nat n)%nat /\
  (List.length (Py.prefix n l) <= List.length l)%nat.
Proof.
  intros H. unfold Py.prefix. apply Z.leb_le in H. rewrite H.
  rewrite length_firstn. lia.
Qed.

End ListFacts.

Section LearningExtras.
Context {SK : Sklearn}.
Import Learning.

Lemma dict_ref_id (k : string) (l : list LearningPattern) (i : nat)
  (p : LearningPattern) :
  dict_ref k l = Some (i, p) -> nth_error l i = Some p /\ id p = k.
Proof.
  intros H. destruct (find_first_some _ _ _ _ H) as (Hn & Hk & _).
  split; [exact Hn|]. apply String.eqb_eq. exact Hk.
Qed.

Lemma dict_ref_none (k : string) (l : list LearningPattern) :
  dict_ref k l = None -> ~ In k (map id l).
Proof.
  intros H Hin. apply in_map_iff in Hin. destruct Hin as (p & E & Hp).
  pose proof (find_first_none _ _ H p Hp) as F. simpl in F.
  rewrite E, String.eqb_refl in F. discriminate.
Qed.

Lemma dict_get_member (l : list LearningPattern) (p : LearningPattern) :
  NoDup (map id l) -> In p l -> dict_get (id p) l = Some p.
Proof.
  unfold dict_get, dict_ref. induction l as [|a l IH]; simpl; [tauto|].
  intros Hnd Hin. inversion Hnd as [|? ? Hnotin Hnd']; subst.
  destruct (String.eqb (id a) (id p)) eqn:E.
  - apply String.eqb_eq in E. destruct Hin as [->|Hin]; [reflexivity|].
    exfalso. apply Hnotin. rewrite E. apply in_map. exact Hin.
  - destruct Hin as [->|Hin]; [rewrite String.eqb_refl in E; discriminate|].
    specialize (IH Hnd' Hin).
    destruct (Py.find_first _ l) as [[k z]|]; simpl in *; congruence.
Qed.

(** The ids after [dict_set]: unchanged, or extended by a new id. *)
Lemma dict_set_ids (p : LearningPattern) (l : list LearningPattern) :
  map id (dict_set p l) = map id l \/
  (~ In (id p) (map id l) /\ dict_set p l = l ++ [p]).
Proof.
  unfold dict_set. destruct (dict_ref (id p) l) as [[i z]|] eqn:E.
  - left. destruct (dict_ref_id _ _ _ _ E) as [Hn Hz].
    apply (map_replace_nth id l i z p Hn). congruence.
  - right. split; [apply dict_ref_none; exact E|reflexivity].
Qed.

(** The ids after [learn_from_interaction]: no pattern is removed and at
    most one, with the fresh uuid, is added. *)
Lemma learn_ids (a : Adapter) (io : LearnCalls)
  (input_context output_result : string) (success_score : Q)
  (brain_region pattern_type : string) (metadata : list (string * string)) :
  let r := learn_from_interaction a io input_context output_result
             success_score brain_region pattern_type metadata in
  map id (patterns (snd r)) = map id (patterns a) \/
  (~ In (uuid4 io) (map id (patterns a)) /\
   map id (patterns (snd r)) = map id (patterns a) ++ [uuid4 io]).
Proof.
  unfold learn_from_interaction.
  destruct (Py.Qltb success_score (min_success_score a)); [left; reflexivity|].
  destruct (_find_similar_pattern a _ _ _) as [[i sp]|] eqn:F.
  - left. unfold _find_similar_pattern in F.
    destruct (find_first_some _ _ _ _ F) as (Hn & _ & _).
    cbn [snd patterns with_patterns].
    apply (map_replace_nth id _ i sp _ Hn). reflexivity.
  - cbn [snd]. rewrite update_vectorizer_patterns.
    cbn [patterns with_patterns].
    match goal with |- context [dict_set ?n _] => set (new := n) end.
    destruct (dict_set_ids new (patterns a)) as [E|[Hfresh E]].
    + left. exact E.
    + right. split; [exact Hfresh|]. rewrite E, map_app. reflexivity.
Qed.

Lemma record_feedback_ids (a : Adapter) (io : FeedbackCalls)
  (pattern_id user_id feedback_type : string) (feedback_score : Q)
  (original_output : string) (corrected_output : option string)
  (context : list (string * string)) :
  let r := record_feedback a io pattern_id user_id feedback_type
             feedback_score original_output corrected_output context in
  map id (patterns (snd r)) = map id (patterns a) \/
  (~ In (uuid4 (fb_learn io)) (map id (patterns a)) /\
   map id (patterns (snd r)) = map id (patterns a) ++ [uuid4 (fb_learn io)]).
Proof.
  unfold record_feedback. cbn [patterns with_feedback].
  destruct (dict_ref pattern_id (patterns a)) as [[i p]|] eqn:E;
    [|left; reflexivity].
  destruct (dict_ref_id _ _ _ _ E) as [Hn _].
  set (a1 := with_feedback a _).
  set (p1 := set_effectiveness p _).
  set (a2 := with_patterns a1 (Py.replace_nth i p1 (patterns a))).
  assert (Hids : map id (patterns a2) = map id (patterns a)).
  { apply (map_replace_nth id _ i p p1 Hn). reflexivity. }
  destruct corrected_output as [corrected|]; [|left; exact Hids].
  destruct (Py.truthy corrected && Py.Qltb 0 feedback_score);
    [|left; exact Hids].
  cbn [snd]. rewrite <- Hids. apply learn_ids.
Qed.

(** X1 (learning, create path).  A call that passes the gate, finds no
    similar pattern and draws a uuid that is not yet a key appends one
    pattern: it has the arguments of the call, [usage_count] 1 and
    [effectiveness_score] equal to the [success_score]; its id is
    returned and the dict finds it under that id. *)
Theorem learn_creates_retrievable_pattern
  (a : Adapter) (io : LearnCalls) (input_context output_result : string)
  (success_score : Q) (brain_region pattern_type : string)
  (metadata : list (string * string)) :
  min_success_score a <= success_score ->
  _find_similar_pattern a input_context pattern_type brain_region = None ->
  dict_get (uuid4 io) (patterns a) = None ->
  let r := learn_from_interaction a io input_context output_result
             success_score brain_region pattern_type metadata in
  fst r = Some (uuid4 io) /\
  feedback_records (snd r) = feedback_records a /\
  exists p,
    patterns (snd r) = patterns a ++ [p] /\
    dict_get (uuid4 io) (patterns (snd r)) = Some p /\
    id p = uuid4 io /\
    Learning.input_context p = input_context /\
    successful_output p = output_result /\
    Learning.pattern_type p = pattern_type /\
    Learning.brain_region p = brain_region /\
    Learning.success_score p = success_score /\
    effectiveness_score p = success_score /\
    usage_count p = 1%Z /\
    created_at p = now_1 io /\
    last_used p = Some (now_2 io).
Proof.
  intros Hgate Hnone Hfresh. apply Qltb_false in Hgate.
  assert (Hfresh' : dict_ref (uuid4 io) (patterns a) = None).
  { unfold dict_get in Hfresh. destruct (dict_ref _ _); [discriminate|auto]. }
  unfold learn_from_interaction. rewrite Hgate, Hnone. cbn [fst snd].
  split; [reflexivity|]. rewrite update_vectorizer_feedback.
  split; [reflexivity|]. rewrite update_vectorizer_patterns.
  cbn [patterns with_patterns]. unfold dict_set. cbn [id]. rewrite Hfresh'.
  eexists. split; [reflexivity|]. split.
  - unfold dict_get, dict_ref in *.
    rewrite (find_first_app_none _ _ _ Hfresh'). cbn [id].
    rewrite String.eqb_refl. reflexivity.
  - simpl. repeat split; reflexivity.
Qed.

Lemma learn_keeps_scores_bounded (a : Adapter) (io : LearnCalls)
  (input_context output_result : string) (success_score : Q)
  (brain_region pattern_type : string) (metadata : list (string * string)) :
  scores_bounded a -> in_unit success_score ->
  scores_bounded
    (snd (learn_from_interaction a io input_context output_result
            success_score brain_region pattern_type metadata)).
Proof.
  intros Hb [Hs0 Hs1]. unfold scores_bounded in *.
  unfold learn_from_interaction.
  destruct (Py.Qltb success_score (min_success_score a)); [exact Hb|].
  destruct (_find_similar_pattern a _ _ _) as [[i sp]|] eqn:F.
  - unfold _find_similar_pattern in F.
    destruct (find_first_some _ _ _ _ F) as (Hn & _ & _).
    apply nth_error_In in Hn.
    destruct (proj1 (Forall_forall _ _) Hb sp Hn) as [[He0 He1] Hsc].
    cbn [snd patterns with_patterns]. apply Forall_replace_nth; [exact Hb|].
    cbn [effectiveness_score Learning.success_score].
    split; [|exact Hsc]. unfold in_unit. split; lra.
  - cbn [snd]. rewrite update_vectorizer_patterns.
    cbn [patterns with_patterns].
    match goal with |- context [dict_set ?n _] => set (new := n) end.
    assert (Hnew : in_unit (effectiveness_score new) /\
                   in_unit (Learning.success_score new)).
    { subst new. simpl. unfold in_unit. auto. }
    unfold dict_set. destruct (dict_ref (id new) (patterns a)) as [[k z]|].
    + apply Forall_replace_nth; assumption.
    + apply Forall_app. split; [exact Hb|]. constructor; [exact Hnew|].
      constructor.
Qed.

(** X2 (score invariant).  On a store whose scores all lie in [0,1],
    every mutating method leaves all scores in [0,1]:
    [learn_from_interaction] for a [success_score] in [0,1],
    [record_feedback] for a [feedback_score] in [-1,1], including the
    correction it may learn, and [cleanup_old_patterns]. *)
Theorem mutators_keep_scores_bounded (a : Adapter) :
  scores_bounded a ->
  (forall io input_context output_result success_score brain_region
          pattern_type metadata,
     in_unit success_score ->
     scores_bounded
       (snd (learn_from_interaction a io input_context output_result
               success_score brain_region pattern_type metadata))) /\
  (forall io pattern_id user_id feedback_type feedback_score
          original_output corrected_output context,
     -1 <= feedback_score -> feedback_score <= 1 ->
     scores_bounded
       (snd (record_feedback a io pattern_id user_id feedback_type
               feedback_score original_output corrected_output context))) /\
  (forall now, scores_bounded (cleanup_old_patterns a now)).
Proof.
  intros Hb. split; [|split].
  - intros. apply learn_keeps_scores_bounded; assumption.
  - intros io pattern_id user_id feedback_type f original_output
           corrected_output context Hf0 Hf1.
    unfold record_feedback. cbn [patterns with_feedback].
    destruct (dict_ref pattern_id (patterns a)) as [[i p]|] eqn:E;
      [|exact Hb].
    destruct (dict_ref_id _ _ _ _ E) as [Hn _].
    apply nth_error_In in Hn.
    destruct (proj1 (Forall_forall _ _) Hb p Hn) as [[He0 He1] Hsc].
    set (a1 := with_feedback a _).
    set (p1 := set_effectiveness p _).
    set (a2 := with_patterns a1 (Py.replace_nth i p1 (patterns a))).
    assert (Hb2 : scores_bounded a2).
    { unfold scores_bounded. cbn [a2 patterns with_patterns].
      apply Forall_replace_nth; [exact Hb|]. subst p1.
      cbn [set_effectiveness effectiveness_score Learning.success_score].
      split; [|exact Hsc]. apply blend_feedback_bounds; assumption. }
    destruct corrected_output as [corrected|]; [|exact Hb2].
    destruct (Py.truthy corrected && Py.Qltb 0 f) eqn:Hc; [|exact Hb2].
    apply andb_true_iff in Hc. destruct Hc as [_ Hpos].
    apply Qltb_true in Hpos. cbn [snd].
    apply learn_keeps_scores_bounded; [exact Hb2|].
    apply min_one_bounds. exact Hpos.
  - intros now. unfold scores_bounded, cleanup_old_patterns.
    assert (H : Forall
                  (fun p => in_unit (effectiveness_score p) /\
                            in_unit (Learning.success_score p))
                  (fold_left (fun l k => dict_del k l)
                     (map id (filter (to_remove a now) (patterns a)))
                     (patterns a))).
    { rewrite fold_dict_del. apply Forall_forall. intros p Hp.
      apply filter_In in Hp.
      apply (proj1 (Forall_forall _ _) Hb p (proj1 Hp)). }
    destruct (map id (filter (to_remove a now) (patterns a)));
      [|rewrite update_vectorizer_patterns]; exact H.
Qed.

(** X3 (ids).  On a store with pairwise distinct ids, the ids stay
    pairwise distinct under [learn_from_interaction], [record_feedback]
    and [cleanup_old_patterns]; the first two remove no id. *)
Theorem mutators_keep_ids_distinct (a : Adapter) :
  NoDup (map id (patterns a)) ->
  (forall io input_context output_result success_score brain_region
          pattern_type metadata,
     let a' := snd (learn_from_interaction a io input_context output_result
                      success_score brain_region pattern_type metadata) in
     NoDup (map id (patterns a')) /\
     incl (map id (patterns a)) (map id (patterns a'))) /\
  (forall io pattern_id user_id feedback_type feedback_score
          original_output corrected_output context,
     let a' := snd (record_feedback a io pattern_id user_id feedback_type
                      feedback_score original_output corrected_output
                      context) in
     NoDup (map id (patterns a')) /\
     incl (map id (patterns a)) (map id (patterns a'))) /\
  (forall now, NoDup (map id (patterns (cleanup_old_patterns a now)))).
Proof.
  intros Hnd.
  assert (Hext : forall l' u,
            map id l' = map id (patterns a) \/
            (~ In u (map id (patterns a)) /\
             map id l' = map id (patterns a) ++ [u]) ->
            NoDup (map id l') /\ incl (map id (patterns a)) (map id l')).
  { intros l' u [E|[Hfresh E]]; rewrite E.
    - split; [exact Hnd|apply incl_refl].
    - split; [|apply incl_appl, incl_refl].
      apply NoDup_app; [exact Hnd|repeat constructor; simpl; tauto|].
      intros x Hx [<-|[]]. exact (Hfresh Hx). }
  split; [|split].
  - intros. eapply Hext. apply learn_ids.
  - intros. eapply Hext. apply record_feedback_ids.
  - intros now. rewrite (cleanup_patterns a now Hnd).
    clear Hext. induction (patterns a) as [|p l IH]; simpl; [constructor|].
    inversion Hnd as [|? ? Hnotin Hnd']; subst.
    destruct (negb (to_remove a now p)); simpl; [|exact (IH Hnd')].
    constructor; [|exact (IH Hnd')].
    intros Hin. apply Hnotin. apply in_map_iff in Hin.
    destruct Hin as (q & E & Hq). apply filter_In in Hq.
    rewrite <- E. apply in_map. exact (proj1 Hq).
Qed.

End LearningExtras.

Section KeyedFacts.
Context {A : Type} (key : A -> string).

(** Lookup after the in-place-or-append update of a keyed list. *)
Lemma keyed_set_same (x : A) (l : list A) :
  option_map snd
    (Py.find_first (fun y => String.eqb (key y) (key x))
       match Py.find_first (fun y => String.eqb (key y) (key x)) l with
       | Some (i, _) => Py.replace_nth i x l
       | None => l ++ [x]
       end) = Some x.
Proof.
  destruct (Py.find_first _ l) as [[i z]|] eqn:E.
  - destruct (find_first_some _ _ _ _ E) as (Hn & Hk & _).
    rewrite (find_first_replace _ _ _ _ _ _ x E Hn)
      by (rewrite String.eqb_refl; symmetry; exact Hk).
    rewrite Nat.eqb_refl. reflexivity.
  - rewrite (find_first_app_none _ _ _ E), String.eqb_refl. reflexivity.
Qed.

Lemma keyed_set_other (k : string) (x : A) (l : list A) :
  key x <> k ->
  option_map snd
    (Py.find_first (fun y => String.eqb (key y) k)
       match Py.find_first (fun y => String.eqb (key y) (key x)) l with
       | Some (i, _) => Py.replace_nth i x l
       | None => l ++ [x]
       end) =
  option_map snd (Py.find_first (fun y => String.eqb (key y) k) l).
Proof.
  intros Hne. apply String.eqb_neq in Hne.
  destruct (Py.find_first (fun y => String.eqb (key y) (key x)) l)
    as [[i z]|] eqn:E.
  - destruct (find_first_some _ _ _ _ E) as (Hn & Hk & _).
    apply String.eqb_eq in Hk.
    destruct (Py.find_first (fun y => String.eqb (key y) k) l)
      as [[i' w]|] eqn:E'.
    + rewrite (find_first_replace _ _ _ _ _ _ x E' Hn)
        by (rewrite Hk; reflexivity).
      destruct (Nat.eqb i i') eqn:Ei; [|reflexivity].
      apply Nat.eqb_eq in Ei. subst i'.
      destruct (find_first_some _ _ _ _ E') as (Hn' & Hk' & _).
      assert (w = z) by congruence. subst w. rewrite Hk in Hk'. congruence.
    + rewrite (find_first_replace_none _ _ _ _ E' Hne). reflexivity.
  - destruct (Py.find_first (fun y => String.eqb (key y) k) l) as [r|] eqn:E'.
    + rewrite (find_first_app_some _ _ _ _ E'). reflexivity.
    + rewrite (find_first_app_none _ _ _ E'), Hne. reflexivity.
Qed.

Lemma NoDup_map_filter (f : A -> bool) (l : list A) :
  NoDup (map key l) -> NoDup (map key (filter f l)).
Proof.
  induction l as [|x l IH]; simpl; [constructor|].
  intros Hnd. inversion Hnd as [|? ? Hnotin Hnd']; subst.
  destruct (f x); simpl; [|exact (IH Hnd')].
  constructor; [|exact (IH Hnd')].
  intros Hin. apply Hnotin. apply in_map_iff in Hin.
  destruct Hin as (q & E & Hq). apply filter_In in Hq.
  rewrite <- E. apply in_map. exact (proj1 Hq).
Qed.

Lemma filter_twice (f : A -> bool) (l : list A) :
  filter f (filter f l) = filter f l.
Proof.
  induction l as [|x l IH]; simpl; [reflexivity|].
  destruct (f x) eqn:E; simpl; [rewrite E, IH|]; auto.
Qed.

End KeyedFacts.

Section LearningLedger.
Context {SK : Sklearn}.
Import Learning.

Lemma learn_feedback_records (a : Adapter) (io : LearnCalls)
  (input_context output_result : string) (success_score : Q)
  (brain_region pattern_type : string) (metadata : list (string * string)) :
  feedback_records
    (snd (learn_from_interaction a io input_context output_result
            success_score brain_region pattern_type metadata))
  = feedback_records a.
Proof.
  unfold learn_from_interaction.
  destruct (Py.Qltb _ _); [reflexivity|].
  destruct (_find_similar_pattern a _ _ _) as [[i sp]|]; [reflexivity|].
  cbn [snd]. rewrite update_vectorizer_feedback. reflexivity.
Qed.

Lemma record_feedback_records (a : Adapter) (io : FeedbackCalls)
  (pattern_id user_id feedback_type : string) (feedback_score : Q)
  (original_output : string) (corrected_output : option string)
  (context : list (string * string)) :
  feedback_records
    (snd (record_feedback a io pattern_id user_id feedback_type
            feedback_score original_output corrected_output context)) =
  fb_set {| fb_id := fb_uuid4 io;
            fb_pattern_id := pattern_id;
            fb_user_id := user_id;
            fb_feedback_type := feedback_type;
            fb_original_output := original_output;
            fb_corrected_output := corrected_output;
            fb_feedback_score := feedback_score;
            fb_timestamp := fb_now io;
            fb_context := context |} (feedback_records a)
  /\ fst (record_feedback a io pattern_id user_id feedback_type
            feedback_score original_output corrected_output context)
     = Some (fb_uuid4 io).
Proof.
  unfold record_feedback. cbn [patterns with_feedback].
  destruct (dict_ref pattern_id (patterns a)) as [[i p]|]; [|auto].
  destruct corrected_output as [corrected|]; [|auto].
  destruct (Py.truthy corrected && Py.Qltb 0 feedback_score); [|auto].
  cbn [fst snd]. rewrite learn_feedback_records. auto.
Qed.

(** X4 (feedback ledger).  [record_feedback] always returns the new
    feedback id; afterwards the ledger holds the submitted record under
    that id, every record stored under another id is as before, and when
    the id was not yet a key the record is appended at the end. *)
Theorem record_feedback_appends_to_ledger
  (a : Adapter) (io : FeedbackCalls) (pattern_id user_id feedback_type : string)
  (feedback_score : Q) (original_output : string)
  (corrected_output : option string) (context : list (string * string)) :
  let r := record_feedback a io pattern_id user_id feedback_type
             feedback_score original_output corrected_output context in
  let record :=
    {| fb_id := fb_uuid4 io;
       fb_pattern_id := pattern_id;
       fb_user_id := user_id;
       fb_feedback_type := feedback_type;
       fb_original_output := original_output;
       fb_corrected_output := corrected_output;
       fb_feedback_score := feedback_score;
       fb_timestamp := fb_now io;
       fb_context := context |} in
  fst r = Some (fb_uuid4 io) /\
  fb_get (fb_uuid4 io) (feedback_records (snd r)) = Some record /\
  (forall k, k <> fb_uuid4 io ->
     fb_get k (feedback_records (snd r)) = fb_get k (feedback_records a)) /\
  (fb_get (fb_uuid4 io) (feedback_records a) = None ->
   feedback_records (snd r) = feedback_records a ++ [record]).
Proof.
  intros r record. subst r.
  destruct (record_feedback_records a io pattern_id user_id feedback_type
              feedback_score original_output corrected_output context)
    as [E Hret].
  fold record in E. rewrite E. split; [exact Hret|].
  unfold fb_get, fb_set. split; [|split].
  - apply (keyed_set_same fb_id record).
  - intros k Hk. apply (keyed_set_other fb_id k record).
    cbn [record fb_id]. congruence.
  - cbn [record fb_id].
    destruct (Py.find_first _ (feedback_records a)) as [[i z]|];
      [discriminate|reflexivity].
Qed.

Lemma grown_refl (p : LearningPattern) : grown p p.
Proof. unfold grown. repeat split; reflexivity || lia. Qed.

Lemma grown_trans (p q r : LearningPattern) :
  grown p q -> grown q r -> grown p r.
Proof.
  unfold grown. intros (A1 & A2 & A3 & A4 & A5 & A6)
                       (B1 & B2 & B3 & B4 & B5 & B6).
  repeat split; try congruence. lia.
Qed.

(** A pattern replaced in place by a grown version of itself is still
    found under its id, grown. *)
Lemma replace_grown (l : list LearningPattern) (i : nat)
  (q q' p : LearningPattern) :
  NoDup (map id l) -> nth_error l i = Some q -> grown q q' -> In p l ->
  NoDup (map id (Py.replace_nth i q' l)) /\
  exists p', dict_get (id p) (Py.replace_nth i q' l) = Some p' /\ grown p p'.
Proof.
  intros Hnd Hq Hg Hp.
  assert (Hids : map id (Py.replace_nth i q' l) = map id l).
  { apply (map_replace_nth id l i q q' Hq). exact (proj1 Hg). }
  assert (Hnd' : NoDup (map id (Py.replace_nth i q' l)))
    by (rewrite Hids; exact Hnd).
  split; [exact Hnd'|].
  destruct (In_nth_error _ _ Hp) as [j Hj].
  destruct (Nat.eq_dec j i) as [->|Hne].
  - assert (p = q) by congruence. subst p. exists q'. split; [|exact Hg].
    rewrite <- (proj1 Hg). apply dict_get_member; [exact Hnd'|].
    eapply nth_error_In. eapply replace_nth_same. exact Hq.
  - exists p. split; [|apply grown_refl].
    apply dict_get_member; [exact Hnd'|].
    eapply nth_error_In. rewrite replace_nth_other by exact Hne. exact Hj.
Qed.

Lemma learn_grows (a : Adapter) (io : LearnCalls)
  (input_context output_result : string) (success_score : Q)
  (brain_region pattern_type : string) (metadata : list (string * string))
  (p : LearningPattern) :
  NoDup (map id (patterns a)) ->
  In p (patterns a) ->
  dict_get (uuid4 io) (patterns a) = None ->
  exists p',
    dict_get (id p)
      (patterns (snd (learn_from_interaction a io input_context output_result
                        success_score brain_region pattern_type metadata)))
    = Some p' /\ grown p p'.
Proof.
  intros Hnd Hp Hfresh. unfold learn_from_interaction.
  destruct (Py.Qltb _ _).
  { exists p. split; [apply dict_get_member; assumption|apply grown_refl]. }
  destruct (_find_similar_pattern a _ _ _) as [[i sp]|] eqn:F.
  - unfold _find_similar_pattern in F.
    destruct (find_first_some _ _ _ _ F) as (Hn & _ & _).
    cbn [snd patterns with_patterns].
    apply (replace_grown _ i sp _ p Hnd Hn); [|exact Hp].
    unfold grown. simpl. repeat split; try reflexivity. lia.
  - cbn [snd]. rewrite update_vectorizer_patterns.
    cbn [patterns with_patterns]. unfold dict_set. cbn [id].
    unfold dict_get in Hfresh.
    destruct (dict_ref (uuid4 io) (patterns a)) as [[k z]|];
      [discriminate|].
    exists p. split; [|apply grown_refl].
    pose proof (dict_get_member _ p Hnd Hp) as Hget.
    unfold dict_get, dict_ref in *.
    destruct (Py.find_first _ (patterns a)) as [r|] eqn:E; [|discriminate].
    rewrite (find_first_app_some _ _ _ _ E). exact Hget.
Qed.

(** X5 (patterns only grow).  On a store with distinct ids, a stored
    pattern is still found under its id after [learn_from_interaction] or
    [record_feedback], with the same type, text, region and creation time
    and a [usage_count] that is not smaller, provided the uuid drawn for a
    new pattern is not already a key. *)
Theorem stored_patterns_only_grow (a : Adapter) (p : LearningPattern) :
  NoDup (map id (patterns a)) ->
  In p (patterns a) ->
  (forall io input_context output_result success_score brain_region
          pattern_type metadata,
     dict_get (uuid4 io) (patterns a) = None ->
     exists p',
       dict_get (id p)
         (patterns (snd (learn_from_interaction a io input_context
                           output_result success_score brain_region
                           pattern_type metadata))) = Some p' /\
       grown p p') /\
  (forall io pattern_id user_id feedback_type feedback_score
          original_output corrected_output context,
     dict_get (uuid4 (fb_learn io)) (patterns a) = None ->
     exists p',
       dict_get (id p)
         (patterns (snd (record_feedback a io pattern_id user_id
                           feedback_type feedback_score original_output
                           corrected_output context))) = Some p' /\
       grown p p').
Proof.
  intros Hnd Hp. split.
  - intros. apply learn_grows; assumption.
  - intros io pattern_id user_id feedback_type f original_output
           corrected_output context Hfresh.
    assert (Hsame : exists p', dict_get (id p) (patterns a) = Some p' /\
                               grown p p').
    { exists p. split; [apply dict_get_member; assumption|apply grown_refl]. }
    unfold record_feedback. cbn [patterns with_feedback].
    destruct (dict_ref pattern_id (patterns a)) as [[i q]|] eqn:E;
      [|exact Hsame].
    destruct (dict_ref_id _ _ _ _ E) as [Hn _].
    set (a1 := with_feedback a _).
    set (q1 := set_effectiveness q _).
    set (a2 := with_patterns a1 (Py.replace_nth i q1 (patterns a))).
    assert (Hg : grown q q1)
      by (unfold grown; subst q1; simpl; repeat split; reflexivity || lia).
    destruct (replace_grown _ i q q1 p Hnd Hn Hg Hp)
      as (Hnd2 & p1 & Hget1 & Hg1).
    assert (Hplain : exists p', dict_get (id p) (patterns a2) = Some p' /\
                                grown p p') by (exists p1; auto).
    destruct corrected_output as [corrected|]; [|exact Hplain].
    destruct (Py.truthy corrected && Py.Qltb 0 f); [|exact Hplain].
    cbn [snd].
    assert (Hin1 : In p1 (patterns a2)).
    { unfold dict_get in Hget1. cbn [a2 patterns with_patterns].
      destruct (dict_ref (id p) (Py.replace_nth i q1 (patterns a)))
        as [[j z]|] eqn:Ej; [|discriminate].
      cbn [option_map snd] in Hget1. assert (z = p1) by congruence. subst z.
      destruct (dict_ref_id _ _ _ _ Ej) as [Hj _].
      eapply nth_error_In. exact Hj. }
    assert (Hfresh2 : dict_get (uuid4 (fb_learn io)) (patterns a2) = None).
    { unfold dict_get in *.
      destruct (dict_ref (uuid4 (fb_learn io)) (patterns a2))
        as [[j z]|] eqn:Ej; [|reflexivity].
      destruct (dict_ref_id _ _ _ _ Ej) as [Hj Hz]. exfalso.
      destruct (dict_ref (uuid4 (fb_learn io)) (patterns a)) eqn:E0;
        [discriminate|].
      apply (dict_ref_none _ _ E0).
      replace (map id (patterns a)) with (map id (patterns a2))
        by (apply (map_replace_nth id _ i q q1 Hn); reflexivity).
      rewrite <- Hz. apply in_map. eapply nth_error_In. exact Hj. }
    destruct (learn_grows a2 (fb_learn io) (Learning.input_context q1)
                corrected (Py.min 1 (f + (1 # 2)))
                (Learning.brain_region q1) (Learning.pattern_type q1)
                [("source", "user_correction");
                 ("original_pattern", pattern_id)]
                p1 Hnd2 Hin1 Hfresh2) as (p2 & Hget2 & Hg2).
    exists p2. split; [|eapply grown_trans; eassumption].
    rewrite <- (proj1 Hg1). exact Hget2.
Qed.

End LearningLedger.

Section CleanupAndIndex.
Context {SK : Sklearn}.
Import Learning.

Lemma cleanup_config (a : Adapter) (now : Py.Time) :
  min_success_score (cleanup_old_patterns a now) = min_success_score a /\
  pattern_decay_days (cleanup_old_patterns a now) = pattern_decay_days a.
Proof.
  unfold cleanup_old_patterns.
  destruct (map id (filter (to_remove a now) (patterns a))); [simpl; auto|].
  match goal with |- context [_update_vectorizer ?x] =>
    destruct (update_vectorizer_config x) as [H1 H2] end.
  rewrite H1, H2. simpl. auto.
Qed.

(** X6 (cleanup twice).  On a store with distinct ids, running
    [cleanup_old_patterns] a second time at the same instant removes
    nothing more. *)
Theorem cleanup_is_idempotent (a : Adapter) (now : Py.Time) :
  NoDup (map id (patterns a)) ->
  patterns (cleanup_old_patterns (cleanup_old_patterns a now) now) =
  patterns (cleanup_old_patterns a now).
Proof.
  intros Hnd.
  assert (Hnd' : NoDup (map id (patterns (cleanup_old_patterns a now)))).
  { rewrite (cleanup_patterns a now Hnd). apply NoDup_map_filter, Hnd. }
  rewrite (cleanup_patterns _ now Hnd'), (cleanup_patterns a now Hnd).
  assert (E : forall p, to_remove (cleanup_old_patterns a now) now p =
                        to_remove a now p).
  { intros p. unfold to_remove.
    rewrite (proj2 (cleanup_config a now)). reflexivity. }
  rewrite (filter_ext _ _ (fun p => f_equal negb (E p))).
  apply filter_twice.
Qed.

(** X7 (cleanup of a whole store).  When every pattern of a non-empty
    store meets the removal test, [cleanup_old_patterns] empties the store
    but does not rebuild the index: [_update_vectorizer] returns at once on
    an empty store, so the vectorizer and the rows of the removed patterns
    stay.  Retrieval on the emptied store returns nothing. *)
Theorem cleanup_of_all_patterns_leaves_index (a : Adapter) (now : Py.Time) :
  patterns a <> [] ->
  (forall p, In p (patterns a) -> to_remove a now p = true) ->
  let a' := cleanup_old_patterns a now in
  patterns a' = [] /\
  vectorizer a' = vectorizer a /\
  pattern_vectors a' = pattern_vectors a /\
  forall query pattern_type brain_region limit,
    retrieve_relevant_patterns a' query pattern_type brain_region limit = [].
Proof.
  intros Hne Hall a'. subst a'.
  assert (Hf : filter (to_remove a now) (patterns a) = patterns a).
  { clear Hne. induction (patterns a) as [|p l IH]; [reflexivity|].
    simpl. rewrite (Hall p (or_introl eq_refl)). f_equal.
    apply IH. intros q Hq. apply Hall. right. exact Hq. }
  assert (He : fold_left (fun l k => dict_del k l)
                 (map id (patterns a)) (patterns a) = []).
  { rewrite fold_dict_del.
    assert (G : forall l, (forall p, In p l -> In (id p) (map id (patterns a)))
                          -> filter (fun p => negb (Py.mem (id p)
                                                      (map id (patterns a))))
                               l = []).
    { induction l as [|p l IH]; intros H; [reflexivity|]. simpl.
      rewrite (proj2 (mem_In _ _) (H p (or_introl eq_refl))). simpl.
      apply IH. intros q Hq. apply H. right. exact Hq. }
    apply G. intros p Hp. apply in_map. exact Hp. }
  unfold cleanup_old_patterns. rewrite Hf, He.
  destruct (patterns a) as [|p l] eqn:Ep; [congruence|].
  cbn [map]. unfold _update_vectorizer. cbn [patterns with_patterns].
  repeat split.
Qed.

Lemma scored_subseq_candidates (a : Adapter) (query : string)
  (pattern_type brain_region : option string) :
  Py.subseq (map fst (scored_patterns a query pattern_type brain_region))
    (filter (is_candidate pattern_type brain_region) (patterns a)).
Proof.
  unfold scored_patterns.
  destruct (pattern_vectors a); [destruct (vectorizer a)|].
  - rewrite vector_scores_fst. apply subseq_firstn.
  - apply subseq_nil_l.
  - apply text_scores_subseq.
Qed.

Lemma subseq_length {A} (l1 l2 : list A) :
  Py.subseq l1 l2 -> (List.length l1 <= List.length l2)%nat.
Proof. induction 1; simpl; lia. Qed.

Lemma filtered_out_false (f : option string) (value : string) :
  filtered_out f value = false ->
  forall t, f = Some t -> t <> "" -> value = t.
Proof.
  intros H t -> Ht. simpl in H. destruct t as [|c t]; [congruence|].
  simpl in H. apply negb_false_iff, String.eqb_eq in H. exact H.
Qed.

Lemma retrieve_members
  (a : Adapter) (query : string) (pattern_type brain_region : option string)
  (limit : Z) :
  let result :=
    retrieve_relevant_patterns a query pattern_type brain_region limit in
  (forall p, In p result ->
     In p (patterns a) /\
     (forall t, pattern_type = Some t -> t <> "" ->
                Learning.pattern_type p = t) /\
     (forall t, brain_region = Some t -> t <> "" ->
                Learning.brain_region p = t)) /\
  ((0 <= limit)%Z -> (Z.of_nat (List.length result) <= limit)%Z) /\
  (List.length result <= List.length (patterns a))%nat.
Proof.
  intros result. subst result. rewrite retrieve_sorts_scored.
  set (scored := scored_patterns a query pattern_type brain_region).
  split; [|split].
  - intros p Hp. apply in_map_iff in Hp. destruct Hp as ([q s] & E & Hq).
    simpl in E. subst q. apply prefix_incl in Hq.
    apply (Permutation_in _ (sort_desc_perm snd scored)) in Hq.
    assert (Hc : In p (filter (is_candidate pattern_type brain_region)
                         (patterns a))).
    { eapply subseq_In; [apply scored_subseq_candidates|].
      apply in_map_iff. exists (p, s). split; [reflexivity|exact Hq]. }
    apply filter_In in Hc. destruct Hc as [Hin Hc].
    unfold is_candidate in Hc. apply andb_true_iff in Hc.
    destruct Hc as [H1 H2]. apply negb_true_iff in H1, H2.
    split; [exact Hin|]. split.
    + apply filtered_out_false. exact H1.
    + apply filtered_out_false. exact H2.
  - intros Hl. rewrite length_map.
    destruct (prefix_length limit (Py.sort_desc snd scored) Hl) as [H _]. lia.
  - rewrite length_map.
    assert (H1 : (List.length (Py.prefix limit (Py.sort_desc snd scored))
                  <= List.length (Py.sort_desc snd scored))%nat).
    { unfold Py.prefix. destruct (0 <=? limit)%Z; rewrite length_firstn; lia. }
    rewrite (Permutation_length (sort_desc_perm snd scored)) in H1.
    pose proof (subseq_length _ _ (scored_in_store_order a query pattern_type
                                     brain_region)) as H2.
    rewrite length_map in H2. fold scored in H2. lia.
Qed.

(** X8 (retrieval is sound).  Every pattern [retrieve_relevant_patterns]
    returns is a stored pattern that has the requested [pattern_type] and
    [brain_region] (a filter that is absent or empty asks for nothing); for
    a non-negative [limit] at most [limit] patterns are returned, and never
    more than the store holds. *)
Theorem retrieve_returns_stored_candidates
  (a : Adapter) (query : string) (pattern_type brain_region : option string)
  (limit : Z) :
  let result :=
    retrieve_relevant_patterns a query pattern_type brain_region limit in
  (forall p, In p result ->
     In p (patterns a) /\
     (forall t, pattern_type = Some t -> t <> "" ->
                Learning.pattern_type p = t) /\
     (forall t, brain_region = Some t -> t <> "" ->
                Learning.brain_region p = t)) /\
  ((0 <= limit)%Z -> (Z.of_nat (List.length result) <= limit)%Z) /\
  (List.length result <= List.length (patterns a))%nat.
Proof. exact (retrieve_members a query pattern_type brain_region limit). Qed.

Lemma update_vectorizer_current (a : Adapter) :
  fit_ok IndexVectorizer (map Learning.input_context (patterns a)) = true ->
  indexed (_update_vectorizer a).
Proof.
  intros Hfit. unfold _update_vectorizer.
  destruct (patterns a) as [|p l] eqn:E; [left; exact E|].
  rewrite Hfit. right. unfold index_current.
  cbn [patterns vectorizer pattern_vectors with_index]. rewrite E. auto.
Qed.

Lemma learn_keeps_indexed (a : Adapter) (io : LearnCalls)
  (input_context output_result : string) (success_score : Q)
  (brain_region pattern_type : string) (metadata : list (string * string)) :
  indexed a ->
  let a' := snd (learn_from_interaction a io input_context output_result
                   success_score brain_region pattern_type metadata) in
  fit_ok IndexVectorizer (map Learning.input_context (patterns a')) = true ->
  indexed a'.
Proof.
  intros Hi. cbn zeta. unfold learn_from_interaction.
  destruct (Py.Qltb _ _); [intros _; exact Hi|].
  destruct (_find_similar_pattern a _ _ _) as [[i sp]|] eqn:F.
  - intros _. cbn [snd]. unfold _find_similar_pattern in F.
    destruct (find_first_some _ _ _ _ F) as (Hn & _ & _).
    destruct Hi as [He|[Hv Hr]]; [rewrite He in Hn; destruct i; discriminate|].
    right. unfold index_current. cbn [patterns vectorizer pattern_vectors
                                      with_patterns].
    rewrite (map_replace_nth Learning.input_context _ i sp _ Hn)
      by reflexivity.
    auto.
  - intros Hfit. cbn [snd] in *.
    rewrite update_vectorizer_patterns in Hfit.
    apply update_vectorizer_current. exact Hfit.
Qed.

(** X9 (index invariant).  As long as fitting the vectorizer on the
    stored texts succeeds, the index stays current under
    [learn_from_interaction], [record_feedback] and
    [cleanup_old_patterns]: whenever the store is not empty, the vectorizer
    is fitted on exactly the stored texts and the vectors are their rows in
    dict order. *)
Theorem index_stays_current (a : Adapter) :
  indexed a ->
  (forall io input_context output_result success_score brain_region
          pattern_type metadata,
     let a' := snd (learn_from_interaction a io input_context output_result
                      success_score brain_region pattern_type metadata) in
     fit_ok IndexVectorizer (map Learning.input_context (patterns a')) = true
     -> indexed a') /\
  (forall io pattern_id user_id feedback_type feedback_score
          original_output corrected_output context,
     let a' := snd (record_feedback a io pattern_id user_id feedback_type
                      feedback_score original_output corrected_output
                      context) in
     fit_ok IndexVectorizer (map Learning.input_context (patterns a')) = true
     -> indexed a') /\
  (forall now,
     let a' := cleanup_old_patterns a now in
     fit_ok IndexVectorizer (map Learning.input_context (patterns a')) = true
     -> indexed a').
Proof.
  intros Hi. split; [|split].
  - intros. apply learn_keeps_indexed; assumption.
  - intros io pattern_id user_id feedback_type f original_output
           corrected_output context. cbn zeta.
    unfold record_feedback. cbn [patterns with_feedback].
    destruct (dict_ref pattern_id (patterns a)) as [[i p]|] eqn:E;
      [|intros _; exact Hi].
    destruct (dict_ref_id _ _ _ _ E) as [Hn _].
    set (a1 := with_feedback a _).
    set (p1 := set_effectiveness p _).
    set (a2 := with_patterns a1 (Py.replace_nth i p1 (patterns a))).
    assert (Hi2 : indexed a2).
    { destruct Hi as [He|[Hv Hr]];
        [rewrite He in Hn; destruct i; discriminate|].
      right. unfold index_current.
      cbn [a2 a1 patterns vectorizer pattern_vectors with_patterns
           with_feedback].
      rewrite (map_replace_nth Learning.input_context _ i p p1 Hn)
        by reflexivity.
      auto. }
    destruct corrected_output as [corrected|]; [|intros _; exact Hi2].
    destruct (Py.truthy corrected && Py.Qltb 0 f);
      [|intros _; exact Hi2].
    cbn [snd]. apply learn_keeps_indexed. exact Hi2.
  - intros now. cbn zeta. unfold cleanup_old_patterns.
    destruct (map id (filter (to_remove a now) (patterns a))) as [|k ks] eqn:K.
    + intros _. cbn [fold_left].
      destruct Hi as [He|Hc]; [left; exact He|right; exact Hc].
    + intros Hfit. rewrite update_vectorizer_patterns in Hfit.
      apply update_vectorizer_current. exact Hfit.
Qed.

(** X10 (ranking on a current index).  On a current index and with
    filters that let every stored pattern through, the vector path ranks
    every stored pattern by 0.7 times the cosine similarity of the query to
    the pattern's own text plus 0.3 times its effectiveness. *)
Theorem retrieve_on_current_index (a : Adapter) (query : string)
  (pattern_type brain_region : option string) (limit : Z) :
  index_current a ->
  (forall p, In p (patterns a) ->
             is_candidate pattern_type brain_region p = true) ->
  retrieve_relevant_patterns a query pattern_type brain_region limit =
  retrieve_by_own_similarity a query pattern_type brain_region limit.
Proof.
  intros [Hv Hr] Hall.
  apply (retrieve_aligned_uses_own_similarity a query pattern_type
           brain_region limit (map Learning.input_context (patterns a)) Hv).
  - rewrite Hr, map_map. reflexivity.
  - clear Hv Hr. induction (patterns a) as [|p l IH]; [reflexivity|].
    simpl. rewrite (Hall p (or_introl eq_refl)). f_equal.
    apply IH. intros q Hq. apply Hall. right. exact Hq.
Qed.

Lemma overlap_nodup_self (l : list string) :
  filter (fun w => Py.mem w l) l = l /\
  filter (fun w => negb (Py.mem w l)) l = [].
Proof.
  assert (G : forall k, incl k l ->
            filter (fun w => Py.mem w l) k = k /\
            filter (fun w => negb (Py.mem w l)) k = []).
  { induction k as [|x k IH]; intros H; [auto|]. simpl.
    rewrite (proj2 (mem_In x l) (H x (or_introl eq_refl))). simpl.
    destruct IH as [E1 E2]; [intros y Hy; apply H; right; exact Hy|].
    rewrite E1, E2. auto. }
  apply G, incl_refl.
Qed.

(** X11 (fallback similarity).  The word-overlap similarity of
    [_simple_text_matching] lies in [0,1], so every combined score of the
    fallback lies between 0.3 times the effectiveness and 0.7 above that;
    a text compared with itself has similarity 1; only stored candidates
    are scored. *)
Theorem fallback_similarity_bounds (query : string) :
  (forall context s, word_overlap query context = Some s ->
                     0 <= s /\ s <= 1) /\
  (forall s, word_overlap query query = Some s -> s == 1) /\
  (forall ps p s, In (p, s) (text_scores query ps) ->
     In p ps /\
     effectiveness_score p * (3 # 10) <= s /\
     s <= (7 # 10) + effectiveness_score p * (3 # 10)).
Proof.
  assert (Hb : forall context s, word_overlap query context = Some s ->
                                 0 <= s /\ s <= 1).
  { intros context s. unfold word_overlap.
    set (qw := Py.to_set (Py.split (Py.lower query))).
    set (pw := Py.to_set (Py.split (Py.lower context))).
    pose proof (filter_length_le (fun w => Py.mem w pw) qw) as Hle.
    destruct (List.length qw + _)%nat as [|n] eqn:E; [discriminate|].
    assert (Hp : Z.pos (Pos.of_nat (S n)) = Z.succ (Z.of_nat n))
      by (rewrite <- Pos.of_nat_succ; apply Zpos_P_of_succ_nat).
    intros H. injection H as <-. unfold Qle. cbn [Qnum Qden].
    cbn [Pos.of_nat] in Hp |- *. rewrite Hp. lia. }
  split; [exact Hb|]. split.
  - intros s. unfold word_overlap.
    set (qw := Py.to_set (Py.split (Py.lower query))).
    destruct (overlap_nodup_self qw) as [E1 E2]. rewrite E1, E2.
    cbn [List.length]. rewrite Nat.add_0_r.
    destruct (List.length qw) as [|n]; [discriminate|].
    assert (Hp : Z.pos (Pos.of_nat (S n)) = Z.succ (Z.of_nat n))
      by (rewrite <- Pos.of_nat_succ; apply Zpos_P_of_succ_nat).
    intros H. injection H as <-. unfold Qeq. cbn [Qnum Qden].
    cbn [Pos.of_nat] in Hp |- *. rewrite Hp. lia.
  - induction ps as [|q ps IH]; intros p s; simpl; [tauto|].
    destruct (word_overlap query (Learning.input_context q)) as [sim|] eqn:W.
    + intros [E|Hin].
      * injection E as <- <-. split; [left; reflexivity|].
        destruct (Hb _ _ W). unfold combined_score. split; lra.
      * destruct (IH _ _ Hin) as (H1 & H2 & H3). auto.
    + intros Hin. destruct (IH _ _ Hin) as (H1 & H2 & H3). auto.
Qed.

End CleanupAndIndex.

(** * Properties of the statistics and suggestions *)

Section ReportFacts.
Context {SK : Sklearn}.
Import Learning Reports.

Lemma total_count_app (d e : list (string * Z)) :
  total_count (d ++ e) = (total_count d + total_count e)%Z.
Proof.
  unfold total_count. induction d as [|kv d IH]; simpl; [reflexivity|].
  rewrite IH. lia.
Qed.

Lemma total_count_replace (d : list (string * Z)) (i : nat)
  (old new : string * Z) :
  nth_error d i = Some old ->
  total_count (Py.replace_nth i new d)
  = (total_count d - snd old + snd new)%Z.
Proof.
  unfold total_count. revert i.
  induction d as [|kv d IH]; intros [|i]; simpl; try discriminate.
  - intros [= <-]. lia.
  - intros H. rewrite (IH i H). lia.
Qed.

(** Counting one more occurrence raises the sum of the counts by one and
    keeps the keys distinct. *)
Lemma count_adds_one (k : string) (d : list (string * Z)) :
  total_count (count k d) = (total_count d + 1)%Z /\
  (NoDup (map fst d) -> NoDup (map fst (count k d))) /\
  (Forall (fun kv => (1 <= snd kv)%Z) d ->
   Forall (fun kv => (1 <= snd kv)%Z) (count k d)).
Proof.
  unfold count, Conversation.assoc_set, Conversation.assoc_get.
  destruct (Conversation.assoc_ref k d) as [[i kv]|] eqn:E;
    unfold Conversation.assoc_ref in E.
  - destruct (find_first_some _ _ _ _ E) as (Hn & Hk & _).
    apply String.eqb_eq in Hk. cbn [option_map snd]. split; [|split].
    + rewrite (total_count_replace _ _ _ _ Hn). cbn [snd]. lia.
    + intros Hnd.
      rewrite (map_replace_nth fst d i kv (k, (snd kv + 1)%Z) Hn)
        by (symmetry; exact Hk).
      exact Hnd.
    + intros Hall. apply Forall_replace_nth; [exact Hall|]. cbn [snd].
      apply nth_error_In in Hn.
      pose proof (proj1 (Forall_forall _ _) Hall kv Hn) as Hkv.
      cbn beta in Hkv. lia.
  - cbn [option_map]. split; [|split].
    + rewrite total_count_app. unfold total_count. simpl. lia.
    + intros Hnd. rewrite map_app. cbn [map fst].
      apply NoDup_app; [exact Hnd|repeat constructor; simpl; tauto|].
      intros x Hx [<-|[]]. apply in_map_iff in Hx.
      destruct Hx as (kv & Ek & Hkv).
      pose proof (find_first_none _ _ E kv Hkv) as F. simpl in F.
      rewrite Ek, String.eqb_refl in F. discriminate.
    + intros Hall. apply Forall_app. split; [exact Hall|].
      constructor; [simpl; lia|constructor].
Qed.

Lemma count_fold (f : LearningPattern -> string) (ps : list LearningPattern)
  (d : list (string * Z)) :
  NoDup (map fst d) ->
  Forall (fun kv => (1 <= snd kv)%Z) d ->
  let d' := fold_left (fun d p => count (f p) d) ps d in
  total_count d' = (total_count d + Z.of_nat (List.length ps))%Z /\
  NoDup (map fst d') /\
  Forall (fun kv => (1 <= snd kv)%Z) d'.
Proof.
  revert d. induction ps as [|p ps IH]; intros d Hnd Hall; cbn zeta.
  - simpl. split; [lia|auto].
  - cbn [fold_left].
    destruct (count_adds_one (f p) d) as (H1 & H2 & H3).
    destruct (IH _ (H2 Hnd) (H3 Hall)) as (G1 & G2 & G3).
    split; [|auto]. rewrite G1, H1. cbn [List.length]. lia.
Qed.

(** X12 (statistics add up).  In [get_learning_stats] the counts of
    [patterns_by_type] add up to [total_patterns], and so do the counts of
    [patterns_by_region]; each type and region is listed once, with a
    count of at least 1. *)
Theorem stats_counts_add_up (a : Adapter) :
  let stats := get_learning_stats a in
  st_total_patterns stats = total_patterns a /\
  total_count (st_patterns_by_type stats) = st_total_patterns stats /\
  total_count (st_patterns_by_region stats) = st_total_patterns stats /\
  NoDup (map fst (st_patterns_by_type stats)) /\
  NoDup (map fst (st_patterns_by_region stats)) /\
  Forall (fun kv => (1 <= snd kv)%Z) (st_patterns_by_type stats) /\
  Forall (fun kv => (1 <= snd kv)%Z) (st_patterns_by_region stats).
Proof.
  unfold get_learning_stats, total_patterns.
  destruct (patterns a) as [|p ps] eqn:E.
  - simpl. repeat split; constructor.
  - rewrite <- E. cbn [st_total_patterns st_patterns_by_type
                       st_patterns_by_region].
    destruct (count_fold Learning.pattern_type (patterns a) []
                ltac:(constructor) ltac:(constructor)) as (T1 & T2 & T3).
    destruct (count_fold Learning.brain_region (patterns a) []
                ltac:(constructor) ltac:(constructor)) as (R1 & R2 & R3).
    repeat split; try assumption.
Qed.

Lemma StronglySorted_weaken {A} (R R' : A -> A -> Prop) (l : list A) :
  (forall x y, R x y -> R' x y) ->
  StronglySorted R l -> StronglySorted R' l.
Proof.
  intros Himp. induction 1 as [|x l Hl IH Hx]; constructor; [exact IH|].
  eapply Forall_impl; [|exact Hx]. intros y. apply Himp.
Qed.

Lemma StronglySorted_map {A B} (f : A -> B) (R : B -> B -> Prop)
  (l : list A) :
  StronglySorted (fun x y => R (f x) (f y)) l -> StronglySorted R (map f l).
Proof.
  induction 1 as [|x l Hl IH Hx]; simpl; constructor; [exact IH|].
  apply Forall_map. exact Hx.
Qed.

(** X13 (most used patterns).  [most_used_patterns] lists at most five
    entries, each taken from a stored pattern, in order of non-increasing
    [usage_count]; with fewer than five stored patterns it lists them
    all. *)
Theorem stats_most_used_sorted (a : Adapter) :
  let top := st_most_used_patterns (get_learning_stats a) in
  List.length top = Nat.min 5 (List.length (patterns a)) /\
  StronglySorted (fun x y => (mu_usage_count y <= mu_usage_count x)%Z) top /\
  forall e, In e top -> exists p, In p (patterns a) /\ e = most_used_entry p.
Proof.
  unfold get_learning_stats.
  destruct (patterns a) as [|p ps] eqn:E.
  - simpl. repeat split; [constructor|tauto].
  - rewrite <- E. cbn [st_most_used_patterns].
    set (key := fun q : LearningPattern => inject_Z (usage_count q)).
    split; [|split].
    + rewrite length_map. unfold Py.prefix. cbn [Z.leb Z.compare].
      rewrite length_firstn,
        (Permutation_length (sort_desc_perm key (patterns a))).
      reflexivity.
    + apply StronglySorted_map.
      eapply (StronglySorted_weaken (Py.not_below key));
        [|apply prefix_sorted, sort_desc_sorted].
      intros x y H. unfold Py.not_below, key in H.
      cbn [most_used_entry mu_usage_count]. rewrite Zle_Qle. exact H.
    + intros e He. apply in_map_iff in He. destruct He as (q & <- & Hq).
      exists q. split; [|reflexivity].
      apply prefix_incl in Hq.
      apply (Permutation_in _ (sort_desc_perm key (patterns a))). exact Hq.
Qed.

Lemma sum_bounds (l : list Q) (acc : Q) :
  Forall in_unit l ->
  acc <= fold_left Qplus l acc /\
  fold_left Qplus l acc <= acc + inject_Z (Z.of_nat (List.length l)).
Proof.
  intros H. revert acc. induction H as [|x l [Hx0 Hx1] Hl IH]; intros acc.
  - cbn [fold_left List.length Z.of_nat]. change (inject_Z 0) with 0.
    split; lra.
  - cbn [fold_left List.length]. destruct (IH (acc + x)) as [H1 H2].
    rewrite Nat2Z.inj_succ, <- Z.add_1_r, inject_Z_plus.
    change (inject_Z 1) with 1. split; lra.
Qed.

(** X14 (average effectiveness).  On a store whose scores lie in [0,1],
    [average_effectiveness] lies in [0,1]. *)
Theorem stats_average_in_unit_interval (a : Adapter) :
  scores_bounded a ->
  0 <= st_average_effectiveness (get_learning_stats a) /\
  st_average_effectiveness (get_learning_stats a) <= 1.
Proof.
  intros Hb. unfold get_learning_stats.
  destruct (patterns a) as [|p ps] eqn:E; [simpl; split; lra|].
  rewrite <- E. cbn [st_average_effectiveness]. unfold mean.
  assert (Hall : Forall in_unit (map effectiveness_score (patterns a))).
  { apply Forall_map. eapply Forall_impl; [|exact Hb]. intros q [H _].
    exact H. }
  destruct (sum_bounds _ 0 Hall) as [H0 H1].
  set (n := inject_Z (Z.of_nat (List.length
                                  (map effectiveness_score (patterns a))))) in *.
  assert (Hn : 0 < n).
  { subst n. rewrite length_map, E. cbn [List.length].
    rewrite Nat2Z.inj_succ. unfold Qlt. simpl. lia. }
  split.
  - apply Qle_shift_div_l; [exact Hn|]. lra.
  - apply Qle_shift_div_r; [exact Hn|]. lra.
Qed.

(** X15 (suggestions).  [get_improvement_suggestions] returns at most
    three suggestions; each one describes a stored pattern, with the
    pattern's [effectiveness_score] as confidence, and when the requested
    [brain_region] is not empty every suggestion is for that region. *)
Theorem suggestions_come_from_stored_patterns (a : Adapter)
  (context brain_region : string) :
  let suggestions := get_improvement_suggestions a context brain_region in
  (List.length suggestions <= 3)%nat /\
  forall s, In s suggestions ->
    (brain_region <> "" -> sg_brain_region s = brain_region) /\
    exists p,
      In p (patterns a) /\
      sg_pattern_id s = id p /\
      sg_suggestion_type s = Learning.pattern_type p /\
      sg_suggested_approach s = successful_output p /\
      sg_confidence s = effectiveness_score p /\
      sg_usage_count s = usage_count p /\
      sg_brain_region s = Learning.brain_region p.
Proof.
  unfold get_improvement_suggestions.
  destruct (retrieve_members a context None (Some brain_region) 3)
    as (Hmem & Hlen & _).
  split.
  - rewrite length_map. specialize (Hlen ltac:(lia)). lia.
  - intros s Hs. apply in_map_iff in Hs. destruct Hs as (p & <- & Hp).
    destruct (Hmem p Hp) as (Hin & _ & Hreg).
    split.
    + intros Hne. cbn [suggestion_of sg_brain_region].
      apply (Hreg brain_region eq_refl Hne).
    + exists p. simpl. repeat split; auto.
Qed.

End ReportFacts.

(** * Further properties of the conversation manager *)

Section FlowSelection.
Import Conversation.

Lemma determine_fold (c : ConversationContext) (ml : string)
  (fl seen : list ConversationFlow) (best : option string * Q) :
  match fst best with
  | None => snd best = 0 /\
            Forall (fun f => flow_score c ml f <= 1 # 2) seen
  | Some fid =>
    1 # 2 < snd best /\
    Forall (fun f => flow_score c ml f <= snd best) seen /\
    exists f, In f seen /\ flow_id f = fid /\ flow_score c ml f = snd best
  end ->
  let r :=
    fold_left
      (fun best flow =>
         let score := flow_score c ml flow in
         if Py.Qltb (snd best) score && Py.Qltb (1 # 2) score
         then (Some (flow_id flow), score)
         else best) fl best in
  match fst r with
  | None => snd r = 0 /\
            Forall (fun f => flow_score c ml f <= 1 # 2) (seen ++ fl)
  | Some fid =>
    1 # 2 < snd r /\
    Forall (fun f => flow_score c ml f <= snd r) (seen ++ fl) /\
    exists f, In f (seen ++ fl) /\ flow_id f = fid /\
              flow_score c ml f = snd r
  end.
Proof.
  revert seen best. induction fl as [|f fl IH]; intros seen best Hinv.
  - cbn [fold_left]. rewrite app_nil_r. exact Hinv.
  - cbn [fold_left]. cbn zeta.
    replace (seen ++ f :: fl) with ((seen ++ [f]) ++ fl)
      by (rewrite <- app_assoc; reflexivity).
    apply IH. clear IH.
    set (score := flow_score c ml f).
    destruct (Py.Qltb (snd best) score && Py.Qltb (1 # 2) score) eqn:E.
    + apply andb_true_iff in E. destruct E as [E1 E2].
      apply Qltb_true in E1, E2. cbn [fst snd].
      split; [exact E2|]. split.
      * apply Forall_app. split.
        -- destruct (fst best) as [fid|].
           ++ destruct Hinv as (_ & Hall & _).
              eapply Forall_impl; [|exact Hall]. intros g Hg.
              cbn beta in Hg. lra.
           ++ destruct Hinv as (_ & Hall).
              eapply Forall_impl; [|exact Hall]. intros g Hg.
              cbn beta in Hg. lra.
        -- constructor; [fold score; lra|constructor].
      * exists f. split; [apply in_or_app; right; left; reflexivity|].
        split; reflexivity.
    + apply andb_false_iff in E.
      destruct (fst best) as [fid|] eqn:Eb.
      * destruct Hinv as (Hgt & Hall & g & Hg & Hid & Hsc).
        split; [exact Hgt|]. split.
        -- apply Forall_app. split; [exact Hall|].
           constructor; [|constructor]. fold score.
           destruct E as [E|E]; apply Qltb_false in E; lra.
        -- exists g. split; [apply in_or_app; left; exact Hg|]. auto.
      * destruct Hinv as (Hz & Hall). split; [exact Hz|].
        apply Forall_app. split; [exact Hall|].
        constructor; [|constructor]. fold score.
        destruct E as [E|E]; apply Qltb_false in E; [rewrite Hz in E|]; lra.
Qed.

(** X16 (flow selection).  [_determine_conversation_flow] returns a
    registered flow whose score is above 0.5 and is the highest score of
    all registered flows, with that score as confidence; it returns no
    flow, with confidence 0, exactly when no registered flow scores above
    0.5. *)
Theorem determine_returns_best_flow (m : Manager) (c : ConversationContext)
  (message : string) :
  let r := _determine_conversation_flow m c message in
  let score := flow_score c (Py.lower message) in
  match fst r with
  | None => snd r = 0 /\ Forall (fun f => score f <= 1 # 2) (flows m)
  | Some fid =>
    1 # 2 < snd r /\
    Forall (fun f => score f <= snd r) (flows m) /\
    exists f, In f (flows m) /\ flow_id f = fid /\ score f = snd r
  end.
Proof.
  unfold _determine_conversation_flow.
  apply (determine_fold c (Py.lower message) (flows m) [] (None, 0)).
  cbn [fst snd]. split; [reflexivity|constructor].
Qed.

Lemma trigger_score_from (ml : string) (patterns : list string) (acc : Q) :
  acc <=
  fold_left
    (fun score pattern =>
       if Py.contains (Py.lower pattern) ml then score + 1 else score)
    patterns acc.
Proof.
  revert acc. induction patterns as [|p ps IH]; intros acc; cbn [fold_left].
  - lra.
  - destruct (Py.contains (Py.lower p) ml).
    + specialize (IH (acc + 1)). lra.
    + apply IH.
Qed.

(** X17 (default flows).  With the two default flows registered, a
    session whose brain region is [FRONTAL_LOBE] or [TEMPORAL_LOBE]
    selects one of them for every message, with a confidence of at least
    0.8: region and (empty) context requirement alone score 0.8 for
    [memory_interaction], so [process_message] never falls back to the
    default response for such a session. *)
Theorem default_flows_cover_frontal_and_temporal (m : Manager)
  (c : ConversationContext) (message : string) :
  flows m = [memory_flow; qa_flow] ->
  brain_region c = "FRONTAL_LOBE" \/ brain_region c = "TEMPORAL_LOBE" ->
  let r := _determine_conversation_flow m c message in
  (fst r = Some "memory_interaction" \/ fst r = Some "simple_qa") /\
  8 # 10 <= snd r.
Proof.
  intros Hflows Hregion. unfold _determine_conversation_flow.
  rewrite Hflows. cbn [fold_left fst snd].
  set (ml := Py.lower message).
  assert (Hm : 8 # 10 <= flow_score c ml memory_flow).
  { unfold flow_score.
    pose proof (trigger_score_from ml (trigger_patterns memory_flow) 0) as H.
    set (s1 := fold_left _ _ 0) in *.
    assert (Hr : Py.mem (brain_region c) (brain_regions memory_flow) = true)
      by (destruct Hregion as [-> | ->]; reflexivity).
    rewrite Hr. cbn [required_context memory_flow forallb]. lra. }
  set (sm := flow_score c ml memory_flow) in *.
  assert (H1 : Py.Qltb 0 sm && Py.Qltb (1 # 2) sm = true).
  { apply andb_true_iff. split; apply Qltb_true; lra. }
  rewrite H1. cbn [fst snd flow_id memory_flow].
  set (sq := flow_score c ml qa_flow).
  destruct (Py.Qltb sm sq && Py.Qltb (1 # 2) sq) eqn:E; cbn [fst snd].
  - apply andb_true_iff in E. destruct E as [E _]. apply Qltb_true in E.
    split; [right; reflexivity|lra].
  - split; [left; reflexivity|exact Hm].
Qed.

End FlowSelection.

Section SessionFacts.
Context {RT : Conversation.PyRuntime}.
Import Conversation.

Lemma same_identity_refl (c : ConversationContext) : same_identity c c.
Proof. unfold same_identity. auto. Qed.

Lemma same_identity_trans (c1 c2 c3 : ConversationContext) :
  same_identity c1 c2 -> same_identity c2 c3 -> same_identity c1 c3.
Proof.
  unfold same_identity.
  intros (A1 & A2 & A3 & A4 & A5) (B1 & B2 & B3 & B4 & B5).
  repeat split; congruence.
Qed.

Lemma add_history_identity (m : Manager) (c : ConversationContext)
  (role content : string) (now : Py.Time) :
  same_identity c (_add_to_conversation_history m c role content now).
Proof.
  unfold _add_to_conversation_history, same_identity.
  destruct (_ <? _)%Z; simpl; auto.
Qed.

Local Ltac solve_identity :=
  solve [ apply same_identity_refl
        | unfold same_identity; simpl; auto 6 ].

Lemma execute_flow_step_identity (m : Manager) (c : ConversationContext)
  (step : Step) (message : string) (now : Py.Time) :
  same_identity c (snd (_execute_flow_step m c step message now)).
Proof.
  unfold _execute_flow_step.
  destruct (String.eqb _ "message").
  { unfold _execute_message_step. cbn [snd]. apply add_history_identity. }
  destruct (String.eqb _ "memory_query"); [solve_identity|].
  destruct (String.eqb _ "agent_call").
  { unfold _execute_agent_step.
    destruct (assoc_get "agent_id" (step_data step)) as [aid|];
      [|solve_identity].
    destruct (Py.truthy aid); [|solve_identity].
    destruct (agent_get aid m); solve_identity. }
  destruct (String.eqb _ "condition"); [solve_identity|].
  destruct (String.eqb _ "input_collection"); solve_identity.
Qed.

Lemma complete_flow_identity (c : ConversationContext)
  (flow : ConversationFlow) (now : Py.Time) :
  same_identity c (snd (_complete_flow c flow now)).
Proof.
  unfold _complete_flow.
  destruct (assoc_get "flow_start_time" _) as [[n|q|s|t]|]; cbn [snd];
    try solve_identity.
  - destruct (n =? 0)%Z; solve_identity.
  - destruct (Qeq_bool q 0); solve_identity.
  - destruct (Py.truthy s); [|solve_identity].
    destruct (fromisoformat s); solve_identity.
Qed.

Lemma execute_flow_identity (m : Manager) (io : MessageCalls)
  (c : ConversationContext) (fid message : string) :
  same_identity c (snd (_execute_conversation_flow m io c fid message)).
Proof.
  unfold _execute_conversation_flow.
  destruct (flow_get fid m) as [flow|]; [|apply same_identity_refl].
  set (c1 := set_state (set_flow c (Some fid) (Some (cf_flow_type flow)))
               FLOW_EXECUTION).
  set (c2 := if assoc_mem "current_step" (flow_variables c1) then c1
             else set_flow_variables c1 _).
  assert (H2 : same_identity c c2).
  { subst c2. destruct (assoc_mem _ _); solve_identity. }
  destruct (assoc_get "current_step" (flow_variables c2)) as [[n|q|s|t]|];
    try exact H2.
  - destruct (_ <=? n)%Z.
    + eapply same_identity_trans; [exact H2|apply complete_flow_identity].
    + destruct (Py.index n (steps flow)) as [step|]; [|exact H2].
      pose proof (execute_flow_step_identity m c2 step message (now_step io))
        as H3.
      destruct (_execute_flow_step m c2 step message (now_step io))
        as [sr c3]. cbn [snd] in H3.
      assert (H13 : same_identity c c3)
        by (eapply same_identity_trans; eassumption).
      destruct (step_completed sr) as [[|]|]; try exact H13.
      unfold increment_step.
      destruct (assoc_get "current_step" (flow_variables c3))
        as [[n'|q'|s'|t']|]; try exact H13;
        (eapply same_identity_trans; [exact H13|solve_identity]).
  - destruct (Qle_bool _ q); [|exact H2].
    eapply same_identity_trans; [exact H2|apply complete_flow_identity].
Qed.

Lemma default_processing_identity (m : Manager) (c : ConversationContext)
  (message : string) (now : Py.Time) :
  same_identity c (snd (_default_message_processing m c message now)).
Proof.
  unfold _default_message_processing. cbn [snd].
  eapply same_identity_trans; [|apply add_history_identity].
  solve_identity.
Qed.

(** X18 (a message touches one session).  [process_message] leaves
    flows, agents and the history bound alone and neither adds nor removes
    a session: the session ids are the same, in the same order; every
    session with another id is untouched; the addressed session keeps its
    id, user, brain region and creation time.  For an unknown session id
    the call fails with "session not found" and the manager is
    unchanged. *)
Theorem process_message_touches_one_session (m : Manager) (io : MessageCalls)
  (sid message message_type : string) :
  let r := process_message m io sid message message_type in
  flows (snd r) = flows m /\
  agents (snd r) = agents m /\
  max_conversation_history (snd r) = max_conversation_history m /\
  map session_id (sessions (snd r)) = map session_id (sessions m) /\
  (forall j c, nth_error (sessions m) j = Some c -> session_id c <> sid ->
               nth_error (sessions (snd r)) j = Some c) /\
  (forall c, session_get sid m = Some c ->
             exists c', session_get sid (snd r) = Some c' /\
                        same_identity c c') /\
  (session_get sid m = None ->
   snd r = m /\ success (fst r) = false /\
   error (fst r) = Some (SessionNotFound sid) /\
   next_state (fst r) = Some ERROR).
Proof.
  unfold process_message, session_get.
  destruct (session_ref sid m) as [[i c]|] eqn:Href.
  - set (c1 := set_updated_at (set_state c PROCESSING) (now_updated_at io)).
    set (c2 := _add_to_conversation_history m c1 message_type message
                 (now_message io)).
    assert (H2 : same_identity c c2).
    { eapply same_identity_trans; [|apply add_history_identity].
      solve_identity. }
    set (rc := match fst (_determine_conversation_flow m c2 message) with
               | Some flow_id =>
                 if Py.truthy flow_id
                 then _execute_conversation_flow m io c2 flow_id message
                 else _default_message_processing m c2 message (now_step io)
               | None => _default_message_processing m c2 message (now_step io)
               end).
    assert (H3 : same_identity c (snd rc)).
    { eapply same_identity_trans; [exact H2|]. subst rc.
      destruct (fst (_determine_conversation_flow m c2 message)) as [f|];
        [destruct (Py.truthy f)|];
        try apply execute_flow_identity;
        apply default_processing_identity. }
    destruct rc as [result c3].
    cbn [fst snd sessions flows agents max_conversation_history
         with_sessions] in *.
    destruct (find_first_some _ _ _ _ Href) as (Hn & Hsid & _).
    apply String.eqb_eq in Hsid.
    repeat split; try reflexivity.
    + apply (map_replace_nth session_id _ i c c3 Hn). exact (proj1 H3).
    + intros j c' Hj Hne. rewrite replace_nth_other; [exact Hj|].
      intros ->. congruence.
    + intros c' [= <-]. exists c3. split; [|exact H3].
      unfold session_get.
      rewrite (session_ref_replaced m sid i c c3 Href (proj1 H3)).
      reflexivity.
    + discriminate.
    + match goal with H : _ = None |- _ => discriminate H end.
    + match goal with H : _ = None |- _ => discriminate H end.
    + match goal with H : _ = None |- _ => discriminate H end.
  - cbn [fst snd]. repeat split; try reflexivity; try discriminate.
    intros j c Hj _. exact Hj.
Qed.

End SessionFacts.

Section FlowExtras.
Context {RT : Conversation.PyRuntime}.
Import Conversation.

(** [_execute_conversation_flow] on a session with an integer step
    counter: the prepared context and what the method does from there. *)
Lemma execute_prepared (m : Manager) (io : MessageCalls)
  (c : ConversationContext) (fid message : string) (flow : ConversationFlow)
  (k : Z) (started : option Py.Time) :
  flow_get fid m = Some flow ->
  flow_progress k started c ->
  exists c2,
    flow_progress k
      (Some match started with Some t0 => t0 | None => now_flow_start io end)
      c2 /\
    current_state c2 = FLOW_EXECUTION /\
    current_flow c2 = Some fid /\
    _execute_conversation_flow m io c fid message =
    if (Z.of_nat (List.length (steps flow)) <=? k)%Z
    then _complete_flow c2 flow (now_complete io)
    else
      match Py.index k (steps flow) with
      | None => (failed IndexError, c2)
      | Some step =>
        let '(step_result, c3) :=
          _execute_flow_step m c2 step message (now_step io) in
        match step_completed step_result with
        | Some true =>
          match increment_step c3 with
          | inr c4 => (step_result, c4)
          | inl e => (failed e, c3)
          end
        | _ => (step_result, c3)
        end
      end.
Proof.
  intros Hflow Hprog.
  unfold _execute_conversation_flow. rewrite Hflow.
  cbn [flow_variables set_state set_flow].
  destruct (started_progress k started (flow_variables c)
              (now_flow_start io) c eq_refl Hprog) as [Hstep Hstart].
  set (c1 := set_state (set_flow c (Some fid) (Some (cf_flow_type flow)))
               FLOW_EXECUTION).
  set (c2 := if assoc_mem "current_step" (flow_variables c) then c1
             else set_flow_variables c1 _).
  assert (Hfv2 : flow_variables c2 =
                 if assoc_mem "current_step" (flow_variables c)
                 then flow_variables c
                 else assoc_set "flow_start_time" (VTime (now_flow_start io))
                        (assoc_set "current_step" (VInt 0)
                           (flow_variables c))).
  { subst c2. destruct (assoc_mem _ _); reflexivity. }
  rewrite <- Hfv2 in Hstep, Hstart.
  exists c2. split; [split; assumption|].
  split; [subst c2; destruct (assoc_mem _ _); reflexivity|].
  split; [subst c2; destruct (assoc_mem _ _); reflexivity|].
  rewrite Hstep. reflexivity.
Qed.

Lemma unrunnable_step_fails (m : Manager) (c : ConversationContext)
  (step : Step) (message : string) (now : Py.Time) :
  unrunnable m step = true ->
  exists e, _execute_flow_step m c step message now = (failed_step e, c).
Proof.
  unfold unrunnable, _execute_flow_step.
  destruct (String.eqb _ "message"); [discriminate|].
  destruct (String.eqb _ "memory_query"); [discriminate|].
  destruct (String.eqb _ "agent_call").
  { unfold _execute_agent_step.
    destruct (assoc_get "agent_id" (step_data step)) as [aid|];
      [|eexists; reflexivity].
    destruct (Py.truthy aid); simpl; [|eexists; reflexivity].
    destruct (agent_get aid m); [discriminate|eexists; reflexivity]. }
  destruct (String.eqb _ "condition"); [discriminate|].
  destruct (String.eqb _ "input_collection"); [discriminate|].
  eexists. reflexivity.
Qed.

Lemma index_some_in_range {A} (k : Z) (l : list A) (x : A) :
  (0 <= k)%Z -> Py.index k l = Some x ->
  (k < Z.of_nat (List.length l))%Z.
Proof.
  intros Hk. unfold Py.index. apply Z.leb_le in Hk. rewrite Hk.
  apply Z.leb_le in Hk. intros H.
  assert (Hs : nth_error l (Z.to_nat k) <> None) by congruence.
  apply nth_error_Some in Hs. lia.
Qed.

(** X19 (a step that cannot run blocks its flow).  When the step at the
    counter is of an unknown type, or calls an agent that is not named or
    not registered, [_execute_conversation_flow] reports failure with
    [step_completed = False] and leaves the counter where it is: the
    session stays in [FLOW_EXECUTION] on that flow and the next call meets
    the same step. *)
Theorem unrunnable_step_blocks_flow (m : Manager) (io : MessageCalls)
  (c : ConversationContext) (fid message : string) (flow : ConversationFlow)
  (k : Z) (started : option Py.Time) (step : Step) :
  flow_get fid m = Some flow ->
  (0 <= k)%Z ->
  flow_progress k started c ->
  Py.index k (steps flow) = Some step ->
  unrunnable m step = true ->
  let rc := _execute_conversation_flow m io c fid message in
  success (fst rc) = false /\
  step_completed (fst rc) = Some false /\
  current_state (snd rc) = FLOW_EXECUTION /\
  current_flow (snd rc) = Some fid /\
  flow_progress k
    (Some match started with Some t0 => t0 | None => now_flow_start io end)
    (snd rc).
Proof.
  intros Hflow Hk Hprog Hidx Hbad.
  destruct (execute_prepared m io c fid message flow k started Hflow Hprog)
    as (c2 & Hprog2 & Hstate & Hcur & Hexec).
  cbn zeta. rewrite Hexec.
  pose proof (index_some_in_range k (steps flow) step Hk Hidx) as Hlt.
  apply Z.leb_gt in Hlt. rewrite Hlt, Hidx.
  destruct (unrunnable_step_fails m c2 step message (now_step io) Hbad)
    as [e He].
  rewrite He. cbn [step_completed failed_step fst snd success].
  auto.
Qed.



Lemma complete_flow_progress (c : ConversationContext)
  (flow : ConversationFlow) (now : Py.Time) (k : Z) (t0 : Py.Time) :
  flow_progress k (Some t0) c ->
  flow_progress k (Some t0) (snd (_complete_flow c flow now)).
Proof.
  intros [Hstep Hstart]. unfold _complete_flow.
  cbn [flow_variables set_flow set_state]. rewrite Hstart.
  cbn [snd]. unfold flow_progress.
  cbn [flow_variables set_flow_variables set_flow set_state].
  rewrite !assoc_get_set_other by discriminate. auto.
Qed.

(** X21 (the step counter is never reset).  A call that completes a flow
    leaves [current_step] and [flow_start_time] in [flow_variables].  From
    then on, every flow of the manager that has no more steps than the
    counter completes at once when it is selected in this session, without
    running any of its steps. *)
Theorem completed_flow_completes_again (m : Manager) (io : MessageCalls)
  (c : ConversationContext) (fid message : string) (flow : ConversationFlow)
  (k : Z) (started : option Py.Time) :
  flow_get fid m = Some flow ->
  flow_progress k started c ->
  (Z.of_nat (List.length (steps flow)) <= k)%Z ->
  let t0 := match started with Some t => t | None => now_flow_start io end in
  let rc := _execute_conversation_flow m io c fid message in
  flow_completed (fst rc) = Some true /\
  flow_progress k (Some t0) (snd rc) /\
  forall io' fid' flow' message',
    flow_get fid' m = Some flow' ->
    (Z.of_nat (List.length (steps flow')) <= k)%Z ->
    let rc' := _execute_conversation_flow m io' (snd rc) fid' message' in
    flow_completed (fst rc') = Some true /\
    step_completed (fst rc') = None /\
    current_state (snd rc') = COMPLETED /\
    current_flow (snd rc') = None /\
    flow_progress k (Some t0) (snd rc').
Proof.
  intros Hflow Hprog Hlen t0 rc.
  assert (Hdone : flow_completed (fst rc) = Some true)
    by apply (execute_completes m io c fid message flow k started
                Hflow Hprog Hlen).
  assert (Hkeep : flow_progress k (Some t0) (snd rc)).
  { subst rc.
    destruct (execute_prepared m io c fid message flow k started Hflow Hprog)
      as (c2 & Hprog2 & _ & _ & Hexec).
    rewrite Hexec. apply Z.leb_le in Hlen. rewrite Hlen.
    apply complete_flow_progress. exact Hprog2. }
  split; [exact Hdone|]. split; [exact Hkeep|].
  intros io' fid' flow' message' Hflow' Hlen' rc'.
  destruct (execute_completes m io' (snd rc) fid' message' flow' k (Some t0)
              Hflow' Hkeep Hlen') as (_ & Hstate & Hcur & _ & Hdone').
  split; [exact Hdone'|]. split.
  - subst rc'.
    destruct (execute_prepared m io' (snd rc) fid' message' flow' k (Some t0)
                Hflow' Hkeep) as (c2 & _ & _ & _ & Hexec).
    rewrite Hexec. apply Z.leb_le in Hlen'. rewrite Hlen'.
    apply complete_flow_no_step.
  - split; [exact Hstate|]. split; [exact Hcur|]. subst rc'.
    destruct (execute_prepared m io' (snd rc) fid' message' flow' k (Some t0)
                Hflow' Hkeep) as (c2 & Hprog2 & _ & _ & Hexec).
    rewrite Hexec. apply Z.leb_le in Hlen'. rewrite Hlen'.
    apply complete_flow_progress. exact Hprog2.
Qed.

Lemma replace_absent (old_tail new : string) (first : ascii) (s : string) :
  Py.contains (String first EmptyString) s = false ->
  Py.replace (String first old_tail) new s = s.
Proof.
  unfold Py.replace. induction s as [|a s IH]; [reflexivity|].
  cbn [Py.contains Py.is_prefix Py.replace_from].
  intros H. apply orb_false_iff in H. destruct H as [H1 H2].
  rewrite andb_true_r in H1. rewrite H1. cbn [andb].
  rewrite (IH H2). reflexivity.
Qed.

(** X22 (templates without placeholders).  A message step whose
    template holds no opening brace answers with the template itself,
    whatever [flow_variables] holds, and completes. *)
Theorem message_step_without_placeholder (m : Manager)
  (c : ConversationContext) (step_data : list (string * string))
  (message : string) (now : Py.Time) :
  Py.contains "{" (get_default "template" "I understand." step_data) = false ->
  fst (_execute_message_step m c step_data message now) =
  completed_step
    (Response (get_default "template" "I understand." step_data))
    WAITING_FOR_INPUT.
Proof.
  intros H. unfold _execute_message_step. cbn [fst].
  set (template := get_default "template" "I understand." step_data) in *.
  assert (E : forall fv,
            fold_left
              (fun response (kv : string * Value) =>
                 Py.replace (String.append "{" (String.append (fst kv) "}"))
                   (py_str (snd kv)) response) fv template = template).
  { induction fv as [|kv fv IH]; [reflexivity|]. cbn [fold_left].
    cbn [String.append]. rewrite (replace_absent _ _ _ _ H). exact IH. }
  rewrite E. reflexivity.
Qed.

End FlowExtras.

Section StartFacts.
Import Conversation.

(** X23 (one append under a positive bound).  With a positive
    [max_conversation_history], after any single append the history ends
    with the appended entry and holds at most
    [max_conversation_history] entries, however long it was before. *)
Theorem add_history_keeps_bound (m : Manager) (c : ConversationContext)
  (role content : string) (now : Py.Time) :
  (0 < max_conversation_history m)%Z ->
  let c' := _add_to_conversation_history m c role content now in
  (Z.of_nat (List.length (conversation_history c'))
   <= max_conversation_history m)%Z /\
  exists earlier,
    conversation_history c' = earlier ++ [entry_of c (role, content, now)] /\
    Py.subseq earlier (conversation_history c).
Proof.
  intros Hpos c'. subst c'. rewrite add_history_suffix by exact Hpos.
  unfold Py.suffix. apply Z.ltb_lt in Hpos. rewrite Hpos.
  apply Z.ltb_lt in Hpos.
  set (h := conversation_history c).
  set (e := entry_of c (role, content, now)).
  rewrite length_app. cbn [List.length].
  set (n := (List.length h + 1 - Z.to_nat (max_conversation_history m))%nat).
  assert (Hn : (n <= List.length h)%nat) by lia.
  rewrite skipn_app. replace (n - List.length h)%nat with O by lia.
  cbn [skipn]. split.
  - rewrite length_app, length_skipn. cbn [List.length]. lia.
  - exists (skipn n h). split; [reflexivity|].
    generalize n. generalize h. clear.
    intros h. induction h as [|x h IH]; intros [|n]; simpl.
    + apply Py.subseq_nil.
    + apply Py.subseq_nil.
    + apply subseq_refl.
    + apply Py.subseq_skip, IH.
Qed.

Lemma add_history_first (m : Manager) (c : ConversationContext)
  (role content : string) (now : Py.Time) :
  conversation_history c = [] ->
  conversation_history (_add_to_conversation_history m c role content now) =
  if (max_conversation_history m <? 0)%Z then []
  else [entry_of c (role, content, now)].
Proof.
  intros Hh. unfold _add_to_conversation_history, entry_of. rewrite Hh.
  cbn [app List.length fst snd].
  destruct (max_conversation_history m <? 0)%Z eqn:Eneg.
  - apply Z.ltb_lt in Eneg.
    replace (max_conversation_history m <? Z.of_nat 1)%Z with true
      by (symmetry; apply Z.ltb_lt; lia).
    cbn [conversation_history set_history]. unfold Py.suffix.
    replace (0 <? max_conversation_history m)%Z with false
      by (symmetry; apply Z.ltb_ge; lia).
    destruct (Z.to_nat (- max_conversation_history m)) as [|k] eqn:En; [lia|].
    destruct k; reflexivity.
  - apply Z.ltb_ge in Eneg.
    destruct (max_conversation_history m <? Z.of_nat 1)%Z eqn:E1;
      cbn [conversation_history set_history]; [|reflexivity].
    apply Z.ltb_lt in E1. unfold Py.suffix.
    replace (0 <? max_conversation_history m)%Z with false
      by (symmetry; apply Z.ltb_ge; lia).
    replace (max_conversation_history m) with 0%Z by lia. reflexivity.
Qed.

(** X24 (opening a session).  When no session id is supplied, or the
    supplied id is unknown, [start_conversation] creates a session under
    the generated uuid (a supplied unknown id is not used): the session is
    appended to the sessions, is found under the uuid, belongs to the
    given user, listens, has no flow and no flow variables, and its brain
    region is the classification of the first message.  Its history holds
    just this message, or nothing at all under a negative
    [max_conversation_history]. *)
Theorem start_conversation_opens_session (m : Manager) (io : StartCalls)
  (user initial_message : string) (supplied : option string) :
  (forall sid, supplied = Some sid -> session_get sid m = None) ->
  session_get (start_uuid4 io) m = None ->
  let r := start_conversation m io user initial_message supplied in
  session_id (fst r) = start_uuid4 io /\
  sessions (snd r) = sessions m ++ [fst r] /\
  session_get (start_uuid4 io) (snd r) = Some (fst r) /\
  flows (snd r) = flows m /\
  user_id (fst r) = user /\
  current_state (fst r) = LISTENING /\
  current_flow (fst r) = None /\
  flow_variables (fst r) = [] /\
  brain_region (fst r) = _classify_brain_region initial_message /\
  conversation_history (fst r) =
  if (max_conversation_history m <? 0)%Z then []
  else [ {| role := "user"; content := initial_message;
            timestamp := start_now_3 io;
            entry_brain_region := _classify_brain_region initial_message |} ].
Proof.
  intros Hunknown Hfresh. unfold start_conversation.
  assert (Hex : match supplied with
                | Some sid => if Py.truthy sid then session_ref sid m else None
                | None => None
                end = None).
  { destruct supplied as [sid|]; [|reflexivity].
    destruct (Py.truthy sid); [|reflexivity].
    specialize (Hunknown sid eq_refl). unfold session_get in Hunknown.
    destruct (session_ref sid m); [discriminate|reflexivity]. }
  rewrite Hex. cbn [fst snd].
  set (c0 := {| session_id := start_uuid4 io; user_id := user;
                current_state := LISTENING; current_flow := None;
                flow_type := None;
                brain_region := _classify_brain_region initial_message;
                memory_context := []; agent_context := [];
                flow_variables := []; conversation_history := [];
                created_at := start_now_1 io; updated_at := start_now_2 io;
                metadata := [] |}).
  set (c1 := _add_to_conversation_history m c0 "user" initial_message
               (start_now_3 io)).
  destruct (add_history_keeps m c0 "user" initial_message (start_now_3 io))
    as (Hid & Hbr & Hfv & Hst & Hcf). fold c1 in Hid, Hbr, Hfv, Hst, Hcf.
  destruct (add_history_identity m c0 "user" initial_message (start_now_3 io))
    as (_ & Huser & _). fold c1 in Huser.
  assert (Hnone : Py.find_first
                    (fun x => String.eqb (session_id x) (session_id c1))
                    (sessions m) = None).
  { rewrite Hid. cbn [c0 session_id]. unfold session_get, session_ref in Hfresh.
    destruct (Py.find_first _ (sessions m)); [discriminate|reflexivity]. }
  unfold sessions_set. rewrite Hnone. cbn [sessions flows with_sessions].
  split; [exact Hid|]. split; [reflexivity|]. split.
  { unfold session_get, session_ref. cbn [sessions with_sessions].
    rewrite Hid in Hnone. cbn [c0 session_id] in Hnone.
    rewrite (find_first_app_none _ _ _ Hnone), Hid.
    cbn [c0 session_id]. rewrite String.eqb_refl. reflexivity. }
  split; [reflexivity|]. split; [exact Huser|]. split; [exact Hst|].
  split; [exact Hcf|]. split; [exact Hfv|]. split; [exact Hbr|].
  apply (add_history_first m c0 "user" initial_message (start_now_3 io)).
  reflexivity.
Qed.

(** X25 (resuming a session).  [start_conversation] with the id of an
    existing session creates nothing: the session ids are as before, and
    the session keeps its user (the [user_id] argument is not looked at),
    state, flow, flow variables and brain region; only [updated_at] and
    the history change, the message being appended and the history
    trimmed as on every append. *)
Theorem start_conversation_resumes_session (m : Manager) (io : StartCalls)
  (user initial_message sid : string) (c0 : ConversationContext) :
  sid <> "" ->
  session_get sid m = Some c0 ->
  let r := start_conversation m io user initial_message (Some sid) in
  session_id (fst r) = sid /\
  map session_id (sessions (snd r)) = map session_id (sessions m) /\
  session_get sid (snd r) = Some (fst r) /\
  user_id (fst r) = user_id c0 /\
  current_state (fst r) = current_state c0 /\
  current_flow (fst r) = current_flow c0 /\
  flow_variables (fst r) = flow_variables c0 /\
  brain_region (fst r) = brain_region c0 /\
  updated_at (fst r) = start_now_1 io /\
  fst r =
  _add_to_conversation_history m (set_updated_at c0 (start_now_1 io))
    "user" initial_message (start_now_3 io).
Proof.
  intros Hne Hget. unfold start_conversation.
  assert (Ht : Py.truthy sid = true) by (destruct sid; [congruence|reflexivity]).
  rewrite Ht. unfold session_get in Hget.
  destruct (session_ref sid m) as [[i c]|] eqn:Href; [|discriminate].
  cbn [option_map snd] in Hget. assert (c = c0) by congruence. subst c.
  cbn [fst snd].
  set (c1 := set_updated_at c0 (start_now_1 io)).
  set (c2 := _add_to_conversation_history m c1 "user" initial_message
               (start_now_3 io)).
  destruct (add_history_keeps m c1 "user" initial_message (start_now_3 io))
    as (Hid & Hbr & Hfv & Hst & Hcf). fold c2 in Hid, Hbr, Hfv, Hst, Hcf.
  destruct (add_history_identity m c1 "user" initial_message (start_now_3 io))
    as (_ & Huser & _). fold c2 in Huser.
  destruct (find_first_some _ _ _ _ Href) as (Hn & Hsid & _).
  apply String.eqb_eq in Hsid.
  assert (Hid2 : session_id c2 = sid) by (rewrite Hid; exact Hsid).
  unfold sessions_set. rewrite Hid2.
  unfold session_ref in Href. rewrite Href.
  cbn [sessions with_sessions].
  split; [reflexivity|]. split.
  { apply (map_replace_nth session_id _ i c0 c2 Hn). congruence. }
  split.
  { unfold session_get, session_ref. cbn [sessions with_sessions].
    rewrite (find_first_replace _ _ _ _ _ _ c2 Href Hn)
      by (rewrite Hid2, Hsid; reflexivity).
    rewrite Nat.eqb_refl. reflexivity. }
  split; [exact Huser|]. split; [exact Hst|]. split; [exact Hcf|].
  split; [exact Hfv|]. split; [exact Hbr|]. split; [|reflexivity].
  subst c2. unfold _add_to_conversation_history.
  destruct (_ <? _)%Z; reflexivity.
Qed.

End StartFacts.

Section DefaultPath.
Context {RT : Conversation.PyRuntime}.
Import Conversation.

Lemma flow_score_ext (c c' : ConversationContext) (ml : string)
  (f : ConversationFlow) :
  brain_region c' = brain_region c ->
  flow_variables c' = flow_variables c ->
  flow_score c' ml f = flow_score c ml f.
Proof. intros Hb Hf. unfold flow_score. rewrite Hb, Hf. reflexivity. Qed.

Lemma determine_none (m : Manager) (c : ConversationContext)
  (message : string) :
  Forall (fun f => flow_score c (Py.lower message) f <= 1 # 2) (flows m) ->
  fst (_determine_conversation_flow m c message) = None.
Proof.
  intros Hall.
  pose proof (determine_fold c (Py.lower message) (flows m) [] (None, 0)) as H.
  cbn zeta in H. unfold _determine_conversation_flow.
  destruct (fst (fold_left _ (flows m) (None, 0))) as [fid|] eqn:E;
    [|reflexivity].
  destruct H as (Hgt & _ & f & Hin & _ & Hsc).
  { cbn [fst snd]. split; [reflexivity|constructor]. }
  rewrite Forall_forall in Hall. specialize (Hall f Hin). cbn beta in Hall.
  cbn [app] in Hsc. rewrite Hsc in Hall. lra.
Qed.

Lemma add_history_of_history (m : Manager) (c c' : ConversationContext)
  (role content : string) (now : Py.Time) :
  conversation_history c' = conversation_history c ->
  brain_region c' = brain_region c ->
  conversation_history (_add_to_conversation_history m c' role content now) =
  conversation_history (_add_to_conversation_history m c role content now).
Proof.
  intros Hh Hb. unfold _add_to_conversation_history. rewrite Hh, Hb.
  destruct (_ <? _)%Z; reflexivity.
Qed.

Lemma add_history_updated_at (m : Manager) (c : ConversationContext)
  (role content : string) (now : Py.Time) :
  updated_at (_add_to_conversation_history m c role content now) =
  updated_at c.
Proof.
  unfold _add_to_conversation_history. destruct (_ <? _)%Z; reflexivity.
Qed.

(** X26 (a message that selects no flow).  When no registered flow scores
    above 0.5 for the session and the message, [process_message] succeeds
    with the default response, which quotes the message.  The result
    announces [waiting_for_input], but the session itself is left in state
    [LISTENING]; its flow and flow variables are as before, [updated_at]
    is the reading taken at the start of the call, and its history is the
    one obtained by appending the message and then the response. *)
Theorem process_message_without_flow (m : Manager) (io : MessageCalls)
  (sid message message_type : string) (c : ConversationContext) :
  session_get sid m = Some c ->
  Forall (fun f => flow_score c (Py.lower message) f <= 1 # 2) (flows m) ->
  let response :=
    String.append "I understand you said: "
      (String.append message ". How can I help you further?") in
  let r := process_message m io sid message message_type in
  success (fst r) = true /\
  payload (fst r) = Response response /\
  next_state (fst r) = Some WAITING_FOR_INPUT /\
  exists c',
    session_get sid (snd r) = Some c' /\
    current_state c' = LISTENING /\
    current_flow c' = current_flow c /\
    flow_variables c' = flow_variables c /\
    updated_at c' = now_updated_at io /\
    conversation_history c' =
    conversation_history
      (append_all m c
         [(message_type, message, now_message io);
          ("assistant", response, now_step io)]).
Proof.
  intros Hget Hall. cbn zeta. unfold process_message.
  unfold session_get in Hget.
  destruct (session_ref sid m) as [[i c0]|] eqn:Href; [|discriminate].
  cbn [option_map snd] in Hget. assert (c0 = c) by congruence. subst c0.
  set (c1 := set_updated_at (set_state c PROCESSING) (now_updated_at io)).
  set (c2 := _add_to_conversation_history m c1 message_type message
               (now_message io)).
  destruct (add_history_keeps m c1 message_type message (now_message io))
    as (Hid & Hbr & Hfv & Hst & Hcf). fold c2 in Hid, Hbr, Hfv, Hst, Hcf.
  assert (Hnone : fst (_determine_conversation_flow m c2 message) = None).
  { apply determine_none. eapply Forall_impl; [|exact Hall].
    intros f Hf. cbn beta in Hf |- *.
    rewrite (flow_score_ext c c2); [exact Hf|exact Hbr|exact Hfv]. }
  rewrite Hnone. unfold _default_message_processing. cbn [fst snd].
  set (response := String.append "I understand you said: "
                     (String.append message ". How can I help you further?")).
  set (c3 := _add_to_conversation_history m (set_state c2 LISTENING)
               "assistant" response (now_step io)).
  destruct (add_history_keeps m (set_state c2 LISTENING) "assistant" response
              (now_step io)) as (Hid3 & Hbr3 & Hfv3 & Hst3 & Hcf3).
  fold c3 in Hid3, Hbr3, Hfv3, Hst3, Hcf3.
  cbn [success payload next_state].
  split; [reflexivity|]. split; [reflexivity|]. split; [reflexivity|].
  exists c3. split.
  { unfold session_get.
    rewrite (session_ref_replaced m sid i c c3 Href); [reflexivity|].
    rewrite Hid3. cbn [session_id set_state]. rewrite Hid. reflexivity. }
  split; [exact Hst3|]. split.
  { rewrite Hcf3. cbn [current_flow set_state]. rewrite Hcf. reflexivity. }
  split.
  { rewrite Hfv3. cbn [flow_variables set_state]. rewrite Hfv. reflexivity. }
  split.
  { unfold c3. rewrite add_history_updated_at. cbn [updated_at set_state].
    unfold c2. rewrite add_history_updated_at. reflexivity. }
  unfold append_all. cbn [fold_left fst snd]. unfold c3.
  apply add_history_of_history.
  - cbn [conversation_history set_state]. unfold c2.
    apply add_history_of_history; reflexivity.
  - cbn [brain_region set_state]. rewrite Hbr.
    destruct (add_history_keeps m c message_type message (now_message io))
      as (_ & Hb & _). rewrite Hb. reflexivity.
Qed.

End DefaultPath.

Section FailedRefit.
Context {SK : Sklearn}.
Import Learning.


End FailedRefit.

(** * The further properties on the example stores and sessions *)

Lemma alpha_store_bounded : Learning.scores_bounded Demo.alpha_store.
Proof. vm_compute. repeat constructor; discriminate. Qed.

Lemma alpha_store_current : Learning.index_current Demo.alpha_store.
Proof. vm_compute. split; reflexivity. Qed.

Lemma learn_creates_retrievable_pattern_witness :
  Learning.min_success_score Demo.adapter0 <= 9 # 10 /\
  exists p,
    Learning.patterns
      (Demo.learn Demo.adapter0 "p-1" 0 "alpha" (9 # 10) "R" "conversation")
    = Learning.patterns Demo.adapter0 ++ [p] /\
    Learning.dict_get "p-1"
      (Learning.patterns
         (Demo.learn Demo.adapter0 "p-1" 0 "alpha" (9 # 10) "R"
            "conversation")) = Some p /\
    Learning.usage_count p = 1%Z /\
    Learning.effectiveness_score p = 9 # 10.
Proof.
  assert (H : Learning.min_success_score Demo.adapter0 <= 9 # 10)
    by (unfold Qle; simpl; lia).
  split; [exact H|].
  destruct (learn_creates_retrievable_pattern (SK := Demo.sklearn)
              Demo.adapter0 (Demo.calls "p-1" 0) "alpha" "ok" (9 # 10) "R"
              "conversation" [] H eq_refl eq_refl)
    as (_ & _ & p & Hp & Hget & _ & _ & _ & _ & _ & _ & He & Hu & _).
  exists p. repeat split; assumption.
Defined.

Lemma mutators_keep_scores_bounded_witness :
  Learning.scores_bounded Demo.alpha_store /\
  Learning.scores_bounded
    (snd (Learning.record_feedback Demo.alpha_store
            (Demo.feedback_calls "f-1" 1 "p-2") "p-1" "user" "negative"
            (- (1)) "ok" None [])).
Proof.
  split; [exact alpha_store_bounded|].
  apply (proj1 (proj2 (mutators_keep_scores_bounded (SK := Demo.sklearn)
                         Demo.alpha_store alpha_store_bounded)));
    unfold Qle; simpl; lia.
Defined.

Lemma mutators_keep_ids_distinct_witness :
  NoDup (map Learning.id (Learning.patterns Demo.mixed_store)) /\
  NoDup (map Learning.id
           (Learning.patterns
              (Learning.cleanup_old_patterns Demo.mixed_store
                 Demo.cleanup_now))).
Proof.
  assert (H : NoDup (map Learning.id (Learning.patterns Demo.mixed_store))).
  { vm_compute. repeat constructor; simpl; intuition discriminate. }
  split; [exact H|].
  apply (proj2 (proj2 (mutators_keep_ids_distinct (SK := Demo.sklearn)
                         Demo.mixed_store H))).
Defined.

Lemma stored_patterns_only_grow_witness :
  In Demo.alpha_pattern (Learning.patterns Demo.alpha_store) /\
  exists p',
    Learning.dict_get "p-1"
      (Learning.patterns
         (Demo.learn Demo.alpha_store "p-2" 1 "alpha" (9 # 10) "R"
            "conversation")) = Some p' /\
    Learning.grown Demo.alpha_pattern p'.
Proof.
  assert (Hin : In Demo.alpha_pattern (Learning.patterns Demo.alpha_store))
    by (left; reflexivity).
  assert (Hn : NoDup (map Learning.id (Learning.patterns Demo.alpha_store))).
  { vm_compute. repeat constructor; simpl; intuition discriminate. }
  split; [exact Hin|].
  exact (proj1 (stored_patterns_only_grow (SK := Demo.sklearn)
                  Demo.alpha_store Demo.alpha_pattern Hn Hin)
           (Demo.calls "p-2" 1) "alpha" "ok" (9 # 10) "R" "conversation" []
           eq_refl).
Defined.

Lemma cleanup_is_idempotent_witness :
  NoDup (map Learning.id (Learning.patterns Demo.stale_store)) /\
  Learning.patterns
    (Learning.cleanup_old_patterns
       (Learning.cleanup_old_patterns Demo.stale_store Demo.cleanup_now)
       Demo.cleanup_now) =
  Learning.patterns
    (Learning.cleanup_old_patterns Demo.stale_store Demo.cleanup_now).
Proof.
  assert (H : NoDup (map Learning.id (Learning.patterns Demo.stale_store))).
  { vm_compute. repeat constructor; simpl; intuition discriminate. }
  split; [exact H|].
  apply (cleanup_is_idempotent (SK := Demo.sklearn) Demo.stale_store
           Demo.cleanup_now H).
Defined.

Lemma cleanup_of_all_patterns_leaves_index_witness :
  Learning.patterns Demo.weak_store <> [] /\
  Learning.patterns
    (Learning.cleanup_old_patterns Demo.weak_store Demo.cleanup_now) = [] /\
  Learning.vectorizer
    (Learning.cleanup_old_patterns Demo.weak_store Demo.cleanup_now) =
  Learning.vectorizer Demo.weak_store /\
  Learning.retrieve_relevant_patterns
    (Learning.cleanup_old_patterns Demo.weak_store Demo.cleanup_now)
    "alpha" None None 5 = [].
Proof.
  assert (H : Learning.patterns Demo.weak_store <> [])
    by (vm_compute; discriminate).
  split; [exact H|].
  destruct (cleanup_of_all_patterns_leaves_index (SK := Demo.sklearn)
              Demo.weak_store Demo.cleanup_now H) as (H1 & H2 & _ & H4).
  - intros p Hp. vm_compute in Hp. destruct Hp as [<-|[]].
    vm_compute. reflexivity.
  - split; [exact H1|]. split; [exact H2|apply H4].
Defined.

Lemma index_stays_current_witness :
  Learning.indexed Demo.alpha_store /\
  Learning.indexed
    (Demo.learn Demo.alpha_store "p-2" 1 "beta" (9 # 10) "R" "tool_usage").
Proof.
  assert (H : Learning.indexed Demo.alpha_store)
    by (right; exact alpha_store_current).
  split; [exact H|].
  apply (proj1 (index_stays_current (SK := Demo.sklearn) Demo.alpha_store H)
           (Demo.calls "p-2" 1) "beta" "ok" (9 # 10) "R" "tool_usage" []).
  vm_compute. reflexivity.
Defined.

Lemma mixed_store_current : Learning.index_current Demo.mixed_store.
Proof. vm_compute. split; reflexivity. Qed.

Lemma retrieve_on_current_index_witness :
  Learning.index_current Demo.mixed_store /\
  map Learning.input_context (Learning.patterns Demo.mixed_store)
  = ["alpha"; "beta"; "alpha"] /\
  Learning.retrieve_relevant_patterns Demo.mixed_store "alpha" None None 5 =
  Learning.retrieve_by_own_similarity Demo.mixed_store "alpha" None None 5 /\
  map Learning.id
    (Learning.retrieve_relevant_patterns Demo.mixed_store "alpha" None None 5)
  = ["p-1"; "p-3"; "p-2"] /\
  map Learning.id
    (Learning.retrieve_relevant_patterns Demo.mixed_store "beta" None None 1)
  = ["p-2"].
Proof.
  split; [exact mixed_store_current|]. split; [reflexivity|].
  assert (Hall : forall p, In p (Learning.patterns Demo.mixed_store) ->
                           Learning.is_candidate None None p = true)
    by (intros p _; reflexivity).
  split; [|split].
  - apply (retrieve_on_current_index (SK := Demo.sklearn) Demo.mixed_store
             "alpha" None None 5 mixed_store_current Hall).
  - rewrite (retrieve_on_current_index (SK := Demo.sklearn) Demo.mixed_store
               "alpha" None None 5 mixed_store_current Hall).
    vm_compute. reflexivity.
  - rewrite (retrieve_on_current_index (SK := Demo.sklearn) Demo.mixed_store
               "beta" None None 1 mixed_store_current Hall).
    vm_compute. reflexivity.
Defined.

Lemma stats_average_in_unit_interval_witness :
  Learning.scores_bounded Demo.alpha_store /\
  0 <= Reports.st_average_effectiveness
         (Reports.get_learning_stats Demo.alpha_store) /\
  Reports.st_average_effectiveness
    (Reports.get_learning_stats Demo.alpha_store) <= 1.
Proof.
  split; [exact alpha_store_bounded|].
  apply (stats_average_in_unit_interval (SK := Demo.sklearn)
           Demo.alpha_store alpha_store_bounded).
Defined.

Lemma default_flows_cover_frontal_and_temporal_witness :
  Conversation.brain_region Demo.session = "FRONTAL_LOBE" /\
  (fst (Conversation._determine_conversation_flow
          (Demo.manager_with_session 50) Demo.session "tell me a story")
   = Some "memory_interaction" \/
   fst (Conversation._determine_conversation_flow
          (Demo.manager_with_session 50) Demo.session "tell me a story")
   = Some "simple_qa") /\
  8 # 10 <= snd (Conversation._determine_conversation_flow
                   (Demo.manager_with_session 50) Demo.session
                   "tell me a story").
Proof.
  assert (H : Conversation.brain_region Demo.session = "FRONTAL_LOBE")
    by reflexivity.
  split; [exact H|].
  apply (default_flows_cover_frontal_and_temporal
           (Demo.manager_with_session 50) Demo.session "tell me a story"
           eq_refl (or_introl H)).
Defined.

Lemma unrunnable_step_blocks_flow_witness :
  Conversation.agent_get "planner" Demo.custom_manager = None /\
  Conversation.success
    (fst (Conversation._execute_conversation_flow (RT := Demo.runtime)
            Demo.custom_manager (Demo.message_calls 1) Demo.session
            "handoff" "plan my week")) = false /\
  Conversation.flow_progress 0 (Some 1%Z)
    (snd (Conversation._execute_conversation_flow (RT := Demo.runtime)
            Demo.custom_manager (Demo.message_calls 1) Demo.session
            "handoff" "plan my week")).
Proof.
  split; [reflexivity|].
  destruct (unrunnable_step_blocks_flow (RT := Demo.runtime)
              Demo.custom_manager (Demo.message_calls 1) Demo.session
              "handoff" "plan my week" Demo.handoff_flow 0 None
              {| Conversation.step_type := Some "agent_call";
                 Conversation.step_data := [("agent_id", "planner")] |}
              eq_refl (Z.le_refl 0) (conj eq_refl eq_refl) eq_refl eq_refl)
    as (H1 & _ & _ & _ & H5).
  split; [exact H1|exact H5].
Defined.


Lemma completed_flow_completes_again_witness :
  Conversation.flow_progress 1 (Some 1%Z) Demo.answered /\
  Conversation.flow_completed
    (fst (Conversation._execute_conversation_flow (RT := Demo.runtime)
            (Demo.manager_with_session 50) (Demo.message_calls 2)
            Demo.answered "simple_qa" "thanks")) = Some true /\
  Conversation.flow_completed
    (fst (Conversation._execute_conversation_flow (RT := Demo.runtime)
            (Demo.manager_with_session 50) (Demo.message_calls 3)
            (snd (Conversation._execute_conversation_flow
                    (RT := Demo.runtime)
                    (Demo.manager_with_session 50) (Demo.message_calls 2)
                    Demo.answered "simple_qa" "thanks"))
            "simple_qa" "and again")) = Some true.
Proof.
  assert (H : Conversation.flow_progress 1 (Some 1%Z) Demo.answered)
    by (split; reflexivity).
  split; [exact H|].
  destruct (completed_flow_completes_again (RT := Demo.runtime)
              (Demo.manager_with_session 50) (Demo.message_calls 2)
              Demo.answered "simple_qa" "thanks" Conversation.qa_flow 1
              (Some 1%Z) eq_refl H)
    as (H1 & _ & H3).
  - simpl. lia.
  - split; [exact H1|].
    apply (H3 (Demo.message_calls 3) "simple_qa" Conversation.qa_flow
             "and again" eq_refl).
    simpl. lia.
Defined.

Lemma message_step_without_placeholder_witness :
  fst (Conversation._execute_message_step (RT := Demo.runtime)
         (Demo.manager_with_session 50) Demo.session
         [("template", "Let me help you with that question.")]
         "what is this?" 1%Z)
  = Conversation.completed_step
      (Conversation.Response "Let me help you with that question.")
      Conversation.WAITING_FOR_INPUT.
Proof.
  apply (message_step_without_placeholder (RT := Demo.runtime)
           (Demo.manager_with_session 50) Demo.session
           [("template", "Let me help you with that question.")]
           "what is this?" 1%Z).
  reflexivity.
Defined.

Lemma add_history_keeps_bound_witness :
  List.length (Conversation.conversation_history Demo.session) = 1%nat /\
  (Z.of_nat
     (List.length
        (Conversation.conversation_history
           (Conversation._add_to_conversation_history (Conversation.init 1)
              Demo.session "assistant" "an answer" 2%Z)))
   <= Conversation.max_conversation_history (Conversation.init 1))%Z.
Proof.
  split; [reflexivity|].
  apply (proj1 (add_history_keeps_bound (Conversation.init 1) Demo.session
                  "assistant" "an answer" 2%Z ltac:(simpl; lia))).
Defined.

Lemma start_conversation_opens_session_witness :
  Conversation.session_get "s-1" (Conversation.init 50) = None /\
  Conversation.sessions (Demo.manager_with_session 50) = [Demo.session] /\
  Conversation.session_get "s-1" (Demo.manager_with_session 50)
  = Some Demo.session /\
  Conversation.current_state Demo.session = Conversation.LISTENING.
Proof.
  split; [reflexivity|].
  destruct (start_conversation_opens_session (Conversation.init 50)
              (Demo.start_calls "s-1" 0) "user" "what is this?" None)
    as (_ & H2 & H3 & _ & _ & H6 & _).
  - intros sid Hs. discriminate Hs.
  - reflexivity.
  - split; [exact H2|]. split; [exact H3|exact H6].
Defined.

Lemma start_conversation_resumes_session_witness :
  Conversation.session_get "s-1" (Demo.manager_with_session 50)
  = Some Demo.session /\
  Conversation.user_id
    (fst (Conversation.start_conversation (Demo.manager_with_session 50)
            (Demo.start_calls "s-2" 5) "someone else" "and this?"
            (Some "s-1"))) = "user" /\
  map Conversation.session_id
    (Conversation.sessions
       (snd (Conversation.start_conversation (Demo.manager_with_session 50)
               (Demo.start_calls "s-2" 5) "someone else" "and this?"
               (Some "s-1")))) = ["s-1"].
Proof.
  assert (H : Conversation.session_get "s-1" (Demo.manager_with_session 50)
              = Some Demo.session) by reflexivity.
  split; [exact H|].
  destruct (start_conversation_resumes_session (Demo.manager_with_session 50)
              (Demo.start_calls "s-2" 5) "someone else" "and this?" "s-1"
              Demo.session ltac:(discriminate) H)
    as (_ & H2 & _ & H4 & _).
  split; [exact H4|exact H2].
Defined.

Lemma process_message_without_flow_witness :
  Conversation.brain_region Demo.personal_session = "OCCIPITAL_LOBE" /\
  Conversation.success
    (fst (Conversation.process_message (RT := Demo.runtime)
            Demo.personal_manager (Demo.message_calls 1) "s-2"
            "call me Ann" "user")) = true /\
  exists c',
    Conversation.session_get "s-2"
      (snd (Conversation.process_message (RT := Demo.runtime)
              Demo.personal_manager (Demo.message_calls 1) "s-2"
              "call me Ann" "user")) = Some c' /\
    Conversation.current_state c' = Conversation.LISTENING /\
    List.length (Conversation.conversation_history c') = 3%nat.
Proof.
  split; [reflexivity|].
  destruct (process_message_without_flow (RT := Demo.runtime)
              Demo.personal_manager (Demo.message_calls 1) "s-2"
              "call me Ann" "user" Demo.personal_session eq_refl)
    as (H1 & _ & _ & c' & Hc & Hs & _ & _ & _ & Hh).
  - repeat constructor; vm_compute; discriminate.
  - split; [exact H1|]. exists c'. split; [exact Hc|]. split; [exact Hs|].
    rewrite Hh. reflexivity.
Defined.

